(** * ghostfolio: the portfolio rule engine and the portfolio controller

    A shallow embedding of

    - [CurrencyClusterRiskBaseCurrencyInitialInvestment] (the rule class that
      follows the constants in [libs/common/src/lib/config.ts]): its
      [evaluate] and [getSettings] methods;
    - [PortfolioController] ([apps/api/src/app/portfolio/portfolio.controller.ts]):
      [findAll], [getChart], [getDetails] and [getPublic];
    - [AdminService] ([apps/api/src/app/admin/admin.service.ts]): [get],
      [getMarketData] and [getUsersWithAnalytics].

    JavaScript numbers are modelled twice.  [Number.t] is an idealisation:
    the IEEE special values [NaN], [Infinity] and [-Infinity] are kept,
    finite values are exact rationals (no rounding to binary64, no
    overflow), and the two zeros are identified.  What is proved on it is
    stated of the source only where binary64 gives the same: comparisons,
    special values and divisions by zero, bounds that rounding to nearest
    respects, sums of integers below [2^53]; or where the property is itself
    one of exact arithmetic.  [Binary64] is the arithmetic of the source, on
    the primitive floats; [InBinary64] embeds [evaluate] on it, for what
    depends on rounding or overflow: the percentage it prints.

    Methods that can throw return a [result]. *)

From Stdlib Require Import ZArith QArith Qcanon List String Ascii Bool Lia.
From Stdlib Require Import DecimalString Floats.
Import ListNotations.
Local Open Scope string_scope.

(** ** Exceptions and results *)

Inductive Exception : Type :=
| TypeError               (* a property read on [undefined] or [null] *)
| RangeError              (* [toPrecision] argument out of range *)
| Rejected (reason : string). (* a rejected promise of an injected service *)

Inductive result (A : Type) : Type :=
| Ok (a : A)
| Throw (e : Exception).

Arguments Ok {A} a.
Arguments Throw {A} e.

Definition bind {A B : Type} (r : result A) (k : A -> result B) : result B :=
  match r with
  | Ok a => k a
  | Throw e => Throw e
  end.

Notation "x <- r ;; k" := (bind r (fun x => k))
  (at level 61, r at next level, right associativity).

(** ** JavaScript numbers *)

Module Number.

Inductive t : Type :=
| NaN
| Infinity (negative : bool)
| Fin (q : Qc).

Definition ofZ (z : Z) : t := Fin (Q2Qc (inject_Z z)).

Definition isZero (q : Qc) : bool :=
  match (q ?= 0)%Qc with Eq => true | _ => false end.

Definition isNegative (q : Qc) : bool :=
  match (q ?= 0)%Qc with Lt => true | _ => false end.

(** [x + y] *)
Definition add (x y : t) : t :=
  match x, y with
  | NaN, _ | _, NaN => NaN
  | Infinity a, Infinity b => if Bool.eqb a b then Infinity a else NaN
  | Infinity a, Fin _ | Fin _, Infinity a => Infinity a
  | Fin a, Fin b => Fin (a + b)
  end.

(** [x * y] *)
Definition mul (x y : t) : t :=
  match x, y with
  | NaN, _ | _, NaN => NaN
  | Infinity a, Infinity b => Infinity (xorb a b)
  | Infinity a, Fin q | Fin q, Infinity a =>
      if isZero q then NaN else Infinity (xorb a (isNegative q))
  | Fin a, Fin b => Fin (a * b)
  end.

(** [x / y]; a zero divisor is the positive zero. *)
Definition div (x y : t) : t :=
  match x, y with
  | NaN, _ | _, NaN => NaN
  | Infinity _, Infinity _ => NaN
  | Infinity a, Fin q => Infinity (xorb a (isNegative q))
  | Fin _, Infinity _ => Fin 0
  | Fin a, Fin b =>
      if isZero b
      then if isZero a then NaN else Infinity (isNegative a)
      else Fin (a / b)
  end.

(** [x > y] *)
Definition gt (x y : t) : bool :=
  match x, y with
  | NaN, _ | _, NaN => false
  | Infinity a, Infinity b => negb a && b
  | Infinity a, Fin _ => negb a
  | Fin _, Infinity b => b
  | Fin a, Fin b => match (a ?= b)%Qc with Gt => true | _ => false end
  end.

(** ToBoolean: [NaN] and zero are falsy. *)
Definition toBoolean (x : t) : bool :=
  match x with
  | NaN => false
  | Infinity _ => true
  | Fin q => negb (isZero q)
  end.

(** [x || y] on numbers *)
Definition or (x y : t) : t := if toBoolean x then x else y.

(** *** Number.prototype.toPrecision *)

Definition digitsOf (n : Z) : string :=
  NilZero.string_of_uint (N.to_uint (Z.to_N n)).

Fixpoint zeros (k : nat) : string :=
  match k with
  | O => ""
  | S k' => String "0" (zeros k')
  end.

(** [n/d / 10^e] as a fraction of integers. *)
Definition scaled (e n d : Z) : Z * Z :=
  if (0 <=? e)%Z then (n, (d * 10 ^ e)%Z) else ((n * 10 ^ (- e))%Z, d).

(** [10^e <= n/d] *)
Definition pow10le (e n d : Z) : bool :=
  let '(a, b) := scaled e n d in (b <=? a)%Z.

(** The largest [e' <= e] with [10^e' <= n/d], found by scanning downwards. *)
Fixpoint magnitude (fuel : nat) (e n d : Z) : Z :=
  match fuel with
  | O => e
  | S fuel' => if pow10le e n d then e else magnitude fuel' (e - 1) n d
  end.

(** The integer nearest to [n/d / 10^e], the larger one on a tie. *)
Definition rounded (e n d : Z) : Z :=
  let '(a, b) := scaled e n d in ((2 * a + b) / (2 * b))%Z.

(** The integers [n] and [e] of the ECMAScript algorithm for [x = n/d > 0]:
    [10^(p-1) <= n < 10^p] and [n * 10^(e-p+1)] is as close to [x] as
    possible. *)
Definition significand (p n d : Z) : Z * Z :=
  let e := magnitude (Z.to_nat (Z.log2 n + Z.log2 d + 3)) (Z.log2 n + 1) n d in
  let m := rounded (e - (p - 1)) n d in
  if (m =? 10 ^ p)%Z then ((10 ^ (p - 1))%Z, (e + 1)%Z) else (m, e).

Definition exponential (s m : string) (p e : Z) : string :=
  let a := substring 0 1 m in
  let b := substring 1 (Z.to_nat (p - 1)) m in
  let m' := if (p =? 1)%Z then a else a ++ "." ++ b in
  let c := if (e <? 0)%Z then "-" else "+" in
  s ++ m' ++ "e" ++ c ++ digitsOf (Z.abs e).

Definition fixed (s m : string) (p e : Z) : string :=
  if (e =? p - 1)%Z then s ++ m
  else if (0 <=? e)%Z
  then s ++ substring 0 (Z.to_nat (e + 1)) m ++ "."
         ++ substring (Z.to_nat (e + 1)) (Z.to_nat (p - (e + 1))) m
  else s ++ "0." ++ zeros (Z.to_nat (- (e + 1))) ++ m.

Definition toPrecision (x : t) (precision : Z) : result string :=
  match x with
  | NaN => Ok "NaN"
  | Infinity false => Ok "Infinity"
  | Infinity true => Ok "-Infinity"
  | Fin q =>
      if ((precision <? 1) || (100 <? precision))%Z then Throw RangeError
      else
        let s := if isNegative q then "-" else "" in
        let '(m, e) :=
          if isZero q then (zeros (Z.to_nat precision), 0%Z)
          else
            let '(n, e) := significand precision (Z.abs (Qnum q)) (Zpos (Qden q)) in
            (digitsOf n, e) in
        if ((e <? -6) || (precision <=? e))%Z
        then Ok (exponential s m precision e)
        else Ok (fixed s m precision e)
  end.

End Number.

(** ** Methods

    A method of an object of type [S] reads and may update the object, and
    returns or throws.  An exception leaves the object as it was at the
    throw.  The objects that outlive a call and that others hold as well,
    the rule object with its position set and the response, are the state
    of a method, and a write to them is an update of the state.  Objects a
    handler receives from a service and sends on without keeping them are
    values, and a write to their fields is a new value. *)

Definition Method (S A : Type) : Type := S -> result A * S.

Definition ret {S A : Type} (a : A) : Method S A := fun this => (Ok a, this).

Definition gets {S A : Type} (f : S -> A) : Method S A :=
  fun this => (Ok (f this), this).

Definition lift {S A : Type} (r : result A) : Method S A :=
  fun this => (r, this).

Definition mbind {S A B : Type} (m : Method S A) (k : A -> Method S B)
  : Method S B :=
  fun this =>
    match m this with
    | (Ok a, this') => k a this'
    | (Throw e, this') => (Throw e, this')
    end.

Notation "x <~ m ;; k" := (mbind m (fun x => k))
  (at level 61, m at next level, right associativity).

(** Reading property [f] of a value that may be [undefined] or [null]. *)
Definition property {A B : Type} (f : A -> B) (o : option A) : result B :=
  match o with
  | Some a => Ok (f a)
  | None => Throw TypeError
  end.

(** [Array.prototype.forEach] with a callback that updates the captured
    variables [s] and may throw. *)
Definition forEach {A S : Type} (callback : S -> A -> result S)
  (array : list A) (s : S) : result S :=
  fold_left (fun r a => s' <- r ;; callback s' a) array (Ok s).

(** ** Data model *)

(** Modelled from the spec: the position interface is not under src; the
    fields are those of section 3 of the specification.  Decimals are exact
    rationals. *)
Module Position.
Record t : Type := {
  symbol : string;
  currency : string;
  assetClass : string;
  quantity : Qc;
  marketPrice : Qc;
  sectors : list (string * Qc);
  countries : list (string * Qc);
  investment : Qc
}.
End Position.

(** Modelled from the spec: the position set of one user, the accumulated
    fees and the symbols whose market data could not be resolved. *)
Module CurrentPositions.
Record t : Type := {
  positions : list Position.t;
  fees : Qc;
  errors : list string
}.
End CurrentPositions.

(** Modelled from the spec: [{groupKey, investment, positions}]. *)
Module GroupItem.
Record t : Type := {
  groupKey : string;
  investment : Qc;
  positions : list Position.t
}.
End GroupItem.

(** Modelled from the spec: the exchange-rate adapter,
    [toCurrency(amount, from, to)]. *)
Record ExchangeRateDataService : Type := {
  toCurrency : Number.t -> string -> string -> Number.t
}.

(** Modelled from the spec: the user settings interface is not under src.
    User settings supply the base currency and the per-rule preferences,
    here the activation preference, looked up by rule name. *)
Module UserSettings.
Record t : Type := {
  baseCurrency : string;
  isActive : string -> bool
}.
End UserSettings.

(** [interface Settings extends RuleSettings { baseCurrency: Currency }] *)
Record Settings : Type := {
  baseCurrency : string;
  isActive : bool
}.

Record Evaluation : Type := {
  evaluation : string;
  value : bool
}.

(** ** Grouping helper of the rule base class *)

Inductive Attribute : Type :=
| Currency
| AssetClass
| Sectors
| Countries.

(** Modelled from the spec: the keys a position belongs to under an
    attribute, each with its allocation weight. *)
Definition attributeSelector (attribute : Attribute) (p : Position.t)
  : list (string * Qc) :=
  match attribute with
  | Currency => [(Position.currency p, 1%Qc)]
  | AssetClass => [(Position.assetClass p, 1%Qc)]
  | Sectors => Position.sectors p
  | Countries => Position.countries p
  end.

(** Adds [amount] of position [p] to the group of [key], creating the group
    at the end of the sequence at the first occurrence of [key]. *)
Fixpoint allocate (p : Position.t) (key : string) (amount : Qc)
  (groups : list GroupItem.t) : list GroupItem.t :=
  match groups with
  | [] =>
      [{| GroupItem.groupKey := key;
          GroupItem.investment := amount;
          GroupItem.positions := [p] |}]
  | g :: rest =>
      if String.eqb (GroupItem.groupKey g) key
      then {| GroupItem.groupKey := GroupItem.groupKey g;
              GroupItem.investment := (GroupItem.investment g + amount)%Qc;
              GroupItem.positions := GroupItem.positions g ++ [p] |} :: rest
      else g :: allocate p key amount rest
  end.

Definition allocatePosition (attribute : Attribute)
  (groups : list GroupItem.t) (p : Position.t) : list GroupItem.t :=
  fold_left
    (fun groups kw =>
       allocate p (fst kw) (Position.investment p * snd kw)%Qc groups)
    (attributeSelector attribute p) groups.

Definition hasGroup (key : string) (groups : list GroupItem.t) : bool :=
  existsb (fun g => String.eqb (GroupItem.groupKey g) key) groups.

(** Modelled from the spec: [groupCurrentPositionsByAttribute] belongs to
    the rule base class, which is not under src.  Section 4.2: positions are
    grouped by the attribute's value in order of first occurrence, a
    position is allocated to each of its keys by weight, and a pinned key
    without a group gets an empty group of zero investment. *)
Definition groupCurrentPositionsByAttribute (positions : list Position.t)
  (attribute : Attribute) (optionalPinnedKey : option string)
  : list GroupItem.t :=
  let groups := fold_left (allocatePosition attribute) positions [] in
  match optionalPinnedKey with
  | Some key =>
      if hasGroup key groups then groups
      else groups ++ [{| GroupItem.groupKey := key;
                         GroupItem.investment := 0%Qc;
                         GroupItem.positions := [] |}]
  | None => groups
  end.

(** ** The rule [CurrencyClusterRiskBaseCurrencyInitialInvestment] *)

Module CurrencyClusterRiskBaseCurrencyInitialInvestment.

(** The fields of a rule object: the two constructor parameters. *)
Record t : Type := {
  exchangeRateDataService : ExchangeRateDataService;
  currentPositions : CurrentPositions.t
}.

Definition name : string := "Initial Investment: Base Currency".

(** The callback of [forEach]: [maxItem] and [totalInvestment] are the
    captured variables. *)
Definition callback (captured : option GroupItem.t * Number.t)
  (groupItem : GroupItem.t) : result (option GroupItem.t * Number.t) :=
  let '(maxItem, totalInvestment) := captured in
  let totalInvestment :=
    Number.add totalInvestment (Number.Fin (GroupItem.investment groupItem)) in
  maxInvestment <- property GroupItem.investment maxItem ;;
  if Number.gt (Number.Fin (GroupItem.investment groupItem))
       (Number.Fin maxInvestment)
  then Ok (Some groupItem, totalInvestment)
  else Ok (maxItem, totalInvestment).

(** [baseCurrencyItem?.investment / totalInvestment || 0] *)
Definition baseCurrencyInvestmentRatio (baseCurrencyItem : option GroupItem.t)
  (totalInvestment : Number.t) : Number.t :=
  let investment :=
    match baseCurrencyItem with
    | Some item => Number.Fin (GroupItem.investment item)
    | None => Number.NaN
    end in
  Number.or (Number.div investment totalInvestment) (Number.ofZ 0).

Definition percentage (ratio : Number.t) : result string :=
  Number.toPrecision (Number.mul ratio (Number.ofZ 100)) 3.

(** The body of [evaluate] from the grouped sequence on. *)
Definition evaluateGroups (ruleSettings : Settings)
  (positionsGroupedByCurrency : list GroupItem.t) : result Evaluation :=
  let maxItem := nth_error positionsGroupedByCurrency 0 in
  let totalInvestment := Number.ofZ 0 in
  captured <- forEach callback positionsGroupedByCurrency
                (maxItem, totalInvestment) ;;
  let '(maxItem, totalInvestment) := captured in
  let baseCurrencyItem :=
    find (fun item =>
            String.eqb (GroupItem.groupKey item) (baseCurrency ruleSettings))
      positionsGroupedByCurrency in
  let ratio := baseCurrencyInvestmentRatio baseCurrencyItem totalInvestment in
  maxKey <- property GroupItem.groupKey maxItem ;;
  if negb (String.eqb maxKey (baseCurrency ruleSettings))
  then
    shown <- percentage ratio ;;
    Ok {| evaluation :=
            "The major part of your initial investment is not in your base currency ("
            ++ shown ++ "% in " ++ baseCurrency ruleSettings ++ ")";
          value := false |}
  else
    shown <- percentage ratio ;;
    Ok {| evaluation :=
            "The major part of your initial investment is in your base currency ("
            ++ shown ++ "% in " ++ baseCurrency ruleSettings ++ ")";
          value := true |}.

Section Inherited.

(** [groupCurrentPositionsByAttribute] is inherited from the rule base class,
    which is not under src: [evaluate] takes it as a parameter, a function
    of its arguments. *)
Variable groupCurrentPositionsByAttribute :
  list Position.t -> Attribute -> option string -> list GroupItem.t.

Definition evaluate (ruleSettings : Settings) : Method t Evaluation :=
  positions <~ gets (fun this =>
                       CurrentPositions.positions (currentPositions this)) ;;
  let positionsGroupedByCurrency :=
    groupCurrentPositionsByAttribute positions Currency
      (Some (baseCurrency ruleSettings)) in
  lift (evaluateGroups ruleSettings positionsGroupedByCurrency).

End Inherited.

Definition getSettings (aUserSettings : UserSettings.t) : Settings :=
  {| baseCurrency := UserSettings.baseCurrency aUserSettings;
     isActive := true |}.

End CurrencyClusterRiskBaseCurrencyInitialInvestment.

(** ** The rule catalog and the report *)

(** Modelled from the spec: the rule capability [{name, getSettings,
    evaluate}] of section 4.3.  The rules of one run share the position set,
    so [evaluate] is a method of it. *)
Record RuleVariant : Type := {
  RuleSettings : Type;
  ruleName : string;
  ruleGetSettings : UserSettings.t -> RuleSettings;
  ruleIsActive : RuleSettings -> bool;
  ruleEvaluate :
    ExchangeRateDataService -> RuleSettings ->
    Method CurrentPositions.t Evaluation
}.

Record ReportEntry : Type := {
  entryName : string;
  entryEvaluation : string;
  entryValue : bool
}.

(** Modelled from the spec: the evaluator is not under src.  Section 4.4:
    the catalog is iterated in order; for each rule the settings are
    derived, an inactive rule is skipped, an active one is evaluated and its
    result appended. *)
Fixpoint evaluateAll (catalog : list RuleVariant)
  (exchangeRates : ExchangeRateDataService) (userSettings : UserSettings.t)
  : Method CurrentPositions.t (list ReportEntry) :=
  match catalog with
  | [] => ret []
  | rule :: rest =>
      let settings := ruleGetSettings rule userSettings in
      if negb (ruleIsActive rule settings)
      then evaluateAll rest exchangeRates userSettings
      else
        e <~ ruleEvaluate rule exchangeRates settings ;;
        report <~ evaluateAll rest exchangeRates userSettings ;;
        ret ({| entryName := ruleName rule;
                entryEvaluation := evaluation e;
                entryValue := value e |} :: report)
  end.

(** The rule of this development as a catalog entry, with the grouping
    helper of section 4.2: the object is built from the adapter and the
    shared position set, as its constructor does. *)
Definition currencyClusterRiskBaseCurrencyInitialInvestment : RuleVariant :=
  {| RuleSettings := Settings;
     ruleName := CurrencyClusterRiskBaseCurrencyInitialInvestment.name;
     ruleGetSettings := CurrencyClusterRiskBaseCurrencyInitialInvestment.getSettings;
     ruleIsActive := isActive;
     ruleEvaluate := fun exchangeRates settings currentPositions =>
       let this :=
         {| CurrencyClusterRiskBaseCurrencyInitialInvestment.exchangeRateDataService :=
              exchangeRates;
            CurrencyClusterRiskBaseCurrencyInitialInvestment.currentPositions :=
              currentPositions |} in
       let '(r, this') :=
         CurrencyClusterRiskBaseCurrencyInitialInvestment.evaluate
           groupCurrentPositionsByAttribute settings this in
       (r, CurrencyClusterRiskBaseCurrencyInitialInvestment.currentPositions this') |}.

(** ** The portfolio controller *)

Module Config.
Definition baseCurrency : string := "USD".
End Config.

Inductive StatusCodes : Type :=
| OK
| ACCEPTED
| FORBIDDEN
| NOT_FOUND.

(** The response object: [res.status(code)] sets the status code. *)
Record Response : Type := {
  statusCode : StatusCodes
}.

Definition status (code : StatusCodes) : Method Response unit :=
  fun res => (Ok tt, {| statusCode := code |}).

(** [null] and [undefined] as a number operand: [null] converts to zero. *)
Definition toNumber (x : option Number.t) : Number.t :=
  match x with
  | Some n => n
  | None => Number.ofZ 0
  end.

(** The fields of a portfolio position the controller reads or writes. *)
Module PortfolioPosition.
Record t : Type := {
  allocationCurrent : Number.t;
  assetClass : string;
  countries : list (string * Number.t);
  currency : string;
  grossPerformance : option Number.t;
  investment : Number.t;
  marketPrice : Number.t;
  name : string;
  netPerformance : option Number.t;
  quantity : option Number.t;
  sectors : list (string * Number.t);
  value : Number.t
}.
End PortfolioPosition.

Module Account.
Record t : Type := {
  current : Number.t;
  original : Number.t
}.
End Account.

(** What [portfolioService.getDetails] resolves to.  An object used as a map
    is the sequence of its entries in enumeration order, each entry holding
    an object of its own. *)
Module Details.
Record t : Type := {
  accounts : list (string * Account.t);
  holdings : list (string * PortfolioPosition.t);
  hasErrors : bool
}.
End Details.

Module PublicHolding.
Record t : Type := {
  allocationCurrent : Number.t;
  countries : list (string * Number.t);
  currency : string;
  name : string;
  sectors : list (string * Number.t);
  value : Number.t
}.
End PublicHolding.

(** The bodies the two handlers send with [res.json]. *)
Inductive Body : Type :=
| PortfolioDetails (accounts : list (string * Account.t))
    (holdings : list (string * PortfolioPosition.t))
| PortfolioPublicDetails (hasDetails : bool)
    (holdings : list (string * PublicHolding.t)).

Module User.
Record SettingsRow : Type := {
  currency : string
}.
Record t : Type := {
  id : string;
  subscriptionType : string;     (* [subscription.type] *)
  Settings : option SettingsRow
}.
End User.

Module Access.
Record t : Type := {
  userId : string
}.
End Access.

Module AccessService.
Record t : Type := {
  access : string -> result (option Access.t)
}.
End AccessService.

Module ConfigurationService.
Record t : Type := {
  get : string -> bool
}.
End ConfigurationService.

Module PortfolioService.
Record t : Type := {
  getDetails : option string -> string -> option string -> result Details.t
}.
End PortfolioService.

Module UserService.
Record t : Type := {
  user : string -> result (option User.t);
  isRestrictedView : option User.t -> bool
}.
End UserService.

Module PortfolioController.

(** The constructor parameters; [requestUser] is [this.request.user]. *)
Record t : Type := {
  accessService : AccessService.t;
  configurationService : ConfigurationService.t;
  exchangeRateDataService : ExchangeRateDataService;
  portfolioService : PortfolioService.t;
  requestUser : option User.t;
  userService : UserService.t
}.

(** A header value is truthy when it is present and not empty. *)
Definition truthy (header : option string) : bool :=
  match header with
  | Some s => negb (String.eqb s "")
  | None => false
  end.

(** [array.map(callback)] with a callback that may throw. *)
Fixpoint mapM {A B : Type} (callback : A -> result B) (array : list A)
  : result (list B) :=
  match array with
  | [] => Ok []
  | a :: rest =>
      b <- callback a ;;
      bs <- mapM callback rest ;;
      Ok (b :: bs)
  end.

(** [.reduce((a, b) => a + b, 0)], with the additions of [Number.t], which
    are exact. *)
Definition sum (numbers : list Number.t) : Number.t :=
  fold_left Number.add numbers (Number.ofZ 0).

Definition restrictPosition (totalInvestment totalValue : Number.t)
  (portfolioPosition : PortfolioPosition.t) : PortfolioPosition.t :=
  {| PortfolioPosition.allocationCurrent :=
       PortfolioPosition.allocationCurrent portfolioPosition;
     PortfolioPosition.assetClass :=
       PortfolioPosition.assetClass portfolioPosition;
     PortfolioPosition.countries :=
       PortfolioPosition.countries portfolioPosition;
     PortfolioPosition.currency :=
       PortfolioPosition.currency portfolioPosition;
     PortfolioPosition.grossPerformance := None;
     PortfolioPosition.investment :=
       Number.div (PortfolioPosition.investment portfolioPosition)
         totalInvestment;
     PortfolioPosition.marketPrice :=
       PortfolioPosition.marketPrice portfolioPosition;
     PortfolioPosition.name := PortfolioPosition.name portfolioPosition;
     PortfolioPosition.netPerformance := None;
     PortfolioPosition.quantity := None;
     PortfolioPosition.sectors := PortfolioPosition.sectors portfolioPosition;
     PortfolioPosition.value :=
       Number.div (PortfolioPosition.value portfolioPosition) totalValue |}.

Definition restrictAccount (totalInvestment totalValue : Number.t)
  (account : Account.t) : Account.t :=
  {| Account.current := Number.div (Account.current account) totalValue;
     Account.original :=
       Number.div (Account.original account) totalInvestment |}.

(** [position.quantity * position.marketPrice] converted to [currency]. *)
Definition valueIn (this : t) (currency : string)
  (portfolioPosition : PortfolioPosition.t) : Number.t :=
  toCurrency (exchangeRateDataService this)
    (Number.mul (toNumber (PortfolioPosition.quantity portfolioPosition))
       (PortfolioPosition.marketPrice portfolioPosition))
    (PortfolioPosition.currency portfolioPosition) currency.

Section Handlers.

(** [hasNotDefinedValuesInObject] of the object helper, which is not under
    src: a parameter. *)
Variable hasNotDefinedValuesInObject :
  list (string * PortfolioPosition.t) -> bool.

Definition getDetails (this : t) (impersonationId range : option string)
  : Method Response Body :=
  forbidden <~
    (if ConfigurationService.get (configurationService this)
          "ENABLE_FEATURE_SUBSCRIPTION"
     then type <~ lift (property User.subscriptionType (requestUser this)) ;;
          ret (String.eqb type "Basic")
     else ret false) ;;
  if forbidden : bool
  then
    _ <~ status FORBIDDEN ;;
    ret (PortfolioDetails [] [])
  else
    userId <~ lift (property User.id (requestUser this)) ;;
    details <~ lift (PortfolioService.getDetails (portfolioService this)
                       impersonationId userId range) ;;
    let accounts := Details.accounts details in
    let holdings := Details.holdings details in
    _ <~ (if Details.hasErrors details || hasNotDefinedValuesInObject holdings
          then status ACCEPTED
          else ret tt) ;;
    if truthy impersonationId
       || UserService.isRestrictedView (userService this) (requestUser this)
    then
      let totalInvestment :=
        sum (map (fun entry => PortfolioPosition.investment (snd entry))
               holdings) in
      values <~ lift (mapM (fun entry =>
                  settings <- property User.Settings (requestUser this) ;;
                  currency <- property User.currency settings ;;
                  Ok (valueIn this currency (snd entry))) holdings) ;;
      let totalValue := sum values in
      let holdings :=
        map (fun entry =>
               (fst entry,
                restrictPosition totalInvestment totalValue (snd entry)))
          holdings in
      let accounts :=
        map (fun entry =>
               (fst entry,
                restrictAccount totalInvestment totalValue (snd entry)))
          accounts in
      ret (PortfolioDetails accounts holdings)
    else ret (PortfolioDetails accounts holdings).

End Handlers.

Definition isEquity (portfolioPosition : PortfolioPosition.t) : bool :=
  String.eqb (PortfolioPosition.assetClass portfolioPosition) "EQUITY".

(** [this.request.user?.Settings?.currency ?? baseCurrency] *)
Definition publicCurrency (this : t) : string :=
  match requestUser this with
  | Some user =>
      match User.Settings user with
      | Some settings => User.currency settings
      | None => Config.baseCurrency
      end
  | None => Config.baseCurrency
  end.

Definition publicHolding (hasDetails : bool) (totalValue : Number.t)
  (portfolioPosition : PortfolioPosition.t) : PublicHolding.t :=
  {| PublicHolding.allocationCurrent :=
       PortfolioPosition.allocationCurrent portfolioPosition;
     PublicHolding.countries :=
       if hasDetails then PortfolioPosition.countries portfolioPosition
       else [];
     PublicHolding.currency := PortfolioPosition.currency portfolioPosition;
     PublicHolding.name := PortfolioPosition.name portfolioPosition;
     PublicHolding.sectors :=
       if hasDetails then PortfolioPosition.sectors portfolioPosition else [];
     PublicHolding.value :=
       Number.div (PortfolioPosition.value portfolioPosition) totalValue |}.

Definition getPublic (this : t) (accessId : string) : Method Response Body :=
  access <~ lift (AccessService.access (accessService this) accessId) ;;
  userId <~ lift (property Access.userId access) ;;
  user <~ lift (UserService.user (userService this) userId) ;;
  match access with
  | None =>
      _ <~ status NOT_FOUND ;;
      ret (PortfolioDetails [] [])
  | Some access =>
      hasDetails <~
        (if ConfigurationService.get (configurationService this)
              "ENABLE_FEATURE_SUBSCRIPTION"
         then type <~ lift (property User.subscriptionType user) ;;
              ret (String.eqb type "Premium")
         else ret true) ;;
      details <~ lift (PortfolioService.getDetails (portfolioService this)
                         (Some (Access.userId access)) (Access.userId access)
                         None) ;;
      let holdings := Details.holdings details in
      let totalValue :=
        sum (map (fun entry => valueIn this (publicCurrency this) (snd entry))
               (filter (fun entry => isEquity (snd entry)) holdings)) in
      ret (PortfolioPublicDetails hasDetails
             (map (fun entry =>
                     (fst entry,
                      publicHolding hasDetails totalValue (snd entry)))
                (filter (fun entry => isEquity (snd entry)) holdings)))
  end.

End PortfolioController.

(** ** Specification-level quantities *)

Definition qsum (l : list Qc) : Qc := fold_right Qcplus 0%Qc l.

(** The investment of the positions held in currency [c]. *)
Definition investedIn (c : string) (positions : list Position.t) : Qc :=
  qsum (map Position.investment
          (filter (fun p => String.eqb (Position.currency p) c) positions)).

(** The investment of all positions. *)
Definition totalInvested (positions : list Position.t) : Qc :=
  qsum (map Position.investment positions).

(** The weighted investment the positions allocate to [key]. *)
Definition allocated (attribute : Attribute) (key : string)
  (positions : list Position.t) : Qc :=
  qsum (flat_map
          (fun p =>
             map (fun kw => (Position.investment p * snd kw)%Qc)
               (filter (fun kw => String.eqb (fst kw) key)
                  (attributeSelector attribute p)))
          positions).

(** The investment of the groups of [key] in a grouped sequence. *)
Definition groupInvestment (key : string) (groups : list GroupItem.t) : Qc :=
  qsum (map GroupItem.investment
          (filter (fun g => String.eqb (GroupItem.groupKey g) key) groups)).

Definition keys (groups : list GroupItem.t) : list string :=
  map GroupItem.groupKey groups.

Definition emptyGroup (key : string) : GroupItem.t :=
  {| GroupItem.groupKey := key;
     GroupItem.investment := 0%Qc;
     GroupItem.positions := [] |}.

(** ** Quantities of the rule's result *)

(** The comparison of the loop of [evaluate]. *)
Definition larger (maxItem groupItem : GroupItem.t) : GroupItem.t :=
  if Number.gt (Number.Fin (GroupItem.investment groupItem))
       (Number.Fin (GroupItem.investment maxItem))
  then groupItem else maxItem.

Definition largest (first : GroupItem.t) (groups : list GroupItem.t)
  : GroupItem.t :=
  fold_left larger groups first.

(** The ratio the rule reports for a grouped sequence. *)
Definition ratioOf (base : string) (groups : list GroupItem.t) : Number.t :=
  CurrencyClusterRiskBaseCurrencyInitialInvestment.baseCurrencyInvestmentRatio
    (find (fun item => String.eqb (GroupItem.groupKey item) base) groups)
    (Number.Fin (qsum (map GroupItem.investment groups))).

(** The two evaluation texts. *)
Definition message (inBaseCurrency : bool) (shown base : string) : string :=
  (if inBaseCurrency
   then "The major part of your initial investment is in your base currency ("
   else "The major part of your initial investment is not in your base currency (")
  ++ shown ++ "% in " ++ base ++ ")".

(** The base currency's share of the total investment, as a JavaScript
    quotient with the fallback [|| 0]. *)
Definition share (base : string) (positions : list Position.t) : Number.t :=
  Number.or
    (Number.div (Number.Fin (investedIn base positions))
       (Number.Fin (totalInvested positions)))
    (Number.ofZ 0).

(** A rule of the catalog is active for a user when its derived settings
    say so. *)
Definition activeFor (userSettings : UserSettings.t) (rule : RuleVariant)
  : bool :=
  ruleIsActive rule (ruleGetSettings rule userSettings).

(** Positions, settings and rule objects for the examples. *)
Definition position (symbol currency : string) (investment : Z) : Position.t :=
  {| Position.symbol := symbol;
     Position.currency := currency;
     Position.assetClass := "EQUITY";
     Position.quantity := 1%Qc;
     Position.marketPrice := Q2Qc (inject_Z investment);
     Position.sectors := [];
     Position.countries := [];
     Position.investment := Q2Qc (inject_Z investment) |}.

Definition identityRates : ExchangeRateDataService :=
  {| toCurrency := fun amount _ _ => amount |}.

Definition zeroRates : ExchangeRateDataService :=
  {| toCurrency := fun _ _ _ => Number.ofZ 0 |}.

Definition ruleOn (exchangeRates : ExchangeRateDataService)
  (positions : list Position.t)
  : CurrencyClusterRiskBaseCurrencyInitialInvestment.t :=
  {| CurrencyClusterRiskBaseCurrencyInitialInvestment.exchangeRateDataService :=
       exchangeRates;
     CurrencyClusterRiskBaseCurrencyInitialInvestment.currentPositions :=
       {| CurrentPositions.positions := positions;
          CurrentPositions.fees := 0%Qc;
          CurrentPositions.errors := [] |} |}.

Definition settingsFor (base : string) : Settings :=
  {| baseCurrency := base; isActive := true |}.

(** ** Texts *)

(** No character of [s] is [c]. *)
Fixpoint avoids (c : ascii) (s : string) : bool :=
  match s with
  | EmptyString => true
  | String a s' => negb (Ascii.eqb a c) && avoids c s'
  end.

(** [s.includes(pattern)] *)
Fixpoint includes (s pattern : string) : bool :=
  prefix pattern s
  || match s with
     | EmptyString => false
     | String _ s' => includes s' pattern
     end.

(** Two positions whose investments cancel. *)
Definition cancellingPositions : list Position.t :=
  [position "A" "USD" 5; position "B" "EUR" (-5)].

(** A user who has switched every rule off. *)
Definition optedOut : UserSettings.t :=
  {| UserSettings.baseCurrency := "USD";
     UserSettings.isActive := fun _ => false |}.

Definition noPositions : CurrentPositions.t :=
  {| CurrentPositions.positions := [];
     CurrentPositions.fees := 0%Qc;
     CurrentPositions.errors := [] |}.

(** A controller, a user and two holdings for the examples. *)
Definition holding (name : string) (investment : Z) : PortfolioPosition.t :=
  {| PortfolioPosition.allocationCurrent := Number.ofZ 0;
     PortfolioPosition.assetClass := "EQUITY";
     PortfolioPosition.countries := [];
     PortfolioPosition.currency := "USD";
     PortfolioPosition.grossPerformance := Some (Number.ofZ 1);
     PortfolioPosition.investment := Number.ofZ investment;
     PortfolioPosition.marketPrice := Number.ofZ 1;
     PortfolioPosition.name := name;
     PortfolioPosition.netPerformance := Some (Number.ofZ 1);
     PortfolioPosition.quantity := Some (Number.ofZ investment);
     PortfolioPosition.sectors := [];
     PortfolioPosition.value := Number.ofZ investment |}.

Definition someUser : User.t :=
  {| User.id := "u1";
     User.subscriptionType := "Premium";
     User.Settings := Some {| User.currency := "USD" |} |}.

Definition someDetails : Details.t :=
  {| Details.accounts := [];
     Details.holdings := [("AAPL", holding "Apple" 30);
                          ("MSFT", holding "Microsoft" 10)];
     Details.hasErrors := false |}.

Definition someController : PortfolioController.t :=
  {| PortfolioController.accessService :=
       {| AccessService.access := fun _ => Ok None |};
     PortfolioController.configurationService :=
       {| ConfigurationService.get := fun _ => false |};
     PortfolioController.exchangeRateDataService := identityRates;
     PortfolioController.portfolioService :=
       {| PortfolioService.getDetails := fun _ _ _ => Ok someDetails |};
     PortfolioController.requestUser := Some someUser;
     PortfolioController.userService :=
       {| UserService.user := fun _ => Ok (Some someUser);
          UserService.isRestrictedView := fun _ => true |} |}.

Definition basicUser : User.t :=
  {| User.id := "u1";
     User.subscriptionType := "Basic";
     User.Settings := Some {| User.currency := "USD" |} |}.

(** A controller with the subscription feature on, serving a Basic user. *)
Definition subscriptionController : PortfolioController.t :=
  {| PortfolioController.accessService :=
       {| AccessService.access :=
            fun _ => Ok (Some {| Access.userId := "u1" |}) |};
     PortfolioController.configurationService :=
       {| ConfigurationService.get := fun _ => true |};
     PortfolioController.exchangeRateDataService := identityRates;
     PortfolioController.portfolioService :=
       {| PortfolioService.getDetails := fun _ _ _ => Ok someDetails |};
     PortfolioController.requestUser := Some basicUser;
     PortfolioController.userService :=
       {| UserService.user := fun _ => Ok (Some basicUser);
          UserService.isRestrictedView := fun _ => false |} |}.

(** ** More built-ins *)

Module Math.

(** [Math.max(x, y)] *)
Definition max (x y : Number.t) : Number.t :=
  match x, y with
  | Number.NaN, _ | _, Number.NaN => Number.NaN
  | _, _ => if Number.gt y x then y else x
  end.

End Math.

(** [Number(x.toFixed(fractionDigits))].  [toFixed] prints [NaN] and the
    infinities by name and a finite [x] of magnitude [10^21] or more as
    [String(x)], all of which [Number] reads back as [x]; it prints a smaller
    [x] as the integer nearest to [|x| * 10^fractionDigits], the larger one
    on a tie, with the point before its last [fractionDigits] digits and the
    sign of [x] in front, which [Number] reads back as that decimal.  The
    number rounded is the exact number of [Number.t]: where the source
    rounds a binary64 quotient that lies within a rounding error of a tie,
    the last digit can differ by one. *)
Definition toFixedNumber (x : Number.t) (fractionDigits : Z)
  : result Number.t :=
  if ((fractionDigits <? 0) || (100 <? fractionDigits))%Z then Throw RangeError
  else
    match x with
    | Number.Fin q =>
        let n := Z.abs (Qnum q) in
        let d := Zpos (Qden q) in
        if (10 ^ 21 * d <=? n)%Z then Ok x
        else
          let m := Number.rounded (- fractionDigits) n d in
          let signed := if Number.isNegative q then (- m)%Z else m in
          Ok (Number.Fin (Q2Qc (signed # Z.to_pos (10 ^ fractionDigits))))
    | _ => Ok x
    end.

(** ** The other handlers of the portfolio controller *)

Module InvestmentItem.
Record t : Type := {
  date : string;
  investment : Number.t
}.
End InvestmentItem.

(** The fields of a chart item the controller reads or writes. *)
Module HistoricalDataItem.
Record t : Type := {
  date : string;
  marketPrice : option Number.t;
  value : Number.t
}.
End HistoricalDataItem.

Module HistoricalDataContainer.
Record t : Type := {
  items : list HistoricalDataItem.t;
  isAllTimeHigh : bool;
  isAllTimeLow : bool
}.
End HistoricalDataContainer.

Module PortfolioChart.
Record t : Type := {
  chart : list HistoricalDataItem.t;
  isAllTimeHigh : bool;
  isAllTimeLow : bool
}.
End PortfolioChart.

Module PortfolioHandlers.

Import PortfolioController.

Section Services.

(** [portfolioService.getInvestments] and [portfolioService.getChart], and
    [hasNotDefinedValuesInObject] of the object helper on a chart item,
    which is not under src: parameters. *)
Variable getInvestments : option string -> result (list InvestmentItem.t).
Variable getChartData :
  option string -> option string -> result HistoricalDataContainer.t.
Variable hasNotDefinedValuesInObject : HistoricalDataItem.t -> bool.

(** [ENABLE_FEATURE_SUBSCRIPTION && this.request.user.subscription.type ===
    'Basic'] *)
Definition isBasic (this : PortfolioController.t) : Method Response bool :=
  if ConfigurationService.get (configurationService this)
       "ENABLE_FEATURE_SUBSCRIPTION"
  then type <~ lift (property User.subscriptionType (requestUser this)) ;;
       ret (String.eqb type "Basic")
  else ret false.

(** [impersonationId || this.userService.isRestrictedView(this.request.user)] *)
Definition restricted (this : PortfolioController.t)
  (impersonationId : option string) : bool :=
  truthy impersonationId
  || UserService.isRestrictedView (userService this) (requestUser this).

Definition findAll (this : PortfolioController.t)
  (impersonationId : option string)
  : Method Response (list InvestmentItem.t) :=
  forbidden <~ isBasic this ;;
  if forbidden : bool
  then
    _ <~ status FORBIDDEN ;;
    ret []
  else
    investments <~ lift (getInvestments impersonationId) ;;
    if restricted this impersonationId
    then
      let maxInvestment :=
        fold_left
          (fun investment item =>
             Math.max investment (InvestmentItem.investment item))
          investments (Number.ofZ 1) in
      ret (map (fun item =>
                  {| InvestmentItem.date := InvestmentItem.date item;
                     InvestmentItem.investment :=
                       Number.div (InvestmentItem.investment item)
                         maxInvestment |})
             investments)
    else ret investments.

(** The first loop of [getChart]: [hasNullValue] is the captured variable. *)
Definition hasNullValue (chartData : list HistoricalDataItem.t) : bool :=
  fold_left
    (fun hasNullValue chartDataItem =>
       if hasNotDefinedValuesInObject chartDataItem then true
       else hasNullValue)
    chartData false.

(** The second loop of [getChart]: [maxValue] is the captured variable. *)
Definition maxValue (chartData : list HistoricalDataItem.t) : Number.t :=
  fold_left
    (fun maxValue portfolioItem =>
       if Number.gt (HistoricalDataItem.value portfolioItem) maxValue
       then HistoricalDataItem.value portfolioItem
       else maxValue)
    chartData (Number.ofZ 0).

Definition getChart (this : PortfolioController.t)
  (impersonationId range : option string)
  : Method Response PortfolioChart.t :=
  historicalDataContainer <~ lift (getChartData impersonationId range) ;;
  let chartData := HistoricalDataContainer.items historicalDataContainer in
  _ <~ (if hasNullValue chartData then status ACCEPTED else ret tt) ;;
  chartData <~
    (if restricted this impersonationId
     then
       let maxValue := maxValue chartData in
       lift (mapM (fun historicalDataItem =>
               marketPrice <-
                 toFixedNumber
                   (Number.div (HistoricalDataItem.value historicalDataItem)
                      maxValue) 2 ;;
               Ok {| HistoricalDataItem.date :=
                       HistoricalDataItem.date historicalDataItem;
                     HistoricalDataItem.marketPrice := Some marketPrice;
                     HistoricalDataItem.value :=
                       HistoricalDataItem.value historicalDataItem |})
               chartData)
     else ret chartData) ;;
  ret {| PortfolioChart.chart := chartData;
         PortfolioChart.isAllTimeHigh :=
           HistoricalDataContainer.isAllTimeHigh historicalDataContainer;
         PortfolioChart.isAllTimeLow :=
           HistoricalDataContainer.isAllTimeLow historicalDataContainer |}.

End Services.

End PortfolioHandlers.

(** Two groups, the larger one in the base currency, for the examples. *)
Definition twoGroups : list GroupItem.t :=
  [{| GroupItem.groupKey := "EUR";
      GroupItem.investment := Q2Qc (inject_Z 4000);
      GroupItem.positions := [] |};
   {| GroupItem.groupKey := "USD";
      GroupItem.investment := Q2Qc (inject_Z 6000);
      GroupItem.positions := [] |}].

(** The value of [Number(x.toFixed(2))], which never throws. *)
Definition cents (x : Number.t) : Number.t :=
  match toFixedNumber x 2 with
  | Ok y => y
  | Throw _ => x
  end.

(** Half a hundredth. *)
Definition halfCent : Qc := Q2Qc (1 # 200).

Definition hundredth : Qc := Q2Qc (1 # 100).

(** Investments, a chart and a controller under the restricted view, for the
    examples. *)
Definition someInvestments : list InvestmentItem.t :=
  [{| InvestmentItem.date := "2021-01-01";
      InvestmentItem.investment := Number.ofZ 500 |};
   {| InvestmentItem.date := "2021-02-01";
      InvestmentItem.investment := Number.ofZ 2000 |}].

Definition chartItem (date : string) (value : Z) : HistoricalDataItem.t :=
  {| HistoricalDataItem.date := date;
     HistoricalDataItem.marketPrice := None;
     HistoricalDataItem.value := Number.ofZ value |}.

Definition someChart : HistoricalDataContainer.t :=
  {| HistoricalDataContainer.items :=
       [chartItem "2021-01-01" 1000; chartItem "2021-02-01" 3000];
     HistoricalDataContainer.isAllTimeHigh := true;
     HistoricalDataContainer.isAllTimeLow := false |}.

Definition flatChart : HistoricalDataContainer.t :=
  {| HistoricalDataContainer.items :=
       [chartItem "2021-01-01" 0; chartItem "2021-02-01" 0];
     HistoricalDataContainer.isAllTimeHigh := false;
     HistoricalDataContainer.isAllTimeLow := false |}.

(** The chart item [getChart] sends under the restricted view for a largest
    value. *)
Definition scaledItem (largest : Number.t)
  (historicalDataItem : HistoricalDataItem.t) : HistoricalDataItem.t :=
  {| HistoricalDataItem.date := HistoricalDataItem.date historicalDataItem;
     HistoricalDataItem.marketPrice :=
       Some (cents (Number.div (HistoricalDataItem.value historicalDataItem)
                      largest));
     HistoricalDataItem.value := HistoricalDataItem.value historicalDataItem |}.

(** The sum of integers and the sum of their magnitudes. *)
Definition zsum (integers : list Z) : Z := fold_right Z.add 0%Z integers.

Definition magnitudes (integers : list Z) : Z :=
  fold_right (fun z s => (Z.abs z + s)%Z) 0%Z integers.

(** Holdings whose investments cancel, and a user without settings. *)
Definition cancellingDetails : Details.t :=
  {| Details.accounts := [];
     Details.holdings := [("AAPL", holding "Apple" 5);
                          ("MSFT", holding "Microsoft" (-5))];
     Details.hasErrors := false |}.

Definition cancellingController : PortfolioController.t :=
  {| PortfolioController.accessService :=
       {| AccessService.access := fun _ => Ok None |};
     PortfolioController.configurationService :=
       {| ConfigurationService.get := fun _ => false |};
     PortfolioController.exchangeRateDataService := identityRates;
     PortfolioController.portfolioService :=
       {| PortfolioService.getDetails := fun _ _ _ => Ok cancellingDetails |};
     PortfolioController.requestUser := Some someUser;
     PortfolioController.userService :=
       {| UserService.user := fun _ => Ok (Some someUser);
          UserService.isRestrictedView := fun _ => true |} |}.

Definition userWithoutSettings : User.t :=
  {| User.id := "u3";
     User.subscriptionType := "Premium";
     User.Settings := None |}.

Definition controllerWithoutSettings : PortfolioController.t :=
  {| PortfolioController.accessService :=
       {| AccessService.access := fun _ => Ok None |};
     PortfolioController.configurationService :=
       {| ConfigurationService.get := fun _ => false |};
     PortfolioController.exchangeRateDataService := identityRates;
     PortfolioController.portfolioService :=
       {| PortfolioService.getDetails := fun _ _ _ => Ok someDetails |};
     PortfolioController.requestUser := Some userWithoutSettings;
     PortfolioController.userService :=
       {| UserService.user := fun _ => Ok (Some userWithoutSettings);
          UserService.isRestrictedView := fun _ => true |} |}.

(** ** The admin service *)

Module AdminService.

Record UniqueAsset : Type := {
  dataSource : string;
  symbol : string
}.

(** A row of [marketData.groupBy({ _count: true, by: ['dataSource',
    'symbol'] })]. *)
Record MarketDataGroup : Type := {
  groupDataSource : string;
  groupSymbol : string;
  _count : Z
}.

(** A row of [symbolProfile.findMany]: [Order] holds the date of the first
    order, if there is one. *)
Record SymbolProfile : Type := {
  profileOrderCount : Z;
  profileDataSource : string;
  Order : list string;
  profileSymbol : string
}.

Record AdminMarketDataItem : Type := {
  activityCount : option Z;
  itemDataSource : string;
  date : option string;
  marketDataItemCount : Z;
  itemSymbol : string
}.

Record ExchangeRate : Type := {
  label1 : string;
  label2 : string;
  value : Number.t
}.

(** A row of [user.findMany] with its analytics: the counts of
    [_count.Account] and [_count.Order], [Analytics.activityCount] and
    [Analytics.updatedAt], and the rows of [Subscription]. *)
Record UserRow (Rows : Type) : Type := {
  accountCount : Z;
  orderCount : Z;
  analyticsActivityCount : Z;
  analyticsUpdatedAt : string;
  createdAt : string;
  id : string;
  subscriptionRows : Rows
}.

Arguments accountCount {Rows} _.
Arguments orderCount {Rows} _.
Arguments analyticsActivityCount {Rows} _.
Arguments analyticsUpdatedAt {Rows} _.
Arguments createdAt {Rows} _.
Arguments id {Rows} _.
Arguments subscriptionRows {Rows} _.

Record UserWithAnalytics (Subscription : Type) : Type := {
  userCreatedAt : string;
  engagement : Number.t;
  userId : string;
  subscription : option Subscription;
  userAccountCount : Number.t;
  lastActivity : string;
  transactionCount : Number.t
}.

Arguments userCreatedAt {Subscription} _.
Arguments engagement {Subscription} _.
Arguments userId {Subscription} _.
Arguments subscription {Subscription} _.
Arguments userAccountCount {Subscription} _.
Arguments lastActivity {Subscription} _.
Arguments transactionCount {Subscription} _.

Record AdminData (Settings Subscription : Type) : Type := {
  exchangeRates : list ExchangeRate;
  settings : Settings;
  dataTransactionCount : Z;
  userCount : Z;
  users : list (UserWithAnalytics Subscription)
}.

Arguments exchangeRates {Settings Subscription} _.
Arguments settings {Settings Subscription} _.
Arguments dataTransactionCount {Settings Subscription} _.
Arguments userCount {Settings Subscription} _.
Arguments users {Settings Subscription} _.

Section Collaborators.

(** The collaborators of the service, none of which is under src: what the
    exchange-rate service, the database queries, the property service and
    the subscription service answer, [differenceInDays] of the date
    library, and the clock, read as [now] for every row of one call. *)
Variables Settings Rows Subscription : Type.
Variable baseCurrency : string.
Variable enableFeatureSubscription : bool.
Variable exchangeRateDataService : ExchangeRateDataService.
Variable getCurrencies : list string.
Variable getCurrencyPairs : list UniqueAsset.
Variable marketDataGroupBy : result (list MarketDataGroup).
Variable symbolProfileFindMany : result (list SymbolProfile).
Variable propertyServiceGet : result Settings.
Variable orderCountQuery : result Z.
Variable userCountQuery : result Z.
Variable userFindMany : result (list (UserRow Rows)).
Variable getSubscription : Rows -> Subscription.
Variable now : string.
Variable differenceInDays : string -> string -> Z.

(** [marketData.find(...)?._count ?? 0] *)
Definition countOf (marketData : list MarketDataGroup)
  (dataSource symbol : string) : Z :=
  match find (fun marketDataItem =>
                String.eqb (groupDataSource marketDataItem) dataSource
                && String.eqb (groupSymbol marketDataItem) symbol)
          marketData with
  | Some marketDataItem => _count marketDataItem
  | None => 0%Z
  end.

(** The list is the [marketData] of the answer. *)
Definition getMarketData : result (list AdminMarketDataItem) :=
  marketData <- marketDataGroupBy ;;
  let currencyPairsToGather :=
    map (fun pair =>
           {| activityCount := None;
              itemDataSource := dataSource pair;
              date := None;
              marketDataItemCount :=
                countOf marketData (dataSource pair) (symbol pair);
              itemSymbol := symbol pair |})
      getCurrencyPairs in
  symbolProfiles <- symbolProfileFindMany ;;
  let symbolProfilesToGather :=
    map (fun symbolProfile =>
           {| activityCount := Some (profileOrderCount symbolProfile);
              itemDataSource := profileDataSource symbolProfile;
              date := nth_error (Order symbolProfile) 0;
              marketDataItemCount :=
                countOf marketData (profileDataSource symbolProfile)
                  (profileSymbol symbolProfile);
              itemSymbol := profileSymbol symbolProfile |})
      symbolProfiles in
  Ok (currencyPairsToGather ++ symbolProfilesToGather)%list.

Definition getUsersWithAnalytics
  : result (list (UserWithAnalytics Subscription)) :=
  usersWithAnalytics <- userFindMany ;;
  Ok (map (fun row =>
             let daysSinceRegistration :=
               (differenceInDays now (createdAt row) + 1)%Z in
             let engagement :=
               Number.div (Number.ofZ (analyticsActivityCount row))
                 (Number.ofZ daysSinceRegistration) in
             let subscription :=
               if enableFeatureSubscription
               then Some (getSubscription (subscriptionRows row))
               else None in
             {| userCreatedAt := createdAt row;
                engagement := engagement;
                userId := id row;
                subscription := subscription;
                userAccountCount :=
                  Number.or (Number.ofZ (accountCount row)) (Number.ofZ 0);
                lastActivity := analyticsUpdatedAt row;
                transactionCount :=
                  Number.or (Number.ofZ (orderCount row)) (Number.ofZ 0) |})
          usersWithAnalytics).

Definition get : result (AdminData Settings Subscription) :=
  let exchangeRates :=
    map (fun currency =>
           {| label1 := baseCurrency;
              label2 := currency;
              value := toCurrency exchangeRateDataService (Number.ofZ 1)
                         baseCurrency currency |})
      (filter (fun currency => negb (String.eqb currency baseCurrency))
         getCurrencies) in
  settings <- propertyServiceGet ;;
  transactionCount <- orderCountQuery ;;
  userCount <- userCountQuery ;;
  users <- getUsersWithAnalytics ;;
  Ok {| exchangeRates := exchangeRates;
        settings := settings;
        dataTransactionCount := transactionCount;
        userCount := userCount;
        users := users |}.

End Collaborators.

End AdminService.

(** The key a market-data group is looked up by. *)
Definition groupKey (marketDataItem : AdminService.MarketDataGroup)
  : string * string :=
  (AdminService.groupDataSource marketDataItem,
   AdminService.groupSymbol marketDataItem).

Definition itemKey (item : AdminService.AdminMarketDataItem)
  : string * string :=
  (AdminService.itemDataSource item, AdminService.itemSymbol item).

(** Sample answers of the collaborators of the admin service. *)
Definition someCurrencyPairs : list AdminService.UniqueAsset :=
  [ {| AdminService.dataSource := "YAHOO";
       AdminService.symbol := "USDCHF" |};
    {| AdminService.dataSource := "YAHOO";
       AdminService.symbol := "USDEUR" |} ].

Definition someMarketData : list AdminService.MarketDataGroup :=
  [ {| AdminService.groupDataSource := "YAHOO";
       AdminService.groupSymbol := "USDCHF";
       AdminService._count := 250 |};
    {| AdminService.groupDataSource := "YAHOO";
       AdminService.groupSymbol := "VTI";
       AdminService._count := 12 |} ].

Definition someSymbolProfiles : list AdminService.SymbolProfile :=
  [ {| AdminService.profileOrderCount := 0;
       AdminService.profileDataSource := "MANUAL";
       AdminService.Order := [];
       AdminService.profileSymbol := "Gold" |};
    {| AdminService.profileOrderCount := 3;
       AdminService.profileDataSource := "YAHOO";
       AdminService.Order := ["2021-04-01"];
       AdminService.profileSymbol := "VTI" |} ].

Definition someAdminData : result (AdminService.AdminData unit unit) :=
  AdminService.get unit unit unit "CHF" false identityRates
    ["CHF"; "EUR"; "USD"] (Ok tt) (Ok 7%Z) (Ok 2%Z) (Ok [])
    (fun rows => rows) "2021-12-01" (fun _ _ => 0%Z).

(** ** Binary64 numbers *)

(** JavaScript computes on IEEE 754 binary64 numbers, which are Rocq's
    primitive floats: sums, products and quotients round to the nearest
    binary64 number and overflow to an infinity.  [Number.t] above takes
    finite numbers as exact; here they are what the source computes with. *)
Module Binary64.

(** [ToBoolean]: [NaN] and the two zeros are falsy. *)
Definition toBoolean (x : float) : bool :=
  negb (PrimFloat.is_nan x || PrimFloat.is_zero x).

(** [x || y] on numbers *)
Definition or (x y : float) : float := if toBoolean x then x else y.

(** [x > y] *)
Definition gt (x y : float) : bool := (y <? x)%float.

(** The number a binary64 value stands for. *)
Definition value (x : float) : Number.t :=
  match Prim2SF x with
  | S754_zero _ => Number.Fin 0%Qc
  | S754_infinity negative => Number.Infinity negative
  | S754_nan => Number.NaN
  | S754_finite negative m e =>
      let magnitude := (inject_Z (Zpos m) * Qpower (2 # 1) e)%Q in
      Number.Fin (Q2Qc (if negative then (- magnitude)%Q else magnitude))
  end.

(** [x.toPrecision(precision)]: the digits are those of the number [x]
    stands for. *)
Definition toPrecision (x : float) (precision : Z) : result string :=
  Number.toPrecision (value x) precision.

End Binary64.

(** ** The rule as the source computes it *)

(** [evaluate] once more, with what the embedding above leaves out: the
    investments of the groups are binary64 numbers, and the inherited
    helper is a method of the rule object, which is handed the array
    [this.currentPositions.positions] itself and may write to the object
    as well as read it. *)
Module InBinary64.

Import CurrencyClusterRiskBaseCurrencyInitialInvestment.

(** The fields of a group item [evaluate] reads; [investment] is a
    number. *)
Module GroupItem.
Record t : Type := {
  groupKey : string;
  investment : float
}.
End GroupItem.

(** The callback of [forEach]: [maxItem] and [totalInvestment] are the
    captured variables. *)
Definition callback (captured : option GroupItem.t * float)
  (groupItem : GroupItem.t) : result (option GroupItem.t * float) :=
  let '(maxItem, totalInvestment) := captured in
  let totalInvestment :=
    (totalInvestment + GroupItem.investment groupItem)%float in
  maxInvestment <- property GroupItem.investment maxItem ;;
  if Binary64.gt (GroupItem.investment groupItem) maxInvestment
  then Ok (Some groupItem, totalInvestment)
  else Ok (maxItem, totalInvestment).

(** [baseCurrencyItem?.investment / totalInvestment || 0] *)
Definition baseCurrencyInvestmentRatio (baseCurrencyItem : option GroupItem.t)
  (totalInvestment : float) : float :=
  let investment :=
    match baseCurrencyItem with
    | Some item => GroupItem.investment item
    | None => PrimFloat.nan
    end in
  Binary64.or (investment / totalInvestment)%float 0%float.

Definition percentage (ratio : float) : result string :=
  Binary64.toPrecision (ratio * 100)%float 3.

(** The body of [evaluate] from the grouped sequence on. *)
Definition evaluateGroups (ruleSettings : Settings)
  (positionsGroupedByCurrency : list GroupItem.t) : result Evaluation :=
  let maxItem := nth_error positionsGroupedByCurrency 0 in
  let totalInvestment := 0%float in
  captured <- forEach callback positionsGroupedByCurrency
                (maxItem, totalInvestment) ;;
  let '(maxItem, totalInvestment) := captured in
  let baseCurrencyItem :=
    find (fun item =>
            String.eqb (GroupItem.groupKey item) (baseCurrency ruleSettings))
      positionsGroupedByCurrency in
  let ratio := baseCurrencyInvestmentRatio baseCurrencyItem totalInvestment in
  maxKey <- property GroupItem.groupKey maxItem ;;
  if negb (String.eqb maxKey (baseCurrency ruleSettings))
  then
    shown <- percentage ratio ;;
    Ok {| evaluation :=
            "The major part of your initial investment is not in your base currency ("
            ++ shown ++ "% in " ++ baseCurrency ruleSettings ++ ")";
          value := false |}
  else
    shown <- percentage ratio ;;
    Ok {| evaluation :=
            "The major part of your initial investment is in your base currency ("
            ++ shown ++ "% in " ++ baseCurrency ruleSettings ++ ")";
          value := true |}.

Section Inherited.

(** [groupCurrentPositionsByAttribute] is inherited from the rule base
    class, which is not under src: a parameter, a method of the rule
    object. *)
Variable groupCurrentPositionsByAttribute :
  list Position.t -> Attribute -> option string ->
  Method t (list GroupItem.t).

Definition evaluate (ruleSettings : Settings) : Method t Evaluation :=
  positions <~ gets (fun this =>
                       CurrentPositions.positions (currentPositions this)) ;;
  positionsGroupedByCurrency <~
    groupCurrentPositionsByAttribute positions Currency
      (Some (baseCurrency ruleSettings)) ;;
  lift (evaluateGroups ruleSettings positionsGroupedByCurrency).

End Inherited.

End InBinary64.

(** ** Quantities of the rule's result, in binary64 *)

Module Loop.

Import InBinary64.

(** The comparison of the loop of [evaluate]. *)
Definition larger (maxItem groupItem : GroupItem.t) : GroupItem.t :=
  if Binary64.gt (GroupItem.investment groupItem)
       (GroupItem.investment maxItem)
  then groupItem else maxItem.

Definition largest (first : GroupItem.t) (groups : list GroupItem.t)
  : GroupItem.t :=
  fold_left larger groups first.


End Loop.


(** ** Helpers, adapters and groups for the examples *)

(** A helper that empties the array it is handed, by
    [positions.length = 0], before it answers. *)
Definition emptyingHelper (answer : list InBinary64.GroupItem.t)
  (positions : list Position.t) (attribute : Attribute)
  (optionalPinnedKey : option string)
  : Method CurrencyClusterRiskBaseCurrencyInitialInvestment.t
      (list InBinary64.GroupItem.t) :=
  fun this =>
    (Ok answer,
     {| CurrencyClusterRiskBaseCurrencyInitialInvestment.exchangeRateDataService :=
          CurrencyClusterRiskBaseCurrencyInitialInvestment.exchangeRateDataService
            this;
        CurrencyClusterRiskBaseCurrencyInitialInvestment.currentPositions :=
          {| CurrentPositions.positions := [];
             CurrentPositions.fees :=
               CurrentPositions.fees
                 (CurrencyClusterRiskBaseCurrencyInitialInvestment.currentPositions
                    this);
             CurrentPositions.errors :=
               CurrentPositions.errors
                 (CurrencyClusterRiskBaseCurrencyInitialInvestment.currentPositions
                    this) |} |}).


(** A helper that consults the exchange-rate adapter of the rule object: it
    answers when the adapter converts one euro to a positive amount, and
    with no group otherwise. *)
Definition adapterReadingHelper (answer : list InBinary64.GroupItem.t)
  (positions : list Position.t) (attribute : Attribute)
  (optionalPinnedKey : option string)
  : Method CurrencyClusterRiskBaseCurrencyInitialInvestment.t
      (list InBinary64.GroupItem.t) :=
  rates <~ gets CurrencyClusterRiskBaseCurrencyInitialInvestment.exchangeRateDataService ;;
  if Number.gt (toCurrency rates (Number.ofZ 1) "EUR" "USD") (Number.ofZ 0)
  then ret answer
  else ret [].


(** Two groups whose share of the base currency, 41 of 80, is a tie
    between two numerals of three digits. *)
Definition tiedGroups : list InBinary64.GroupItem.t :=
  [ {| InBinary64.GroupItem.groupKey := "USD";
       InBinary64.GroupItem.investment := 41%float |};
    {| InBinary64.GroupItem.groupKey := "EUR";
       InBinary64.GroupItem.investment := 39%float |} ].

(** ** Sums *)

Lemma qsum_app (l1 l2 : list Qc) : qsum (l1 ++ l2)%list = (qsum l1 + qsum l2)%Qc.
Proof.
  induction l1 as [|x l1 IH]; simpl.
  - ring.
  - rewrite IH. ring.
Qed.

(** ** The grouping helper *)

Section Grouping.

Lemma hasGroup_In (key : string) (groups : list GroupItem.t) :
  hasGroup key groups = true <-> In key (keys groups).
Proof.
  unfold hasGroup, keys. rewrite existsb_exists, in_map_iff.
  split; intros [g [H1 H2]]; exists g.
  - apply String.eqb_eq in H2. auto.
  - split; [assumption | now apply String.eqb_eq].
Qed.

Lemma hasGroup_false (key : string) (groups : list GroupItem.t) :
  hasGroup key groups = false <-> ~ In key (keys groups).
Proof.
  rewrite <- hasGroup_In. destruct (hasGroup key groups); split; congruence.
Qed.

Lemma allocate_keys (p : Position.t) (k : string) (a : Qc)
  (groups : list GroupItem.t) :
  keys (allocate p k a groups) =
  if hasGroup k groups then keys groups else (keys groups ++ [k])%list.
Proof.
  induction groups as [|g rest IH]; simpl; [reflexivity|].
  destruct (String.eqb (GroupItem.groupKey g) k) eqn:E; simpl.
  - reflexivity.
  - fold (hasGroup k rest). rewrite IH.
    destruct (hasGroup k rest); reflexivity.
Qed.

Lemma allocate_NoDup (p : Position.t) (k : string) (a : Qc)
  (groups : list GroupItem.t) :
  NoDup (keys groups) -> NoDup (keys (allocate p k a groups)).
Proof.
  intros H. rewrite allocate_keys.
  destruct (hasGroup k groups) eqn:E; [assumption|].
  apply hasGroup_false in E.
  apply NoDup_app; [assumption | repeat constructor; intros [] | ].
  intros x Hx [<-|[]]. contradiction.
Qed.

Lemma allocate_groupInvestment (p : Position.t) (k key : string) (a : Qc)
  (groups : list GroupItem.t) :
  groupInvestment key (allocate p k a groups) =
  (groupInvestment key groups + (if String.eqb k key then a else 0))%Qc.
Proof.
  unfold groupInvestment.
  induction groups as [|g rest IH]; simpl.
  - destruct (String.eqb k key); simpl; ring.
  - destruct (String.eqb (GroupItem.groupKey g) k) eqn:E; simpl.
    + apply String.eqb_eq in E. rewrite E.
      destruct (String.eqb k key); simpl; ring.
    + destruct (String.eqb (GroupItem.groupKey g) key); simpl; rewrite IH; ring.
Qed.

Lemma allocate_total (p : Position.t) (k : string) (a : Qc)
  (groups : list GroupItem.t) :
  qsum (map GroupItem.investment (allocate p k a groups)) =
  (qsum (map GroupItem.investment groups) + a)%Qc.
Proof.
  induction groups as [|g rest IH]; simpl.
  - ring.
  - destruct (String.eqb (GroupItem.groupKey g) k); simpl.
    + ring.
    + rewrite IH. ring.
Qed.

Lemma allocate_nonempty (p : Position.t) (k : string) (a : Qc)
  (groups : list GroupItem.t) :
  allocate p k a groups <> [].
Proof.
  destruct groups as [|g rest]; simpl; [discriminate|].
  destruct (String.eqb (GroupItem.groupKey g) k); discriminate.
Qed.

Lemma allocate_In_keys (p : Position.t) (k x : string) (a : Qc)
  (groups : list GroupItem.t) :
  In x (keys (allocate p k a groups)) <-> In x (keys groups) \/ x = k.
Proof.
  rewrite allocate_keys. destruct (hasGroup k groups) eqn:E.
  - apply hasGroup_In in E. split; [auto | intros [H | ->]; assumption].
  - rewrite in_app_iff. simpl. intuition congruence.
Qed.

(** *** One position *)

Lemma allocatePosition_NoDup (attribute : Attribute) (p : Position.t)
  (groups : list GroupItem.t) :
  NoDup (keys groups) -> NoDup (keys (allocatePosition attribute groups p)).
Proof.
  unfold allocatePosition.
  generalize (attributeSelector attribute p) as l. intros l. revert groups.
  induction l as [|kw l IH]; intros groups H; simpl; [assumption|].
  apply IH. now apply allocate_NoDup.
Qed.

Lemma allocatePosition_groupInvestment (attribute : Attribute) (key : string)
  (p : Position.t) (groups : list GroupItem.t) :
  groupInvestment key (allocatePosition attribute groups p) =
  (groupInvestment key groups + allocated attribute key [p])%Qc.
Proof.
  unfold allocatePosition, allocated. simpl. rewrite app_nil_r.
  generalize (attributeSelector attribute p) as l. intros l. revert groups.
  induction l as [|kw l IH]; intros groups; simpl.
  - ring.
  - rewrite IH, allocate_groupInvestment.
    destruct (String.eqb (fst kw) key); simpl; ring.
Qed.

Lemma allocatePosition_In_keys (attribute : Attribute) (x : string)
  (p : Position.t) (groups : list GroupItem.t) :
  In x (keys (allocatePosition attribute groups p)) <->
  In x (keys groups) \/ In x (map fst (attributeSelector attribute p)).
Proof.
  unfold allocatePosition.
  generalize (attributeSelector attribute p) as l. intros l. revert groups.
  induction l as [|kw l IH]; intros groups; simpl.
  - tauto.
  - rewrite IH, allocate_In_keys. intuition congruence.
Qed.

(** *** All positions *)

Lemma allocated_cons (attribute : Attribute) (key : string) (p : Position.t)
  (positions : list Position.t) :
  allocated attribute key (p :: positions) =
  (allocated attribute key [p] + allocated attribute key positions)%Qc.
Proof.
  unfold allocated. simpl. rewrite app_nil_r. apply qsum_app.
Qed.

Lemma grouped_NoDup (attribute : Attribute) (positions : list Position.t)
  (groups : list GroupItem.t) :
  NoDup (keys groups) ->
  NoDup (keys (fold_left (allocatePosition attribute) positions groups)).
Proof.
  revert groups. induction positions as [|p ps IH]; intros groups H; simpl.
  - assumption.
  - apply IH. now apply allocatePosition_NoDup.
Qed.

Lemma grouped_groupInvestment (attribute : Attribute) (key : string)
  (positions : list Position.t) (groups : list GroupItem.t) :
  groupInvestment key (fold_left (allocatePosition attribute) positions groups)
  = (groupInvestment key groups + allocated attribute key positions)%Qc.
Proof.
  revert groups. induction positions as [|p ps IH]; intros groups.
  - unfold allocated. simpl. ring.
  - simpl fold_left.
    rewrite IH, allocatePosition_groupInvestment, (allocated_cons _ _ p ps).
    ring.
Qed.

Lemma grouped_In_keys (attribute : Attribute) (x : string)
  (positions : list Position.t) (groups : list GroupItem.t) :
  In x (keys (fold_left (allocatePosition attribute) positions groups)) <->
  In x (keys groups) \/
  exists p, In p positions /\ In x (map fst (attributeSelector attribute p)).
Proof.
  revert groups. induction positions as [|p ps IH]; intros groups; simpl.
  - split; [auto | intros [H | [p [[] _]]]; assumption].
  - rewrite IH, allocatePosition_In_keys. split.
    + intros [[H | H] | [q [H1 H2]]]; eauto 6.
    + intros [H | [q [[<- | H1] H2]]]; eauto 6.
Qed.

(** *** Groups with distinct keys *)

Lemma groupInvestment_absent (key : string) (groups : list GroupItem.t) :
  ~ In key (keys groups) -> groupInvestment key groups = 0%Qc.
Proof.
  unfold groupInvestment.
  induction groups as [|g rest IH]; intros H; simpl; [reflexivity|].
  simpl in H.
  destruct (String.eqb (GroupItem.groupKey g) key) eqn:E.
  - apply String.eqb_eq in E. tauto.
  - apply IH. tauto.
Qed.

Lemma groupInvestment_member (g : GroupItem.t) (groups : list GroupItem.t) :
  NoDup (keys groups) -> In g groups ->
  groupInvestment (GroupItem.groupKey g) groups = GroupItem.investment g.
Proof.
  induction groups as [|g0 rest IH]; intros Hnd Hin; [destruct Hin|].
  simpl in Hnd. inversion Hnd as [|k l Hnotin Hrest]; subst.
  change (groupInvestment (GroupItem.groupKey g) (g0 :: rest)) with
    (qsum (map GroupItem.investment
       (if String.eqb (GroupItem.groupKey g0) (GroupItem.groupKey g)
        then g0 :: filter (fun x => String.eqb (GroupItem.groupKey x)
                                      (GroupItem.groupKey g)) rest
        else filter (fun x => String.eqb (GroupItem.groupKey x)
                                (GroupItem.groupKey g)) rest))).
  destruct Hin as [-> | Hin].
  - rewrite String.eqb_refl. simpl.
    fold (groupInvestment (GroupItem.groupKey g) rest).
    rewrite groupInvestment_absent by assumption. ring.
  - destruct (String.eqb (GroupItem.groupKey g0) (GroupItem.groupKey g)) eqn:E.
    + apply String.eqb_eq in E. exfalso. apply Hnotin. rewrite E.
      unfold keys. now apply in_map.
    + now apply IH.
Qed.

Lemma find_member (g : GroupItem.t) (groups : list GroupItem.t) :
  NoDup (keys groups) -> In g groups ->
  find (fun item => String.eqb (GroupItem.groupKey item) (GroupItem.groupKey g))
    groups = Some g.
Proof.
  induction groups as [|g0 rest IH]; intros Hnd Hin; [destruct Hin|].
  simpl in Hnd. inversion Hnd as [|k l Hnotin Hrest]; subst. simpl.
  destruct Hin as [-> | Hin].
  - now rewrite String.eqb_refl.
  - destruct (String.eqb (GroupItem.groupKey g0) (GroupItem.groupKey g)) eqn:E.
    + apply String.eqb_eq in E. exfalso. apply Hnotin. rewrite E.
      unfold keys. now apply in_map.
    + now apply IH.
Qed.

Lemma find_absent (key : string) (groups : list GroupItem.t) :
  ~ In key (keys groups) ->
  find (fun item => String.eqb (GroupItem.groupKey item) key) groups = None.
Proof.
  induction groups as [|g rest IH]; intros H; simpl; [reflexivity|].
  simpl in H.
  destruct (String.eqb (GroupItem.groupKey g) key) eqn:E.
  - apply String.eqb_eq in E. tauto.
  - apply IH. tauto.
Qed.

End Grouping.

(** *** The grouped sequence *)

Section GroupedSequence.

Variable positions : list Position.t.
Variable attribute : Attribute.
Variable optionalPinnedKey : option string.

Let groups : list GroupItem.t :=
  groupCurrentPositionsByAttribute positions attribute optionalPinnedKey.

Lemma grouping_NoDup : NoDup (keys groups).
Proof.
  subst groups. unfold groupCurrentPositionsByAttribute.
  assert (H : NoDup (keys (fold_left (allocatePosition attribute) positions [])))
    by (apply grouped_NoDup; constructor).
  destruct optionalPinnedKey as [key|]; [|assumption].
  destruct (hasGroup key _) eqn:E; [assumption|].
  apply hasGroup_false in E. unfold keys. rewrite map_app.
  apply NoDup_app; [assumption | repeat constructor; intros [] | ].
  intros x Hx [<-|[]]. contradiction.
Qed.

Lemma grouping_groupInvestment (key : string) :
  groupInvestment key groups = allocated attribute key positions.
Proof.
  subst groups. unfold groupCurrentPositionsByAttribute.
  assert (H : groupInvestment key
                (fold_left (allocatePosition attribute) positions [])
              = allocated attribute key positions).
  { rewrite grouped_groupInvestment. unfold groupInvestment. simpl. ring. }
  destruct optionalPinnedKey as [pinned|]; [|assumption].
  destruct (hasGroup pinned _); [assumption|].
  unfold groupInvestment in *. rewrite filter_app, map_app, qsum_app, H.
  simpl. destruct (String.eqb pinned key); simpl; ring.
Qed.

Lemma grouping_member (g : GroupItem.t) :
  In g groups ->
  GroupItem.investment g = allocated attribute (GroupItem.groupKey g) positions.
Proof.
  intros H. rewrite <- grouping_groupInvestment.
  symmetry. apply groupInvestment_member; [apply grouping_NoDup | assumption].
Qed.

Lemma grouping_total :
  qsum (map GroupItem.investment groups) =
  qsum (flat_map
          (fun p => map (fun kw => (Position.investment p * snd kw)%Qc)
                      (attributeSelector attribute p))
          positions).
Proof.
  subst groups. unfold groupCurrentPositionsByAttribute.
  assert (H : forall gs,
    qsum (map GroupItem.investment
            (fold_left (allocatePosition attribute) positions gs)) =
    (qsum (map GroupItem.investment gs) +
     qsum (flat_map
             (fun p => map (fun kw => (Position.investment p * snd kw)%Qc)
                         (attributeSelector attribute p))
             positions))%Qc).
  { induction positions as [|p ps IH]; intros gs; simpl.
    - ring.
    - rewrite IH, qsum_app. unfold allocatePosition.
      generalize (attributeSelector attribute p) as l. intros l. revert gs.
      induction l as [|kw l IHl]; intros gs; simpl.
      + ring.
      + rewrite IHl, allocate_total. ring. }
  specialize (H []). simpl in H.
  destruct optionalPinnedKey as [pinned|].
  - destruct (hasGroup pinned _).
    + rewrite H. ring.
    + rewrite map_app, qsum_app, H. simpl. ring.
  - rewrite H. ring.
Qed.

End GroupedSequence.

Lemma grouping_pinned (positions : list Position.t) (attribute : Attribute)
  (key : string) :
  hasGroup key
    (groupCurrentPositionsByAttribute positions attribute (Some key)) = true.
Proof.
  unfold groupCurrentPositionsByAttribute.
  destruct (hasGroup key (fold_left _ _ _)) eqn:E; [assumption|].
  unfold hasGroup. rewrite existsb_app. simpl.
  rewrite String.eqb_refl. now rewrite orb_true_r.
Qed.

(** *** Grouping by currency *)

Lemma allocated_currency (key : string) (positions : list Position.t) :
  allocated Currency key positions = investedIn key positions.
Proof.
  induction positions as [|p ps IH]; [reflexivity|].
  rewrite allocated_cons, IH. unfold allocated, investedIn. simpl.
  destruct (String.eqb (Position.currency p) key); simpl; ring.
Qed.

Lemma total_currency (positions : list Position.t) :
  qsum (flat_map
          (fun p => map (fun kw => (Position.investment p * snd kw)%Qc)
                      (attributeSelector Currency p))
          positions) = totalInvested positions.
Proof.
  unfold totalInvested.
  induction positions as [|p ps IH]; [reflexivity|].
  cbn [flat_map]. rewrite qsum_app, IH. simpl. ring.
Qed.

(** With a pinned key the lookup of that key always finds a group. *)
Lemma pinned_key_lookup_finds (positions : list Position.t)
  (attribute : Attribute) (key : string) :
  exists g,
    find (fun item => String.eqb (GroupItem.groupKey item) key)
      (groupCurrentPositionsByAttribute positions attribute (Some key))
    = Some g /\
    GroupItem.groupKey g = key.
Proof.
  pose proof (grouping_pinned positions attribute key) as H.
  apply hasGroup_In in H. unfold keys in H. apply in_map_iff in H.
  destruct H as [g [Hk Hg]]. exists g. split; [|assumption].
  pose proof (find_member g _ (grouping_NoDup positions attribute (Some key))
                Hg) as F.
  now rewrite Hk in F.
Qed.

(** ** Printed numbers *)

Section Printing.

Lemma avoids_app (c : ascii) (s1 s2 : string) :
  avoids c (s1 ++ s2) = avoids c s1 && avoids c s2.
Proof.
  induction s1 as [|a s1 IH]; simpl; [reflexivity|].
  now rewrite IH, andb_assoc.
Qed.

Lemma avoids_substring (c : ascii) (s : string) (n m : nat) :
  avoids c s = true -> avoids c (substring n m s) = true.
Proof.
  revert n m. induction s as [|a s IH]; intros n m H.
  - destruct n, m; reflexivity.
  - simpl in H. apply andb_true_iff in H. destruct H as [H1 H2].
    destruct n as [|n]; simpl.
    + destruct m as [|m]; simpl; [reflexivity|].
      rewrite H1. now apply IH.
    + now apply IH.
Qed.

Lemma avoids_zeros (k : nat) : avoids "N" (Number.zeros k) = true.
Proof. induction k as [|k IH]; simpl; auto. Qed.

Lemma avoids_digitsOf (n : Z) : avoids "N" (Number.digitsOf n) = true.
Proof.
  unfold Number.digitsOf.
  generalize (N.to_uint (Z.to_N n)) as d. intros d.
  assert (H : avoids "N" (NilEmpty.string_of_uint d) = true)
    by (induction d; simpl; auto).
  destruct d; auto.
Qed.

Lemma avoids_exponential (s m : string) (p e : Z) :
  avoids "N" s = true -> avoids "N" m = true ->
  avoids "N" (Number.exponential s m p e) = true.
Proof.
  intros Hs Hm. unfold Number.exponential.
  rewrite !avoids_app, Hs, avoids_digitsOf.
  destruct (p =? 1)%Z, (e <? 0)%Z;
    rewrite ?avoids_app, ?avoids_substring by assumption; reflexivity.
Qed.

Lemma avoids_fixed (s m : string) (p e : Z) :
  avoids "N" s = true -> avoids "N" m = true ->
  avoids "N" (Number.fixed s m p e) = true.
Proof.
  intros Hs Hm. unfold Number.fixed.
  destruct (e =? p - 1)%Z, (0 <=? e)%Z;
    rewrite ?avoids_app, ?Hs, ?Hm, ?avoids_zeros,
      ?avoids_substring by assumption; reflexivity.
Qed.

(** A number that is not [NaN] is printed without the letter [N]. *)
Lemma toPrecision_avoids (x : Number.t) (precision : Z) (shown : string) :
  x <> Number.NaN ->
  Number.toPrecision x precision = Ok shown ->
  avoids "N" shown = true.
Proof.
  intros Hx H. destruct x as [|[]|q]; simpl in H.
  - contradiction.
  - injection H as <-. reflexivity.
  - injection H as <-. reflexivity.
  - destruct ((precision <? 1)%Z || (100 <? precision)%Z); [discriminate|].
    assert (Hs : avoids "N" (if Number.isNegative q then "-" else "") = true)
      by (destruct (Number.isNegative q); reflexivity).
    destruct (Number.isZero q).
    + destruct ((0 <? -6)%Z || (precision <=? 0)%Z); injection H as <-.
      * apply avoids_exponential; [assumption | apply avoids_zeros].
      * apply avoids_fixed; [assumption | apply avoids_zeros].
    + destruct (Number.significand _ _ _) as [n e].
      destruct ((e <? -6)%Z || (precision <=? e)%Z); injection H as <-.
      * apply avoids_exponential; [assumption | apply avoids_digitsOf].
      * apply avoids_fixed; [assumption | apply avoids_digitsOf].
Qed.

(** A text without the letter [N] in front does not change whether ["NaN"]
    occurs. *)
Lemma includes_NaN_app (s1 s2 : string) :
  avoids "N" s1 = true ->
  includes (s1 ++ s2) "NaN" = includes s2 "NaN".
Proof.
  induction s1 as [|a s1 IH]; intros H; [reflexivity|].
  simpl in H. apply andb_true_iff in H. destruct H as [H1 H2].
  cbn [append includes]. rewrite (IH H2).
  replace (prefix "NaN" (String a (s1 ++ s2))) with false; [reflexivity|].
  cbn [prefix].
  destruct (ascii_dec "N" a) as [<- | ?]; [discriminate H1 | reflexivity].
Qed.

Lemma includes_NaN_closing (s : string) :
  includes (s ++ ")") "NaN" = includes s "NaN".
Proof.
  induction s as [|a s IH]; [reflexivity|].
  cbn [append includes]. rewrite IH. f_equal.
  cbn [prefix]. destruct (ascii_dec "N" a); [|reflexivity].
  destruct s as [|b [|c s]]; cbn [append prefix].
  - reflexivity.
  - destruct (ascii_dec "a" b); reflexivity.
  - destruct (ascii_dec "a" b); [|reflexivity].
    destruct (ascii_dec "N" c); [|reflexivity].
    destruct s; reflexivity.
Qed.

(** ["NaN"] occurs in an evaluation text only inside the base currency's
    name, when the printed number has no letter [N]. *)
Lemma message_includes_NaN (inBaseCurrency : bool) (shown base : string) :
  avoids "N" shown = true ->
  includes (message inBaseCurrency shown base) "NaN" = includes base "NaN".
Proof.
  intros H. unfold message.
  rewrite includes_NaN_app by (destruct inBaseCurrency; reflexivity).
  rewrite includes_NaN_app by assumption.
  rewrite (includes_NaN_app "% in ") by reflexivity.
  apply includes_NaN_closing.
Qed.

End Printing.

(** ** The significand printed by [toPrecision] *)

Section Significand.

Variables n d : Z.
Hypothesis n_positive : (0 < n)%Z.
Hypothesis d_positive : (0 < d)%Z.

Lemma scaled_positive (e : Z) :
  (0 < fst (Number.scaled e n d) /\ 0 < snd (Number.scaled e n d))%Z.
Proof.
  unfold Number.scaled. destruct (0 <=? e)%Z eqn:E; cbn [fst snd].
  - apply Z.leb_le in E. split; [assumption|].
    apply Z.mul_pos_pos; [assumption | apply Z.pow_pos_nonneg; lia].
  - apply Z.leb_gt in E. split; [|assumption].
    apply Z.mul_pos_pos; [assumption | apply Z.pow_pos_nonneg; lia].
Qed.

(** Lowering the exponent by [k] multiplies the fraction by [10^k]. *)
Lemma scaled_shift (e k : Z) :
  (0 <= k)%Z ->
  (fst (Number.scaled (e - k) n d) * snd (Number.scaled e n d)
   = 10 ^ k * fst (Number.scaled e n d) * snd (Number.scaled (e - k) n d))%Z.
Proof.
  intros Hk. unfold Number.scaled.
  destruct (0 <=? e)%Z eqn:E1, (0 <=? e - k)%Z eqn:E2; cbn [fst snd];
    try apply Z.leb_le in E1; try apply Z.leb_le in E2;
    try apply Z.leb_gt in E1; try apply Z.leb_gt in E2.
  - replace e with (k + (e - k))%Z at 1 by lia.
    rewrite Z.pow_add_r by lia. ring.
  - replace (- (e - k))%Z with (k - e)%Z by lia.
    replace k with ((k - e) + e)%Z at 2 by lia.
    rewrite (Z.pow_add_r 10 (k - e) e) by lia. ring.
  - lia.
  - replace (- (e - k))%Z with (k + - e)%Z by lia.
    rewrite Z.pow_add_r by lia. ring.
Qed.

Lemma pow10le_true (e : Z) :
  Number.pow10le e n d = true <->
  (snd (Number.scaled e n d) <= fst (Number.scaled e n d))%Z.
Proof.
  unfold Number.pow10le. destruct (Number.scaled e n d) as [a b].
  apply Z.leb_le.
Qed.

Lemma pow10le_false (e : Z) :
  Number.pow10le e n d = false <->
  (fst (Number.scaled e n d) < snd (Number.scaled e n d))%Z.
Proof.
  unfold Number.pow10le. destruct (Number.scaled e n d) as [a b].
  apply Z.leb_gt.
Qed.

Lemma pow_10_above (k : Z) : (0 <= k)%Z -> (2 ^ k <= 10 ^ k)%Z.
Proof. intros H. apply Z.pow_le_mono_l. lia. Qed.

(** The scan starts above the magnitude of [n/d] ... *)
Lemma pow10le_start : Number.pow10le (Z.log2 n + 1 + 1) n d = false.
Proof.
  apply pow10le_false. unfold Number.scaled.
  pose proof (Z.log2_nonneg n) as H0.
  replace (0 <=? Z.log2 n + 1 + 1)%Z with true by (symmetry; apply Z.leb_le; lia).
  cbn [fst snd].
  pose proof (Z.log2_spec n n_positive) as [_ H1].
  pose proof (pow_10_above (Z.log2 n + 1 + 1) ltac:(lia)) as H2.
  assert (H3 : (2 ^ Z.succ (Z.log2 n) <= 2 ^ (Z.log2 n + 1 + 1))%Z)
    by (apply Z.pow_le_mono_r; lia).
  nia.
Qed.

(** ... and reaches it before the fuel runs out. *)
Lemma pow10le_stop : Number.pow10le (- (Z.log2 d + 1)) n d = true.
Proof.
  apply pow10le_true. unfold Number.scaled.
  pose proof (Z.log2_nonneg d) as H0.
  replace (0 <=? - (Z.log2 d + 1))%Z with false by (symmetry; apply Z.leb_gt; lia).
  cbn [fst snd]. rewrite Z.opp_involutive.
  pose proof (Z.log2_spec d d_positive) as [_ H1].
  pose proof (pow_10_above (Z.log2 d + 1) ltac:(lia)) as H2.
  replace (Z.succ (Z.log2 d)) with (Z.log2 d + 1)%Z in H1 by lia.
  nia.
Qed.

Lemma magnitude_found (fuel : nat) (e : Z) :
  Number.pow10le (e + 1) n d = false ->
  (exists e', (e - Z.of_nat fuel < e' <= e)%Z /\ Number.pow10le e' n d = true) ->
  Number.pow10le (Number.magnitude fuel e n d) n d = true /\
  Number.pow10le (Number.magnitude fuel e n d + 1) n d = false.
Proof.
  revert e. induction fuel as [|fuel IH]; intros e Ha [e' [Hr He']].
  - lia.
  - cbn [Number.magnitude].
    destruct (Number.pow10le e n d) eqn:E; [auto|].
    apply IH.
    + now replace (e - 1 + 1)%Z with e by lia.
    + exists e'. split; [|assumption].
      assert (e' <> e) by (intros ->; congruence). lia.
Qed.

(** The exponent found: [10^e <= n/d < 10^(e+1)]. *)
Lemma magnitude_brackets :
  let e := Number.magnitude (Z.to_nat (Z.log2 n + Z.log2 d + 3))
             (Z.log2 n + 1) n d in
  Number.pow10le e n d = true /\ Number.pow10le (e + 1) n d = false.
Proof.
  apply magnitude_found.
  - apply pow10le_start.
  - exists (- (Z.log2 d + 1))%Z. split; [|apply pow10le_stop].
    pose proof (Z.log2_nonneg n). pose proof (Z.log2_nonneg d). lia.
Qed.

Lemma rounded_nearest (e : Z) :
  (2 * snd (Number.scaled e n d) * Number.rounded e n d
   <= 2 * fst (Number.scaled e n d) + snd (Number.scaled e n d)
   < 2 * snd (Number.scaled e n d) * (Number.rounded e n d + 1))%Z.
Proof.
  unfold Number.rounded. pose proof (scaled_positive e) as [Ha Hb].
  destruct (Number.scaled e n d) as [a b]. cbn [fst snd] in *.
  pose proof (Z.mul_div_le (2 * a + b) (2 * b) ltac:(lia)).
  pose proof (Z.mul_succ_div_gt (2 * a + b) (2 * b) ltac:(lia)).
  lia.
Qed.

(** The pair [(m, e)] chosen for precision [p]: [m] has [p] digits and is
    the integer nearest to [n/d / 10^(e-(p-1))], the larger one on a tie;
    [n/d] is below [10^(e+1)], and at least [10^e] unless the rounding
    carried into the next decade. *)
Theorem significand_nearest (p : Z) :
  (1 <= p)%Z ->
  let m := fst (Number.significand p n d) in
  let e := snd (Number.significand p n d) in
  let a := fst (Number.scaled (e - (p - 1)) n d) in
  let b := snd (Number.scaled (e - (p - 1)) n d) in
  (10 ^ (p - 1) <= m < 10 ^ p)%Z /\
  (2 * b * m <= 2 * a + b < 2 * b * (m + 1))%Z /\
  Number.pow10le (e + 1) n d = false /\
  (Number.pow10le e n d = true \/ m = (10 ^ (p - 1))%Z).
Proof.
  intros Hp. unfold Number.significand.
  destruct magnitude_brackets as [Hlow Hhigh].
  set (e0 := Number.magnitude _ _ n d) in *.
  apply pow10le_true in Hlow. apply pow10le_false in Hhigh.
  pose proof (scaled_positive e0) as [Ha0 Hb0].
  pose proof (scaled_positive (e0 + 1)) as [Ha1 Hb1].
  pose proof (scaled_positive (e0 - (p - 1))) as [Ha Hb].
  pose proof (scaled_positive (e0 + 1 - (p - 1))) as [Ha2 Hb2].
  pose proof (scaled_shift (e0 + 1) 1 ltac:(lia)) as S1.
  replace (e0 + 1 - 1)%Z with e0 in S1 by lia.
  pose proof (scaled_shift e0 (p - 1) ltac:(lia)) as S2.
  pose proof (scaled_shift (e0 + 1 - (p - 1)) 1 ltac:(lia)) as S3.
  replace (e0 + 1 - (p - 1) - 1)%Z with (e0 - (p - 1))%Z in S3 by lia.
  pose proof (rounded_nearest (e0 - (p - 1))) as Hn.
  assert (Hpow : (10 ^ p = 10 * 10 ^ (p - 1))%Z).
  { replace p with (1 + (p - 1))%Z at 1 by lia.
    rewrite Z.pow_add_r by lia. reflexivity. }
  assert (HP : (0 < 10 ^ (p - 1))%Z) by (apply Z.pow_pos_nonneg; lia).
  change (10 ^ 1)%Z with 10%Z in *.
  set (P := (10 ^ (p - 1))%Z) in *.
  set (m0 := Number.rounded (e0 - (p - 1)) n d) in *.
  set (a0 := fst (Number.scaled e0 n d)) in *.
  set (b0 := snd (Number.scaled e0 n d)) in *.
  set (a1 := fst (Number.scaled (e0 + 1) n d)) in *.
  set (b1 := snd (Number.scaled (e0 + 1) n d)) in *.
  set (a' := fst (Number.scaled (e0 - (p - 1)) n d)) in *.
  set (b' := snd (Number.scaled (e0 - (p - 1)) n d)) in *.
  set (a2 := fst (Number.scaled (e0 + 1 - (p - 1)) n d)) in *.
  set (b2 := snd (Number.scaled (e0 + 1 - (p - 1)) n d)) in *.
  assert (Hten : (a0 < 10 * b0)%Z) by nia.
  assert (Hlo : (P * b' <= a')%Z) by nia.
  assert (Hhi : (a' < 10 * P * b')%Z) by nia.
  assert (Hm1 : (P <= m0)%Z) by nia.
  assert (Hm2 : (m0 <= 10 * P)%Z) by nia.
  destruct (m0 =? 10 ^ p)%Z eqn:E; cbn [fst snd].
  - apply Z.eqb_eq in E. rewrite Hpow in E.
    fold a2 b2. repeat split.
    + lia.
    + lia.
    + nia.
    + nia.
    + apply pow10le_false.
      pose proof (scaled_positive (e0 + 1 + 1)) as [Ha3 Hb3].
      pose proof (scaled_shift (e0 + 1 + 1) 1 ltac:(lia)) as S4.
      replace (e0 + 1 + 1 - 1)%Z with (e0 + 1)%Z in S4 by lia.
      change (10 ^ 1)%Z with 10%Z in S4. fold a1 b1 in S4. nia.
    + now right.
  - apply Z.eqb_neq in E. rewrite Hpow in E.
    fold a' b'. repeat split.
    + lia.
    + lia.
    + lia.
    + lia.
    + apply pow10le_false. fold a1 b1. nia.
    + left. apply pow10le_true. fold a0 b0. lia.
Qed.

End Significand.

(** *** Printed numbers, by example *)

Example toPrecision_examples :
  map (fun q => Number.toPrecision (Number.Fin (Q2Qc q)) 3)
    [60 # 1; 0 # 1; 100 # 1; 1 # 3; 2 # 3; 9996 # 1000; 9994 # 1000;
     12345 # 1; -5 # 1000; 1 # 10000000; 1 # 1000000; 999999 # 1]%Q
  = map Ok
      ["60.0"; "0.00"; "100"; "0.333"; "0.667"; "10.0"; "9.99";
       "1.23e+4"; "-0.00500"; "1.00e-7"; "0.00000100"; "1.00e+6"].
Proof. vm_compute. reflexivity. Qed.

(** ** The loop of [evaluate] *)

Import CurrencyClusterRiskBaseCurrencyInitialInvestment.

Lemma gt_Fin (a b : Qc) :
  Number.gt (Number.Fin a) (Number.Fin b) = true <-> (b < a)%Qc.
Proof.
  simpl. pose proof (Qcgt_alt a b) as H. simpl in H. rewrite H.
  destruct (a ?= b)%Qc; split; congruence.
Qed.

Lemma gt_Fin_false (a b : Qc) :
  Number.gt (Number.Fin a) (Number.Fin b) = false <-> (a <= b)%Qc.
Proof.
  simpl. rewrite Qcle_alt.
  destruct (a ?= b)%Qc; split; congruence.
Qed.

Lemma callback_step (maxItem groupItem : GroupItem.t) (total : Qc) :
  callback (Some maxItem, Number.Fin total) groupItem =
  Ok (Some (larger maxItem groupItem),
      Number.Fin (total + GroupItem.investment groupItem)).
Proof.
  unfold callback, larger. cbn [property bind Number.add].
  now destruct (Number.gt _ _).
Qed.

Lemma forEach_callback (groups : list GroupItem.t) (maxItem : GroupItem.t)
  (total : Qc) :
  forEach callback groups (Some maxItem, Number.Fin total) =
  Ok (Some (largest maxItem groups),
      Number.Fin (total + qsum (map GroupItem.investment groups))).
Proof.
  unfold forEach, largest.
  revert maxItem total.
  induction groups as [|g rest IH]; intros maxItem total.
  - simpl. do 3 f_equal. ring.
  - cbn [fold_left bind].
    rewrite callback_step, IH. do 3 f_equal.
    change (qsum (map GroupItem.investment (g :: rest)))
      with (GroupItem.investment g + qsum (map GroupItem.investment rest))%Qc.
    ring.
Qed.

Lemma larger_self (g : GroupItem.t) : larger g g = g.
Proof.
  unfold larger.
  now destruct (Number.gt (Number.Fin (GroupItem.investment g))
                  (Number.Fin (GroupItem.investment g))).
Qed.

(** The loop keeps the first group of largest investment: the groups before
    it are strictly smaller, the groups after it are not larger. *)
Lemma largest_split (groups before after : list GroupItem.t)
  (maxItem : GroupItem.t) :
  (forall g, In g before ->
     (GroupItem.investment g < GroupItem.investment maxItem)%Qc) ->
  (forall g, In g after ->
     (GroupItem.investment g <= GroupItem.investment maxItem)%Qc) ->
  exists before' after',
    (before ++ maxItem :: after ++ groups)%list
    = (before' ++ largest maxItem groups :: after')%list /\
    (forall g, In g before' ->
       (GroupItem.investment g
        < GroupItem.investment (largest maxItem groups))%Qc) /\
    (forall g, In g after' ->
       (GroupItem.investment g
        <= GroupItem.investment (largest maxItem groups))%Qc).
Proof.
  revert before after maxItem.
  induction groups as [|g rest IH]; intros before after maxItem Hb Ha.
  - exists before, after. rewrite app_nil_r. auto.
  - unfold largest. simpl. fold (largest (larger maxItem g) rest).
    unfold larger.
    destruct (Number.gt (Number.Fin (GroupItem.investment g))
                (Number.Fin (GroupItem.investment maxItem))) eqn:E.
    + apply gt_Fin in E.
      destruct (IH (before ++ maxItem :: after)%list [] g) as (b' & a' & H1 & H2 & H3).
      * intros x Hx. apply in_app_iff in Hx. destruct Hx as [Hx | [<- | Hx]].
        -- eapply Qclt_trans; [apply Hb|]; eassumption.
        -- assumption.
        -- eapply Qcle_lt_trans; [apply Ha|]; eassumption.
      * intros x [].
      * exists b', a'. split; [|auto].
        rewrite <- H1. rewrite <- app_assoc. reflexivity.
    + apply gt_Fin_false in E.
      destruct (IH before (after ++ [g])%list maxItem) as (b' & a' & H1 & H2 & H3).
      * assumption.
      * intros x Hx. apply in_app_iff in Hx. destruct Hx as [Hx | [<- | []]]; auto.
      * exists b', a'. split; [|auto].
        rewrite <- H1. rewrite <- app_assoc. reflexivity.
Qed.

Lemma percentage_returns (ratio : Number.t) :
  exists shown, percentage ratio = Ok shown.
Proof.
  unfold percentage.
  destruct (Number.mul ratio (Number.ofZ 100)) as [|[]|q]; simpl; eauto.
  destruct (if Number.isZero q then _ else _) as [m e].
  destruct ((e <? -6)%Z || (3 <=? e)%Z); eauto.
Qed.

(** [evaluate] on a grouped sequence that is not empty. *)
Lemma evaluateGroups_cons (ruleSettings : Settings) (first : GroupItem.t)
  (rest : list GroupItem.t) :
  evaluateGroups ruleSettings (first :: rest) =
  (shown <- percentage (ratioOf (baseCurrency ruleSettings) (first :: rest)) ;;
   Ok {| evaluation :=
           message (String.eqb (GroupItem.groupKey (largest first rest))
                      (baseCurrency ruleSettings))
             shown (baseCurrency ruleSettings);
         value := String.eqb (GroupItem.groupKey (largest first rest))
                    (baseCurrency ruleSettings) |}).
Proof.
  unfold evaluateGroups. cbn [nth_error]. unfold Number.ofZ at 1.
  rewrite forEach_callback. cbn [bind property].
  replace (largest first (first :: rest)) with (largest first rest)
    by (unfold largest; simpl; now rewrite larger_self).
  replace (Q2Qc (inject_Z 0) + qsum (map GroupItem.investment (first :: rest)))%Qc
    with (qsum (map GroupItem.investment (first :: rest))).
  2:{ change (Q2Qc (inject_Z 0)) with 0%Qc. ring. }
  fold (ratioOf (baseCurrency ruleSettings) (first :: rest)).
  destruct (String.eqb (GroupItem.groupKey (largest first rest))
              (baseCurrency ruleSettings)); reflexivity.
Qed.

(** ** The body of [evaluate] on any grouped sequence *)

(** On an empty grouped sequence [maxItem] is [undefined], and the body of
    [evaluate] throws a [TypeError] when it reads [maxItem.groupKey]. *)
Theorem evaluateGroups_empty_throws (ruleSettings : Settings) :
  evaluateGroups ruleSettings [] = Throw TypeError.
Proof. reflexivity. Qed.

(** When the lookup of the base currency's group finds nothing, the ratio is
    0, whatever the total: [undefined / total] is [NaN], and [NaN || 0] is
    0. *)
Theorem ratio_without_base_group (totalInvestment : Number.t) :
  baseCurrencyInvestmentRatio None totalInvestment = Number.ofZ 0.
Proof. reflexivity. Qed.

(** ** The rule on the positions of a user *)

Lemma evaluate_unfold
  (helper : list Position.t -> Attribute -> option string -> list GroupItem.t)
  (ruleSettings : Settings)
  (this : CurrencyClusterRiskBaseCurrencyInitialInvestment.t) :
  evaluate helper ruleSettings this =
  (evaluateGroups ruleSettings
     (helper (CurrentPositions.positions (currentPositions this)) Currency
        (Some (baseCurrency ruleSettings))),
   this).
Proof. reflexivity. Qed.

Section Rule.

Variable this : CurrencyClusterRiskBaseCurrencyInitialInvestment.t.
Variable ruleSettings : Settings.

Let positions : list Position.t :=
  CurrentPositions.positions (currentPositions this).
Let base : string := baseCurrency ruleSettings.
Let groups : list GroupItem.t :=
  groupCurrentPositionsByAttribute positions Currency (Some base).


Lemma groups_by_currency (g : GroupItem.t) :
  In g groups ->
  GroupItem.investment g = investedIn (GroupItem.groupKey g) positions.
Proof.
  intros H. rewrite <- allocated_currency.
  now apply (grouping_member positions Currency (Some base)).
Qed.

Lemma groups_keys (key : string) :
  In key (keys groups) <->
  key = base \/ exists p, In p positions /\ Position.currency p = key.
Proof.
  subst groups. unfold groupCurrentPositionsByAttribute.
  pose proof (grouped_In_keys Currency key positions []) as H.
  assert (H' : In key (keys (fold_left (allocatePosition Currency) positions []))
               <-> exists p, In p positions /\ Position.currency p = key).
  { rewrite H. simpl. split.
    - intros [[] | [p [H1 [H2 | []]]]]. eauto.
    - intros [p [H1 H2]]. right. exists p. auto. }
  destruct (hasGroup base _) eqn:E.
  - rewrite H'. split; [auto|]. intros [-> | H0]; [|assumption].
    apply H'. now apply hasGroup_In.
  - unfold keys. rewrite map_app, in_app_iff. fold (keys (fold_left
      (allocatePosition Currency) positions [])). rewrite H'. simpl.
    intuition congruence.
Qed.

Lemma groups_nonempty : exists first rest, groups = first :: rest.
Proof.
  pose proof (grouping_pinned positions Currency base) as H.
  fold groups in H. destruct groups as [|first rest]; [discriminate|eauto].
Qed.

Lemma ratio_is_share : ratioOf base groups = share base positions.
Proof.
  unfold ratioOf, share.
  pose proof (grouping_pinned positions Currency base) as H.
  fold groups in H. apply hasGroup_In in H.
  unfold keys in H. apply in_map_iff in H. destruct H as [g [Hk Hg]].
  assert (F : find (fun item => String.eqb (GroupItem.groupKey item) base)
                 groups = Some g).
  { rewrite <- Hk. apply find_member; [apply grouping_NoDup | assumption]. }
  rewrite F. unfold baseCurrencyInvestmentRatio.
  rewrite (groups_by_currency g Hg), Hk.
  subst groups. rewrite grouping_total, total_currency. reflexivity.
Qed.

End Rule.

Lemma share_quotient (base : string) (positions : list Position.t) :
  totalInvested positions <> 0%Qc ->
  share base positions =
  Number.Fin (investedIn base positions / totalInvested positions).
Proof.
  intros H. unfold share, Number.div.
  assert (E : Number.isZero (totalInvested positions) = false).
  { unfold Number.isZero.
    destruct (totalInvested positions ?= 0)%Qc eqn:C; try reflexivity.
    apply Qceq_alt in C. contradiction. }
  rewrite E. unfold Number.or, Number.toBoolean, Number.isZero.
  destruct (investedIn base positions / totalInvested positions ?= 0)%Qc eqn:C;
    try reflexivity.
  apply Qceq_alt in C. rewrite C. reflexivity.
Qed.

(** ** Properties of the rule *)

(** C2.  The positions [{A: 6000 USD, B: 4000 EUR}] with base currency USD
    give the verdict [true] and the ratio [60.0%]; the positions
    [{A: 3000 USD, B: 7000 EUR}] give the verdict [false] and [30.0%]. *)
Theorem evaluate_examples :
  fst (evaluate groupCurrentPositionsByAttribute (settingsFor "USD")
         (ruleOn identityRates
            [position "A" "USD" 6000; position "B" "EUR" 4000]))
  = Ok {| evaluation :=
            "The major part of your initial investment is in your base currency (60.0% in USD)";
          value := true |} /\
  fst (evaluate groupCurrentPositionsByAttribute (settingsFor "USD")
         (ruleOn identityRates
            [position "A" "USD" 3000; position "B" "EUR" 7000]))
  = Ok {| evaluation :=
            "The major part of your initial investment is not in your base currency (30.0% in USD)";
          value := false |}.
Proof. split; vm_compute; reflexivity. Qed.

(** In binary64 arithmetic the percentages of the two examples are exactly
    60 and 30, so that rounding does not change the digits printed. *)
Lemma binary64_percentages :
  (6000 / 10000 * 100 =? 60)%float = true /\
  (3000 / 10000 * 100 =? 30)%float = true.
Proof. split; vm_compute; reflexivity. Qed.

(** C3.  For every position set, the empty one included, and every
    settings value the grouped sequence has a first element, and [evaluate]
    returns an evaluation, whose value is [true] or [false]; it does not
    throw. *)
Theorem evaluate_returns
  (this : CurrencyClusterRiskBaseCurrencyInitialInvestment.t)
  (ruleSettings : Settings) :
  exists (maxItem : GroupItem.t) (e : Evaluation),
    nth_error
      (groupCurrentPositionsByAttribute
         (CurrentPositions.positions (currentPositions this)) Currency
         (Some (baseCurrency ruleSettings))) 0 = Some maxItem /\
    fst (evaluate groupCurrentPositionsByAttribute ruleSettings this) = Ok e /\
    (value e = true \/ value e = false).
Proof.
  destruct (groups_nonempty this ruleSettings) as (first & rest & Hg).
  rewrite evaluate_unfold, Hg, evaluateGroups_cons. cbn [fst nth_error].
  destruct (percentage_returns
              (ratioOf (baseCurrency ruleSettings) (first :: rest)))
    as [shown Hs].
  rewrite Hs. cbn [bind].
  eexists. eexists. repeat split.
  cbn [value]. destruct (String.eqb _ _); auto.
Qed.

Lemma find_app_absent (key : string) (groups1 groups2 : list GroupItem.t) :
  ~ In key (keys groups1) ->
  find (fun item => String.eqb (GroupItem.groupKey item) key)
    (groups1 ++ groups2)
  = find (fun item => String.eqb (GroupItem.groupKey item) key) groups2.
Proof.
  induction groups1 as [|g rest IH]; intros H; simpl; [reflexivity|].
  simpl in H.
  destruct (String.eqb (GroupItem.groupKey g) key) eqn:E.
  - apply String.eqb_eq in E. tauto.
  - apply IH. tauto.
Qed.

(** C4.  When no position has the pinned key among its keys under the
    attribute, the grouped sequence ends with the group of that key, of zero
    investment and without positions, and looking the key up finds it. *)
Theorem pinned_key_gets_empty_group
  (positions : list Position.t) (attribute : Attribute) (key : string) :
  (forall p, In p positions ->
     ~ In key (map fst (attributeSelector attribute p))) ->
  let groups :=
    groupCurrentPositionsByAttribute positions attribute (Some key) in
  In (emptyGroup key) groups /\
  find (fun item => String.eqb (GroupItem.groupKey item) key) groups
  = Some (emptyGroup key) /\
  exists others,
    groups = (others ++ [emptyGroup key])%list /\ ~ In key (keys others).
Proof.
  intros H groups. subst groups. unfold groupCurrentPositionsByAttribute.
  assert (Habsent :
    ~ In key (keys (fold_left (allocatePosition attribute) positions []))).
  { rewrite grouped_In_keys. intros [[] | [p [H1 H2]]]. exact (H p H1 H2). }
  pose proof Habsent as E. apply hasGroup_false in E. rewrite E.
  fold (emptyGroup key). repeat split.
  - apply in_app_iff. right. now left.
  - rewrite find_app_absent by assumption. simpl.
    now rewrite String.eqb_refl.
  - eexists. split; [reflexivity | assumption].
Qed.

Lemma pinned_key_gets_empty_group_witness :
  (forall p, In p [position "B" "EUR" 4000] ->
     ~ In "USD" (map fst (attributeSelector Currency p))) /\
  In (emptyGroup "USD")
    (groupCurrentPositionsByAttribute [position "B" "EUR" 4000] Currency
       (Some "USD")).
Proof.
  assert (H : forall p, In p [position "B" "EUR" 4000] ->
                ~ In "USD" (map fst (attributeSelector Currency p))).
  { intros p [<- | []]. simpl. intros [E | []]. discriminate E. }
  split; [exact H|].
  exact (proj1 (pinned_key_gets_empty_group
                  [position "B" "EUR" 4000] Currency "USD" H)).
Defined.

Lemma qsum_nonnegative (l : list Qc) :
  (forall q, In q l -> (0 <= q)%Qc) -> (0 <= qsum l)%Qc.
Proof.
  induction l as [|x l IH]; intros H; simpl.
  - apply Qcle_refl.
  - replace 0%Qc with (0 + 0)%Qc by ring.
    apply Qcplus_le_compat; [apply H; now left|].
    apply IH. intros q Hq. apply H. now right.
Qed.

Lemma qsum_zero (l : list Qc) :
  (forall q, In q l -> (0 <= q)%Qc) -> qsum l = 0%Qc ->
  forall q, In q l -> q = 0%Qc.
Proof.
  induction l as [|x l IH]; intros H Hsum q Hq; [destruct Hq|].
  simpl in Hsum.
  assert (Hx : (0 <= x)%Qc) by (apply H; now left).
  assert (Hl : (0 <= qsum l)%Qc)
    by (apply qsum_nonnegative; intros y Hy; apply H; now right).
  assert (Ex : x = 0%Qc).
  { apply Qcle_antisym; [|assumption].
    assert (Hc : (x + 0 <= x + qsum l)%Qc)
      by (apply Qcplus_le_compat; [apply Qcle_refl | assumption]).
    rewrite Hsum in Hc. replace (x + 0)%Qc with x in Hc by ring. exact Hc. }
  destruct Hq as [<- | Hq]; [assumption|].
  apply IH; try assumption.
  - intros y Hy. apply H. now right.
  - rewrite Ex in Hsum. rewrite <- Hsum. ring.
Qed.

Lemma qsum_all_zero (l : list Qc) :
  (forall q, In q l -> q = 0%Qc) -> qsum l = 0%Qc.
Proof.
  induction l as [|x l IH]; intros H; simpl; [reflexivity|].
  rewrite (H x) by now left. rewrite IH; [ring|].
  intros q Hq. apply H. now right.
Qed.

(** With investments that are not negative, a zero total leaves nothing in
    the base currency. *)
Lemma investedIn_zero (base : string) (positions : list Position.t) :
  (forall p, In p positions -> (0 <= Position.investment p)%Qc) ->
  totalInvested positions = 0%Qc -> investedIn base positions = 0%Qc.
Proof.
  intros H Hsum. unfold investedIn. apply qsum_all_zero.
  intros q Hq. apply in_map_iff in Hq. destruct Hq as [p [<- Hp]].
  apply filter_In in Hp. destruct Hp as [Hp _].
  apply (qsum_zero (map Position.investment positions)).
  - intros y Hy. apply in_map_iff in Hy. destruct Hy as [p' [<- Hp']]. auto.
  - exact Hsum.
  - now apply in_map.
Qed.

Lemma share_not_NaN (base : string) (positions : list Position.t) :
  share base positions <> Number.NaN /\
  Number.mul (share base positions) (Number.ofZ 100) <> Number.NaN.
Proof.
  unfold share, Number.or.
  destruct (Number.div _ _) as [|b|q]; cbn [Number.toBoolean].
  - split; discriminate.
  - split; [discriminate|]. unfold Number.ofZ. cbn. discriminate.
  - destruct (negb (Number.isZero q)); split; discriminate.
Qed.

(** C5 (amended).  When the total investment is zero and so is the
    investment in the base currency (as it is whenever no investment is
    negative), the ratio falls back to 0.  For every input the ratio and the
    percentage are not [NaN], the printed percentage has no letter [N], the
    text contains ["NaN"] only if the base currency's name does, and
    [evaluate] returns. *)
Theorem ratio_falls_back_and_is_never_NaN
  (this : CurrencyClusterRiskBaseCurrencyInitialInvestment.t)
  (ruleSettings : Settings) :
  let positions := CurrentPositions.positions (currentPositions this) in
  let base := baseCurrency ruleSettings in
  let groups :=
    groupCurrentPositionsByAttribute positions Currency (Some base) in
  let ratio := ratioOf base groups in
  exists (e : Evaluation) (shown : string),
    fst (evaluate groupCurrentPositionsByAttribute ruleSettings this) = Ok e /\
    percentage ratio = Ok shown /\
    evaluation e = message (value e) shown base /\
    qsum (map GroupItem.investment groups) = totalInvested positions /\
    ratio = share base positions /\
    (totalInvested positions = 0%Qc -> investedIn base positions = 0%Qc ->
     ratio = Number.ofZ 0) /\
    (totalInvested positions = 0%Qc ->
     (forall p, In p positions -> (0 <= Position.investment p)%Qc) ->
     ratio = Number.ofZ 0) /\
    ratio <> Number.NaN /\
    Number.mul ratio (Number.ofZ 100) <> Number.NaN /\
    avoids "N" shown = true /\
    includes (evaluation e) "NaN" = includes base "NaN".
Proof.
  intros positions base groups ratio.
  assert (Hr : ratio = share base positions)
    by apply (ratio_is_share this ruleSettings).
  destruct (groups_nonempty this ruleSettings) as (first & rest & Hg).
  fold positions base groups in Hg.
  destruct (percentage_returns ratio) as [shown Hs].
  pose proof (share_not_NaN base positions) as [N1 N2]. rewrite <- Hr in N1, N2.
  assert (Ha : avoids "N" shown = true)
    by (eapply toPrecision_avoids; [exact N2 | exact Hs]).
  assert (Hz : totalInvested positions = 0%Qc ->
               investedIn base positions = 0%Qc -> ratio = Number.ofZ 0).
  { intros H1 H2. rewrite Hr. unfold share. rewrite H1, H2. reflexivity. }
  exists {| evaluation :=
              message (String.eqb (GroupItem.groupKey (largest first rest)) base)
                shown base;
            value := String.eqb (GroupItem.groupKey (largest first rest)) base |},
    shown.
  cbn [value evaluation]. repeat split; try assumption.
  - rewrite evaluate_unfold. cbn [fst]. fold positions base groups.
    rewrite Hg, evaluateGroups_cons. fold base. rewrite <- Hg.
    fold ratio. rewrite Hs. reflexivity.
  - subst groups. rewrite grouping_total. apply total_currency.
  - intros H1 H2. apply Hz; [assumption|]. now apply investedIn_zero.
  - now apply message_includes_NaN.
Qed.

(** C5, as stated, fails: the positions [{A: 5 USD, B: -5 EUR}] have a zero
    total, and with base currency USD the ratio is [Infinity], not 0. *)
Lemma zero_total_ratio_is_infinite :
  totalInvested cancellingPositions = 0%Qc /\
  ratioOf "USD"
    (groupCurrentPositionsByAttribute cancellingPositions Currency
       (Some "USD"))
  = Number.Infinity false /\
  Number.Infinity false <> Number.ofZ 0 /\
  fst (evaluate groupCurrentPositionsByAttribute (settingsFor "USD")
         (ruleOn identityRates cancellingPositions))
  = Ok {| evaluation :=
            "The major part of your initial investment is in your base currency (Infinity% in USD)";
          value := true |}.
Proof.
  split; [|split; [|split]].
  - apply Qc_is_canon. reflexivity.
  - vm_compute. reflexivity.
  - discriminate.
  - vm_compute. reflexivity.
Qed.

(** ** The catalog *)

Lemma evaluateAll_filter (catalog : list RuleVariant)
  (exchangeRates : ExchangeRateDataService) (userSettings : UserSettings.t) :
  evaluateAll catalog exchangeRates userSettings =
  evaluateAll (filter (activeFor userSettings) catalog) exchangeRates
    userSettings.
Proof.
  induction catalog as [|rule rest IH]; [reflexivity|].
  cbn [filter evaluateAll]. unfold activeFor at 1.
  destruct (ruleIsActive rule (ruleGetSettings rule userSettings)) eqn:E;
    cbn [negb].
  - cbn [evaluateAll]. rewrite E. cbn [negb]. now rewrite IH.
  - exact IH.
Qed.

Lemma evaluateAll_names (catalog : list RuleVariant)
  (exchangeRates : ExchangeRateDataService) (userSettings : UserSettings.t)
  (currentPositions : CurrentPositions.t) (report : list ReportEntry) :
  fst (evaluateAll catalog exchangeRates userSettings currentPositions)
  = Ok report ->
  map entryName report
  = map ruleName (filter (activeFor userSettings) catalog).
Proof.
  revert currentPositions report.
  induction catalog as [|rule rest IH]; intros cp report H.
  - simpl in H. injection H as <-. reflexivity.
  - cbn [filter evaluateAll] in *. unfold activeFor at 1.
    destruct (ruleIsActive rule (ruleGetSettings rule userSettings));
      cbn [negb] in H.
    + unfold mbind in H.
      destruct (ruleEvaluate rule exchangeRates _ cp) as [[e|x] cp1];
        [|discriminate].
      destruct (evaluateAll rest exchangeRates userSettings cp1)
        as [[report'|x] cp2] eqn:E; [|discriminate].
      simpl in H. injection H as <-. simpl. f_equal.
      apply (IH cp1). now rewrite E.
    + now apply (IH cp).
Qed.

(** C6 (amended).  The settings this rule derives are active for every
    user settings value, whatever the user's preference for the rule, and
    carry the user's base currency.  The report is that of the catalog
    without the rules whose derived settings are inactive: its entries are
    the active rules' ones, in catalog order. *)
Theorem inactive_rules_contribute_nothing :
  (forall userSettings,
     isActive (getSettings userSettings) = true /\
     baseCurrency (getSettings userSettings)
     = UserSettings.baseCurrency userSettings) /\
  (forall catalog exchangeRates userSettings,
     evaluateAll catalog exchangeRates userSettings =
     evaluateAll (filter (activeFor userSettings) catalog) exchangeRates
       userSettings) /\
  (forall catalog exchangeRates userSettings currentPositions report,
     fst (evaluateAll catalog exchangeRates userSettings currentPositions)
     = Ok report ->
     map entryName report
     = map ruleName (filter (activeFor userSettings) catalog)).
Proof.
  split; [|split].
  - intros userSettings. split; reflexivity.
  - exact evaluateAll_filter.
  - exact evaluateAll_names.
Qed.

(** C6, as stated, fails: for a user whose preference switches the rule off
    the derived settings are active all the same, and the rule has its
    entry in the report. *)
Lemma activation_preference_is_ignored :
  UserSettings.isActive optedOut
    CurrencyClusterRiskBaseCurrencyInitialInvestment.name = false /\
  isActive (getSettings optedOut) = true /\
  fst (evaluateAll [currencyClusterRiskBaseCurrencyInitialInvestment]
         identityRates optedOut noPositions)
  = Ok [{| entryName := "Initial Investment: Base Currency";
           entryEvaluation :=
             "The major part of your initial investment is in your base currency (0.00% in USD)";
           entryValue := true |}].
Proof.
  split; [|split].
  - reflexivity.
  - reflexivity.
  - vm_compute. reflexivity.
Qed.

(** ** The controller *)

Import PortfolioController.

(** C9.  In [getPublic] the branch that answers NOT_FOUND is never taken.
    When the access lookup yields [null], reading [access.userId] throws
    before the test of [!access]; when it yields a record, the handler
    throws later or sends public details.  For every access id the handler
    leaves the status code of the response as it was, and never sends the
    details body [{accounts, holdings}] of that branch. *)
Theorem getPublic_never_answers_not_found
  (this : PortfolioController.t) (accessId : string) (res : Response) :
  match AccessService.access (accessService this) accessId with
  | Ok None => getPublic this accessId res = (Throw TypeError, res)
  | Ok (Some _) =>
      (exists e, fst (getPublic this accessId res) = Throw e) \/
      (exists hasDetails holdings,
         fst (getPublic this accessId res)
         = Ok (PortfolioPublicDetails hasDetails holdings))
  | Throw e => getPublic this accessId res = (Throw e, res)
  end /\
  snd (getPublic this accessId res) = res /\
  statusCode (snd (getPublic this accessId res)) = statusCode res /\
  forall accounts holdings,
    fst (getPublic this accessId res) <> Ok (PortfolioDetails accounts holdings).
Proof.
  unfold getPublic, mbind, lift, ret.
  destruct (AccessService.access (accessService this) accessId)
    as [[access|]|e]; cbn [property].
  - destruct (UserService.user (userService this) (Access.userId access))
      as [user|e].
    + destruct (ConfigurationService.get (configurationService this) _).
      * destruct user as [user|]; cbn [property].
        -- destruct (PortfolioService.getDetails _ _ _ _) as [details|e];
             cbn [fst snd]; repeat split; eauto; discriminate.
        -- cbn [fst snd]. repeat split; eauto; discriminate.
      * destruct (PortfolioService.getDetails _ _ _ _) as [details|e];
          cbn [fst snd]; repeat split; eauto; discriminate.
    + cbn [fst snd]. repeat split; eauto; discriminate.
  - cbn [fst snd]. repeat split; discriminate.
  - cbn [fst snd]. repeat split; discriminate.
Qed.

Lemma sum_Fin (numbers : list Qc) :
  sum (map Number.Fin numbers) = Number.Fin (qsum numbers).
Proof.
  unfold sum, Number.ofZ. change (Q2Qc (inject_Z 0)) with 0%Qc.
  assert (H : forall a, fold_left Number.add (map Number.Fin numbers)
                          (Number.Fin a) = Number.Fin (a + qsum numbers)).
  { induction numbers as [|q l IH]; intros a.
    - simpl. f_equal. ring.
    - cbn [map fold_left Number.add]. rewrite IH. f_equal.
      change (qsum (q :: l)) with (q + qsum l)%Qc. ring. }
  rewrite H. f_equal. ring.
Qed.

Lemma qsum_quotients (numbers : list Qc) (total : Qc) :
  qsum (map (fun q => q / total)%Qc numbers) = (qsum numbers / total)%Qc.
Proof.
  unfold Qcdiv.
  induction numbers as [|q l IH].
  - simpl. ring.
  - change (qsum (map (fun q => q * / total) (q :: l)))%Qc
      with (q * / total + qsum (map (fun q => q * / total) l))%Qc.
    change (qsum (q :: l)) with (q + qsum l)%Qc.
    rewrite IH. ring.
Qed.

Lemma isZero_false (q : Qc) : q <> 0%Qc -> Number.isZero q = false.
Proof.
  intros H. unfold Number.isZero.
  destruct (q ?= 0)%Qc eqn:C; try reflexivity.
  apply Qceq_alt in C. contradiction.
Qed.

Lemma mapM_with_settings (this : PortfolioController.t) (user : User.t)
  (settings : User.SettingsRow)
  (holdings : list (string * PortfolioPosition.t)) :
  requestUser this = Some user ->
  User.Settings user = Some settings ->
  mapM (fun entry =>
          settings <- property User.Settings (requestUser this) ;;
          currency <- property User.currency settings ;;
          Ok (valueIn this currency (snd entry))) holdings
  = Ok (map (fun entry => valueIn this (User.currency settings) (snd entry))
          holdings).
Proof.
  intros Hu Hs. induction holdings as [|entry rest IH]; [reflexivity|].
  cbn [mapM map]. rewrite IH, Hu. cbn [property bind]. rewrite Hs.
  reflexivity.
Qed.

(** C10.  Under the restricted view, when the investments of the holdings
    are finite and their sum is not zero, [getDetails] sends the holdings
    under the same symbols, each with its investment divided by the total,
    so that the investments sent add up to exactly 1, and with [quantity],
    [grossPerformance] and [netPerformance] set to [null]. *)
Theorem getDetails_normalises_investments
  (hasNotDefinedValuesInObject : list (string * PortfolioPosition.t) -> bool)
  (this : PortfolioController.t) (impersonationId range : option string)
  (res : Response) (user : User.t) (settings : User.SettingsRow)
  (details : Details.t) (investments : list Qc) :
  requestUser this = Some user ->
  User.Settings user = Some settings ->
  ConfigurationService.get (configurationService this)
    "ENABLE_FEATURE_SUBSCRIPTION"
  && String.eqb (User.subscriptionType user) "Basic" = false ->
  PortfolioService.getDetails (portfolioService this) impersonationId
    (User.id user) range = Ok details ->
  truthy impersonationId
  || UserService.isRestrictedView (userService this) (requestUser this)
  = true ->
  map (fun entry => PortfolioPosition.investment (snd entry))
    (Details.holdings details) = map Number.Fin investments ->
  qsum investments <> 0%Qc ->
  exists accounts holdings,
    fst (getDetails hasNotDefinedValuesInObject this impersonationId range res)
    = Ok (PortfolioDetails accounts holdings) /\
    map fst holdings = map fst (Details.holdings details) /\
    map (fun entry => PortfolioPosition.investment (snd entry)) holdings
    = map (fun q => Number.Fin (q / qsum investments)) investments /\
    sum (map (fun entry => PortfolioPosition.investment (snd entry)) holdings)
    = Number.ofZ 1 /\
    Forall (fun entry =>
              PortfolioPosition.quantity (snd entry) = None /\
              PortfolioPosition.grossPerformance (snd entry) = None /\
              PortfolioPosition.netPerformance (snd entry) = None)
      holdings.
Proof.
  intros Hu Hs Hf Hd Hr Hi Ht.
  assert (Hn : map (fun entry => PortfolioPosition.investment (snd entry))
                 (map (fun entry =>
                         (fst entry,
                          restrictPosition (Number.Fin (qsum investments))
                            (sum (map (fun entry =>
                                         valueIn this (User.currency settings)
                                           (snd entry))
                                    (Details.holdings details)))
                            (snd entry)))
                    (Details.holdings details))
               = map (fun q => Number.Fin (q / qsum investments)) investments).
  { rewrite map_map. cbn [snd restrictPosition PortfolioPosition.investment].
    rewrite <- (map_map (fun entry => PortfolioPosition.investment (snd entry))
                  (fun x => Number.div x (Number.Fin (qsum investments)))).
    rewrite Hi, map_map. apply map_ext. intros q.
    cbn [Number.div]. now rewrite (isZero_false _ Ht). }
  eexists. eexists. split; [|split; [|split; [|split]]].
  - unfold getDetails, mbind, lift, ret, status.
    pose proof (mapM_with_settings this user settings
                  (Details.holdings details) Hu Hs) as Hm.
    rewrite Hu in Hm, Hr |- *. cbn [property] in Hm |- *.
    destruct (ConfigurationService.get (configurationService this) _).
    + cbn [andb] in Hf. rewrite Hf, Hd.
      destruct (Details.hasErrors details || _);
        rewrite Hr, Hm; cbn [fst]; rewrite Hi, sum_Fin; reflexivity.
    + rewrite Hd.
      destruct (Details.hasErrors details || _);
        rewrite Hr, Hm; cbn [fst]; rewrite Hi, sum_Fin; reflexivity.
  - rewrite map_map. reflexivity.
  - exact Hn.
  - rewrite Hn.
    rewrite <- (map_map (fun q => (q / qsum investments)%Qc) Number.Fin).
    rewrite sum_Fin, qsum_quotients. unfold Number.ofZ. f_equal.
    unfold Qcdiv. rewrite Qcmult_inv_r by assumption. reflexivity.
  - apply Forall_forall. intros entry H. apply in_map_iff in H.
    destruct H as [old [<- _]]. repeat split.
Qed.

Lemma getDetails_normalises_investments_witness :
  qsum [Q2Qc (inject_Z 30); Q2Qc (inject_Z 10)] <> 0%Qc /\
  exists accounts holdings,
    fst (getDetails (fun _ => false) someController (Some "u2") None
           {| statusCode := OK |})
    = Ok (PortfolioDetails accounts holdings) /\
    map fst holdings = map fst (Details.holdings someDetails) /\
    map (fun entry => PortfolioPosition.investment (snd entry)) holdings
    = map (fun q =>
             Number.Fin (q / qsum [Q2Qc (inject_Z 30); Q2Qc (inject_Z 10)]))
        [Q2Qc (inject_Z 30); Q2Qc (inject_Z 10)] /\
    sum (map (fun entry => PortfolioPosition.investment (snd entry)) holdings)
    = Number.ofZ 1 /\
    Forall (fun entry =>
              PortfolioPosition.quantity (snd entry) = None /\
              PortfolioPosition.grossPerformance (snd entry) = None /\
              PortfolioPosition.netPerformance (snd entry) = None)
      holdings.
Proof.
  assert (H : qsum [Q2Qc (inject_Z 30); Q2Qc (inject_Z 10)] <> 0%Qc)
    by (intros E; apply (f_equal this) in E; vm_compute in E; discriminate E).
  split; [exact H|].
  exact (getDetails_normalises_investments (fun _ => false) someController
           (Some "u2") None {| statusCode := OK |} someUser
           {| User.currency := "USD" |} someDetails
           [Q2Qc (inject_Z 30); Q2Qc (inject_Z 10)]
           eq_refl eq_refl eq_refl eq_refl eq_refl eq_refl H).
Defined.

(** With the subscription feature on, [getDetails] answers a Basic user
    with FORBIDDEN and empty accounts and holdings, without asking the
    portfolio service. *)
Theorem getDetails_forbidden_for_basic
  (hasNotDefinedValuesInObject : list (string * PortfolioPosition.t) -> bool)
  (this : PortfolioController.t) (impersonationId range : option string)
  (res : Response) (user : User.t) :
  requestUser this = Some user ->
  ConfigurationService.get (configurationService this)
    "ENABLE_FEATURE_SUBSCRIPTION" = true ->
  User.subscriptionType user = "Basic" ->
  getDetails hasNotDefinedValuesInObject this impersonationId range res
  = (Ok (PortfolioDetails [] []), {| statusCode := FORBIDDEN |}).
Proof.
  intros Hu Hc Ht. unfold getDetails, mbind, lift, ret, status.
  rewrite Hc, Hu. cbn [property]. rewrite Ht. reflexivity.
Qed.

Lemma getDetails_forbidden_for_basic_witness :
  requestUser subscriptionController = Some basicUser /\
  getDetails (fun _ => false) subscriptionController None None
    {| statusCode := OK |}
  = (Ok (PortfolioDetails [] []), {| statusCode := FORBIDDEN |}).
Proof.
  split; [reflexivity|].
  exact (getDetails_forbidden_for_basic (fun _ => false)
           subscriptionController None None {| statusCode := OK |} basicUser
           eq_refl eq_refl eq_refl).
Defined.

(** Whenever [getPublic] sends public details, the access record was
    found and the two lookups resolved.  [hasDetails] is [true] with the
    subscription feature off, and with it on tells whether the user of the
    access record is Premium.  The holdings sent are the EQUITY holdings of
    that user and no other, in their order and under their symbols; each
    carries the allocation, the currency and the name of the holding, its
    countries and sectors when [hasDetails] and none otherwise, and as
    value the holding's value divided by a total that is the same for
    every holding. *)
Theorem getPublic_sends_equity_only
  (this : PortfolioController.t) (accessId : string) (res : Response)
  (hasDetails : bool) (holdings : list (string * PublicHolding.t)) :
  fst (getPublic this accessId res)
  = Ok (PortfolioPublicDetails hasDetails holdings) ->
  exists (access : Access.t) (user : option User.t) (details : Details.t)
         (totalValue : Number.t),
    AccessService.access (accessService this) accessId = Ok (Some access) /\
    UserService.user (userService this) (Access.userId access) = Ok user /\
    PortfolioService.getDetails (portfolioService this)
      (Some (Access.userId access)) (Access.userId access) None
    = Ok details /\
    (ConfigurationService.get (configurationService this)
       "ENABLE_FEATURE_SUBSCRIPTION" = false -> hasDetails = true) /\
    (ConfigurationService.get (configurationService this)
       "ENABLE_FEATURE_SUBSCRIPTION" = true ->
     exists subscriber,
       user = Some subscriber /\
       (hasDetails = true <-> User.subscriptionType subscriber = "Premium")) /\
    Forall2
      (fun entry sent =>
         fst sent = fst entry /\
         PortfolioPosition.assetClass (snd entry) = "EQUITY" /\
         PublicHolding.allocationCurrent (snd sent)
         = PortfolioPosition.allocationCurrent (snd entry) /\
         PublicHolding.currency (snd sent)
         = PortfolioPosition.currency (snd entry) /\
         PublicHolding.name (snd sent) = PortfolioPosition.name (snd entry) /\
         PublicHolding.countries (snd sent)
         = (if hasDetails then PortfolioPosition.countries (snd entry)
            else []) /\
         PublicHolding.sectors (snd sent)
         = (if hasDetails then PortfolioPosition.sectors (snd entry)
            else []) /\
         PublicHolding.value (snd sent)
         = Number.div (PortfolioPosition.value (snd entry)) totalValue)
      (filter (fun entry =>
                 String.eqb (PortfolioPosition.assetClass (snd entry))
                   "EQUITY")
         (Details.holdings details))
      holdings.
Proof.
  intros H. unfold getPublic, mbind, lift, ret in H.
  destruct (AccessService.access (accessService this) accessId)
    as [[access|]|e] eqn:Ha; cbn [property fst] in H; try discriminate H.
  destruct (UserService.user (userService this) (Access.userId access))
    as [user|e] eqn:Hu; cbn [fst] in H; try discriminate H.
  assert (F : forall (flag : bool) (total : Number.t)
                     (entries : list (string * PortfolioPosition.t)),
            Forall2
              (fun entry sent =>
                 fst sent = fst entry /\
                 PortfolioPosition.assetClass (snd entry) = "EQUITY" /\
                 PublicHolding.allocationCurrent (snd sent)
                 = PortfolioPosition.allocationCurrent (snd entry) /\
                 PublicHolding.currency (snd sent)
                 = PortfolioPosition.currency (snd entry) /\
                 PublicHolding.name (snd sent)
                 = PortfolioPosition.name (snd entry) /\
                 PublicHolding.countries (snd sent)
                 = (if flag then PortfolioPosition.countries (snd entry)
                    else []) /\
                 PublicHolding.sectors (snd sent)
                 = (if flag then PortfolioPosition.sectors (snd entry)
                    else []) /\
                 PublicHolding.value (snd sent)
                 = Number.div (PortfolioPosition.value (snd entry)) total)
              (filter (fun entry =>
                         String.eqb (PortfolioPosition.assetClass (snd entry))
                           "EQUITY") entries)
              (map (fun entry =>
                      (fst entry, publicHolding flag total (snd entry)))
                 (filter (fun entry => isEquity (snd entry)) entries))).
  { intros flag total entries.
    induction entries as [|entry rest IH]; [constructor|].
    cbn [filter]. unfold isEquity at 1.
    destruct (String.eqb (PortfolioPosition.assetClass (snd entry)) "EQUITY")
      eqn:E; [|exact IH].
    cbn [map]. constructor; [|exact IH].
    apply String.eqb_eq in E. cbn [fst snd publicHolding
      PublicHolding.allocationCurrent PublicHolding.currency
      PublicHolding.name PublicHolding.countries PublicHolding.sectors
      PublicHolding.value].
    repeat split; assumption || reflexivity. }
  destruct (ConfigurationService.get (configurationService this) _) eqn:Hc.
  - destruct user as [subscriber|]; cbn [property fst] in H;
      try discriminate H.
    destruct (PortfolioService.getDetails (portfolioService this) _ _ _)
      as [details|e] eqn:Hd; cbn [fst] in H; try discriminate H.
    injection H as <- <-.
    exists access, (Some subscriber), details. eexists.
    split; [reflexivity|]. split; [exact Hu|]. split; [exact Hd|].
    split; [discriminate|]. split; [|exact (F _ _ _)].
    intros _. exists subscriber. split; [reflexivity|]. apply String.eqb_eq.
  - destruct (PortfolioService.getDetails (portfolioService this) _ _ _)
      as [details|e] eqn:Hd; cbn [fst] in H; try discriminate H.
    injection H as <- <-.
    exists access, user, details. eexists.
    split; [reflexivity|]. split; [exact Hu|]. split; [exact Hd|].
    split; [reflexivity|]. split; [discriminate|exact (F true _ _)].
Qed.

Lemma getPublic_sends_equity_only_witness :
  exists hasDetails holdings,
    fst (getPublic subscriptionController "a1" {| statusCode := OK |})
    = Ok (PortfolioPublicDetails hasDetails holdings) /\
    map fst holdings = ["AAPL"; "MSFT"] /\
    hasDetails = false /\
    exists subscriber,
      UserService.user (userService subscriptionController) "u1"
      = Ok (Some subscriber) /\
      User.subscriptionType subscriber <> "Premium".
Proof.
  eexists. eexists. split; [reflexivity|].
  split; [reflexivity|]. split; [reflexivity|].
  destruct (getPublic_sends_equity_only subscriptionController "a1"
              {| statusCode := OK |} _ _ eq_refl)
    as (access & user & details & totalValue & Ha & Hu & _ & _ & Hs & _).
  destruct (Hs eq_refl) as (subscriber & -> & Hp).
  injection Ha as <-.
  exists subscriber. split; [exact Hu|].
  intros E. apply Hp in E. discriminate E.
Defined.

(** ** Integers as numbers *)

Lemma ofZ_zero_iff (z : Z) : Q2Qc (inject_Z z) = 0%Qc <-> z = 0%Z.
Proof.
  split.
  - intros H. apply (f_equal this) in H. cbn [this Q2Qc] in H.
    assert (E : (inject_Z z == 0)%Q).
    { rewrite <- (Qred_correct (inject_Z z)), H. reflexivity. }
    unfold Qeq, inject_Z in E. cbn in E. lia.
  - intros ->. apply Qc_is_canon. reflexivity.
Qed.

Lemma ofZ_le (a b : Z) :
  (a <= b)%Z -> (Q2Qc (inject_Z a) <= Q2Qc (inject_Z b))%Qc.
Proof.
  intros H. unfold Qcle. cbn [this Q2Qc]. rewrite !Qred_correct.
  unfold Qle, inject_Z. cbn. lia.
Qed.

Lemma ofZ_positive (z : Z) : (0 < z)%Z -> (0 < Q2Qc (inject_Z z))%Qc.
Proof.
  intros H. unfold Qclt. cbn [this Q2Qc]. rewrite !Qred_correct.
  unfold Qlt, inject_Z. cbn. lia.
Qed.

Lemma isNegative_ofZ (z : Z) :
  Number.isNegative (Q2Qc (inject_Z z)) = (z <? 0)%Z.
Proof.
  unfold Number.isNegative.
  destruct (Q2Qc (inject_Z z) ?= 0)%Qc eqn:C.
  - apply Qceq_alt, ofZ_zero_iff in C. subst. reflexivity.
  - apply Qclt_alt in C. symmetry. apply Z.ltb_lt.
    destruct (Z_lt_le_dec z 0) as [Hlt|Hge]; [exact Hlt|].
    exfalso. apply (Qcle_not_lt _ _ (ofZ_le 0 z Hge)). exact C.
  - apply Qcgt_alt in C. symmetry. apply Z.ltb_ge.
    destruct (Z_lt_le_dec z 0) as [Hlt|Hge]; [|exact Hge].
    exfalso. apply (Qcle_not_lt _ _ (ofZ_le z 0 (Z.lt_le_incl _ _ Hlt))).
    exact C.
Qed.

(** ** More on the body of [evaluate] *)

Lemma positive_nonzero (b : Qc) : (0 < b)%Qc -> b <> 0%Qc.
Proof. intros H ->. exact (Qcle_not_lt _ _ (Qcle_refl 0%Qc) H). Qed.

Lemma quotient_bounds (a b lo hi : Qc) :
  (0 < b)%Qc -> (lo * b <= a)%Qc -> (a <= hi * b)%Qc ->
  (lo <= a / b)%Qc /\ (a / b <= hi)%Qc.
Proof.
  intros Hb H1 H2.
  assert (Hn : b <> 0%Qc) by now apply positive_nonzero.
  assert (E : (a / b * b = a)%Qc) by (field; assumption).
  split; apply (Qcmult_lt_0_le_reg_r _ _ b Hb); now rewrite E.
Qed.

Lemma largest_member (first : GroupItem.t) (rest : list GroupItem.t) :
  In (largest first rest) (first :: rest).
Proof.
  destruct (largest_split rest [] [] first) as (before & after & H & _);
    try (intros g []).
  simpl in H. rewrite H. apply in_app_iff. right. now left.
Qed.

Lemma largest_not_smaller (first g : GroupItem.t) (rest : list GroupItem.t) :
  In g (first :: rest) ->
  (GroupItem.investment g <= GroupItem.investment (largest first rest))%Qc.
Proof.
  intros Hin.
  destruct (largest_split rest [] [] first) as (before & after & H & H1 & H2);
    try (intros x []).
  simpl in H. rewrite H in Hin. apply in_app_iff in Hin.
  destruct Hin as [Hin | [<- | Hin]].
  - apply Qclt_le_weak. now apply H1.
  - apply Qcle_refl.
  - now apply H2.
Qed.


(** When no group has the base currency's key, the verdict is [false] and
    the text reports [0.00%], whatever the investments are. *)
Theorem verdict_without_base_group (ruleSettings : Settings)
  (first : GroupItem.t) (rest : list GroupItem.t) :
  ~ In (baseCurrency ruleSettings) (keys (first :: rest)) ->
  evaluateGroups ruleSettings (first :: rest)
  = Ok {| evaluation := message false "0.00" (baseCurrency ruleSettings);
          value := false |}.
Proof.
  intros H. rewrite evaluateGroups_cons. unfold ratioOf.
  rewrite find_absent by assumption.
  assert (E : String.eqb (GroupItem.groupKey (largest first rest))
                (baseCurrency ruleSettings) = false).
  { apply String.eqb_neq. intros Hk. apply H. rewrite <- Hk.
    unfold keys. apply in_map. apply largest_member. }
  rewrite E. reflexivity.
Qed.

Lemma verdict_without_base_group_witness :
  ~ In "CHF" (keys twoGroups) /\
  evaluateGroups (settingsFor "CHF") twoGroups
  = Ok {| evaluation :=
            "The major part of your initial investment is not in your base currency (0.00% in CHF)";
          value := false |}.
Proof.
  assert (H : ~ In "CHF" (keys twoGroups))
    by (simpl; intros [E | [E | []]]; discriminate E).
  split; [exact H|].
  exact (verdict_without_base_group (settingsFor "CHF") _ _ H).
Defined.

(** The verdict follows the investments: when it is [true], a group of the
    base currency has an investment no other group exceeds; and when a group
    of the base currency has a strictly larger investment than every group
    of another currency, the verdict is [true]. *)
Theorem verdict_follows_investments (ruleSettings : Settings)
  (groups : list GroupItem.t) (e : Evaluation) :
  evaluateGroups ruleSettings groups = Ok e ->
  (value e = true ->
   exists g, In g groups /\
     GroupItem.groupKey g = baseCurrency ruleSettings /\
     forall g', In g' groups ->
       (GroupItem.investment g' <= GroupItem.investment g)%Qc) /\
  (forall g, In g groups ->
     GroupItem.groupKey g = baseCurrency ruleSettings ->
     (forall g', In g' groups ->
        GroupItem.groupKey g' <> baseCurrency ruleSettings ->
        (GroupItem.investment g' < GroupItem.investment g)%Qc) ->
     value e = true).
Proof.
  intros H. destruct groups as [|first rest]; [discriminate H|].
  rewrite evaluateGroups_cons in H.
  destruct (percentage_returns
              (ratioOf (baseCurrency ruleSettings) (first :: rest)))
    as [shown Hs].
  rewrite Hs in H. cbn [bind] in H. injection H as <-. cbn [value].
  split.
  - intros Hv. apply String.eqb_eq in Hv.
    exists (largest first rest). split; [apply largest_member|].
    split; [assumption|]. intros g'. apply largest_not_smaller.
  - intros g Hg Hk Hdom. apply String.eqb_eq.
    destruct (string_dec (GroupItem.groupKey (largest first rest))
                (baseCurrency ruleSettings)) as [|Hne]; [assumption|].
    exfalso.
    pose proof (Hdom _ (largest_member first rest) Hne) as H1.
    pose proof (largest_not_smaller first g rest Hg) as H2.
    exact (Qclt_not_le _ _ H1 H2).
Qed.

Lemma verdict_follows_investments_witness :
  evaluateGroups (settingsFor "USD") twoGroups
  = Ok {| evaluation :=
            "The major part of your initial investment is in your base currency (60.0% in USD)";
          value := true |} /\
  exists g, In g twoGroups /\
    GroupItem.groupKey g = "USD" /\
    forall g', In g' twoGroups ->
      (GroupItem.investment g' <= GroupItem.investment g)%Qc.
Proof.
  assert (H : evaluateGroups (settingsFor "USD") twoGroups
              = Ok {| evaluation :=
                        "The major part of your initial investment is in your base currency (60.0% in USD)";
                      value := true |})
    by (vm_compute; reflexivity).
  split; [exact H|].
  exact (proj1 (verdict_follows_investments _ _ _ H) eq_refl).
Defined.

Lemma member_below_qsum (g : GroupItem.t) (groups : list GroupItem.t) :
  (forall x, In x groups -> (0 <= GroupItem.investment x)%Qc) ->
  In g groups ->
  (GroupItem.investment g <= qsum (map GroupItem.investment groups))%Qc.
Proof.
  induction groups as [|x rest IH]; intros Hpos Hin; [destruct Hin|].
  change (qsum (map GroupItem.investment (x :: rest)))
    with (GroupItem.investment x + qsum (map GroupItem.investment rest))%Qc.
  assert (Hrest : (0 <= qsum (map GroupItem.investment rest))%Qc).
  { apply qsum_nonnegative. intros q Hq. apply in_map_iff in Hq.
    destruct Hq as [y [<- Hy]]. apply Hpos. now right. }
  destruct Hin as [<- | Hin].
  - replace (GroupItem.investment x) with (GroupItem.investment x + 0)%Qc
      at 1 by ring.
    apply Qcplus_le_compat; [apply Qcle_refl | assumption].
  - replace (GroupItem.investment g) with (0 + GroupItem.investment g)%Qc
      by ring.
    apply Qcplus_le_compat; [apply Hpos; now left|].
    apply IH; [|assumption]. intros y Hy. apply Hpos. now right.
Qed.

(** When no group has a negative investment and the total is positive, the
    ratio [evaluate] reports is a number between 0 and 1. *)
Theorem ratio_between_0_and_1 (base : string) (groups : list GroupItem.t) :
  (forall g, In g groups -> (0 <= GroupItem.investment g)%Qc) ->
  (0 < qsum (map GroupItem.investment groups))%Qc ->
  exists r, ratioOf base groups = Number.Fin r /\ (0 <= r)%Qc /\ (r <= 1)%Qc.
Proof.
  intros Hpos Htotal. unfold ratioOf, baseCurrencyInvestmentRatio.
  destruct (find _ groups) as [item|] eqn:F.
  - apply find_some in F. destruct F as [Hin _].
    assert (Hn : qsum (map GroupItem.investment groups) <> 0%Qc)
      by now apply positive_nonzero.
    cbn [Number.div]. rewrite (isZero_false _ Hn).
    destruct (quotient_bounds (GroupItem.investment item)
                (qsum (map GroupItem.investment groups)) 0 1 Htotal)
      as [H0 H1].
    + replace (0 * qsum (map GroupItem.investment groups))%Qc with 0%Qc by ring.
      now apply Hpos.
    + replace (1 * qsum (map GroupItem.investment groups))%Qc
        with (qsum (map GroupItem.investment groups)) by ring.
      now apply member_below_qsum.
    + unfold Number.or, Number.toBoolean.
      destruct (Number.isZero _) eqn:Z; cbn [negb].
      * exists 0%Qc. split; [reflexivity|]. split; [apply Qcle_refl|].
        now apply Qclt_le_weak.
      * eauto.
  - exists 0%Qc. split; [reflexivity|]. split; [apply Qcle_refl|].
    now apply Qclt_le_weak.
Qed.

Lemma ratio_between_0_and_1_witness :
  (0 < qsum (map GroupItem.investment twoGroups))%Qc /\
  exists r, ratioOf "USD" twoGroups = Number.Fin r /\ (0 <= r)%Qc /\ (r <= 1)%Qc.
Proof.
  assert (H : (0 < qsum (map GroupItem.investment twoGroups))%Qc)
    by reflexivity.
  split; [exact H|].
  apply (ratio_between_0_and_1 "USD" twoGroups); [|exact H].
  intros g [<- | [<- | []]]; discriminate.
Defined.

(** ** Rounding to hundredths *)

Lemma toFixedNumber_cents (x : Number.t) : toFixedNumber x 2 = Ok (cents x).
Proof.
  unfold cents, toFixedNumber. cbn [Z.ltb Z.compare orb].
  destruct x as [|b|q]; try reflexivity.
  destruct (10 ^ 21 * Z.pos (Qden q) <=? Z.abs (Qnum q))%Z; reflexivity.
Qed.

(** A finite number is rounded to a number within half a hundredth of it;
    the rounding does not cross 0 or 1. *)
Lemma cents_Fin (q : Qc) :
  exists r,
    cents (Number.Fin q) = Number.Fin r /\
    (q + - halfCent <= r)%Qc /\ (r <= q + halfCent)%Qc /\
    ((0 <= q)%Qc -> (0 <= r)%Qc) /\
    ((q <= 1)%Qc -> (r <= 1)%Qc) /\
    ((1 <= q)%Qc -> (1 <= r)%Qc).
Proof.
  unfold cents, toFixedNumber. cbn [Z.ltb Z.compare orb].
  destruct (10 ^ 21 * Z.pos (Qden q) <=? Z.abs (Qnum q))%Z.
  - exists q. split; [reflexivity|].
    assert (H : (0 <= halfCent)%Qc) by discriminate.
    split; [|split; [|auto]].
    + replace q with (q + 0)%Qc at 2 by ring.
      apply Qcplus_le_compat; [apply Qcle_refl|].
      change (- halfCent <= 0)%Qc. discriminate.
    + replace q with (q + 0)%Qc at 1 by ring.
      apply Qcplus_le_compat; [apply Qcle_refl | exact H].
  - eexists. split; [reflexivity|].
    unfold Number.rounded, Number.scaled, Number.isNegative, halfCent.
    cbn [Z.leb Z.compare Z.opp fst snd].
    change (10 ^ 2)%Z with 100%Z. change (Z.to_pos 100) with 100%positive.
    unfold Qcle, Qccompare, Qcompare. cbn [this Q2Qc Qcplus Qcopp].
    destruct q as [[a d] Hcanon]. cbn [this Qnum Qden].
    set (n := Z.abs a).
    pose proof (Z.mul_div_le (2 * (n * 100) + Z.pos d) (2 * Z.pos d)
                  ltac:(lia)) as H1.
    pose proof (Z.mul_succ_div_gt (2 * (n * 100) + Z.pos d) (2 * Z.pos d)
                  ltac:(lia)) as H2.
    assert (H0 : (0 <= (2 * (n * 100) + Z.pos d) / (2 * Z.pos d))%Z)
      by (apply Z.div_pos; lia).
    set (m := ((2 * (n * 100) + Z.pos d) / (2 * Z.pos d))%Z) in *.
    rewrite ?Z.mul_1_r, ?Z.mul_0_l.
    destruct (a ?= 0)%Z eqn:C;
      [apply Z.compare_eq in C | rewrite Z.compare_lt_iff in C
       | rewrite Z.compare_gt_iff in C];
      repeat split; intros; repeat rewrite Qred_correct;
      change (Qred 0) with 0%Q in *; change (Qred 1) with 1%Q in *;
      unfold Qle, Qplus, Qopp in *; cbn [Qnum Qden] in *;
      rewrite ?Pos2Z.inj_mul; subst n; nia.
Qed.

(** ** Largest values *)

(** The loops that keep the largest number seen: on finite numbers the
    result is the start or one of the numbers, and none of them is larger.
    [f] reads the number off an item. *)
Lemma fold_largest {A : Type} (f : A -> Number.t) (items : list A)
  (numbers : list Qc) (start : Qc) :
  map f items = map Number.Fin numbers ->
  exists largest,
    fold_left (fun kept item => if Number.gt (f item) kept then f item else kept)
      items (Number.Fin start) = Number.Fin largest /\
    (start <= largest)%Qc /\
    (forall q, In q numbers -> (q <= largest)%Qc) /\
    In largest (start :: numbers).
Proof.
  revert numbers start.
  induction items as [|item rest IH]; intros numbers start H.
  - destruct numbers; [|discriminate H]. exists start.
    repeat split; [apply Qcle_refl | intros q [] | now left].
  - destruct numbers as [|q numbers]; [discriminate H|].
    cbn [map] in H. injection H as Hq Hrest. cbn [fold_left]. rewrite Hq.
    destruct (Number.gt (Number.Fin q) (Number.Fin start)) eqn:E.
    + apply gt_Fin in E.
      destruct (IH numbers q Hrest) as (M & HM & H1 & H2 & H3).
      exists M. split; [exact HM|]. split; [|split].
      * apply Qclt_le_weak. eapply Qclt_le_trans; eassumption.
      * intros x [<- | Hx]; auto.
      * destruct H3 as [<- | H3]; [right; now left | right; now right].
    + apply gt_Fin_false in E.
      destruct (IH numbers start Hrest) as (M & HM & H1 & H2 & H3).
      exists M. split; [exact HM|]. split; [assumption|]. split.
      * intros x [<- | Hx]; [eapply Qcle_trans; eassumption | auto].
      * destruct H3 as [<- | H3]; [now left | right; now right].
Qed.

Lemma max_is_largest {A : Type} (f : A -> Number.t) (items : list A)
  (numbers : list Qc) (start : Qc) :
  map f items = map Number.Fin numbers ->
  fold_left (fun kept item => Math.max kept (f item)) items (Number.Fin start)
  = fold_left (fun kept item => if Number.gt (f item) kept then f item else kept)
      items (Number.Fin start).
Proof.
  revert numbers start.
  induction items as [|item rest IH]; intros numbers start H; [reflexivity|].
  destruct numbers as [|q numbers]; [discriminate H|].
  cbn [map] in H. injection H as Hq Hrest. cbn [fold_left]. rewrite Hq.
  cbn [Math.max].
  destruct (Number.gt (Number.Fin q) (Number.Fin start)); eauto.
Qed.

(** ** The handler of the investments *)

Import PortfolioHandlers.

Lemma div_by_nonzero (q total : Qc) :
  total <> 0%Qc ->
  Number.div (Number.Fin q) (Number.Fin total) = Number.Fin (q / total).
Proof. intros H. cbn [Number.div]. now rewrite (isZero_false _ H). Qed.

Lemma quotient_at_most (a b hi : Qc) :
  (0 < b)%Qc -> (a <= hi * b)%Qc -> (a / b <= hi)%Qc.
Proof.
  intros Hb H.
  assert (E : (a / b * b = a)%Qc)
    by (field; now apply positive_nonzero).
  apply (Qcmult_lt_0_le_reg_r _ _ b Hb). now rewrite E.
Qed.

(** Under the restricted view [findAll] divides the finite investments by
    the largest of them and 1: the divisor is at least 1, so nothing is
    divided by zero, every investment sent is at most 1, the dates and the
    order stay, and the status code is not touched. *)
Theorem findAll_scales_by_largest
  (getInvestments : option string -> result (list InvestmentItem.t))
  (this : PortfolioController.t) (impersonationId : option string)
  (res : Response) (user : User.t) (items : list InvestmentItem.t)
  (investments : list Qc) :
  requestUser this = Some user ->
  ConfigurationService.get (configurationService this)
    "ENABLE_FEATURE_SUBSCRIPTION"
  && String.eqb (User.subscriptionType user) "Basic" = false ->
  getInvestments impersonationId = Ok items ->
  restricted this impersonationId = true ->
  map InvestmentItem.investment items = map Number.Fin investments ->
  exists sent largest,
    findAll getInvestments this impersonationId res = (Ok sent, res) /\
    map InvestmentItem.date sent = map InvestmentItem.date items /\
    (1 <= largest)%Qc /\
    In largest (1%Qc :: investments) /\
    (forall q, In q investments -> (q <= largest)%Qc) /\
    map InvestmentItem.investment sent
    = map (fun q => Number.Fin (q / largest)) investments /\
    (forall q, In q investments -> (q / largest <= 1)%Qc).
Proof.
  intros Hu Hf Hi Hr Hq.
  destruct (fold_largest InvestmentItem.investment items investments 1%Qc Hq)
    as (largest & HM & H1 & H2 & H3).
  assert (Hpos : (0 < largest)%Qc)
    by (eapply Qclt_le_trans; [|exact H1]; reflexivity).
  pose proof (positive_nonzero _ Hpos) as Hn.
  eexists. exists largest. split; [|split; [|split; [|split; [|split; [|split]]]]].
  - unfold findAll, isBasic, mbind, lift, ret, status.
    rewrite Hu. cbn [property].
    destruct (ConfigurationService.get (configurationService this) _).
    + cbn [andb] in Hf. rewrite Hf, Hi, Hr. reflexivity.
    + rewrite Hi, Hr. reflexivity.
  - rewrite map_map. reflexivity.
  - exact H1.
  - exact H3.
  - exact H2.
  - rewrite map_map. cbn [InvestmentItem.investment].
    unfold Number.ofZ. change (Q2Qc (inject_Z 1)) with 1%Qc.
    rewrite (max_is_largest InvestmentItem.investment items investments 1%Qc Hq),
      HM.
    rewrite <- (map_map InvestmentItem.investment
                  (fun x => Number.div x (Number.Fin largest))).
    rewrite Hq, map_map. apply map_ext. intros q. now apply div_by_nonzero.
  - intros q Hin. apply (quotient_at_most q largest 1 Hpos).
    replace (1 * largest)%Qc with largest by ring. now apply H2.
Qed.

Lemma findAll_scales_by_largest_witness :
  restricted someController (Some "u2") = true /\
  exists sent largest,
    findAll (fun _ => Ok someInvestments) someController (Some "u2")
      {| statusCode := OK |}
    = (Ok sent, {| statusCode := OK |}) /\
    map InvestmentItem.date sent = ["2021-01-01"; "2021-02-01"] /\
    (1 <= largest)%Qc /\
    map InvestmentItem.investment sent
    = map (fun q => Number.Fin (q / largest))
        [Q2Qc (inject_Z 500); Q2Qc (inject_Z 2000)].
Proof.
  split; [reflexivity|].
  destruct (findAll_scales_by_largest (fun _ => Ok someInvestments)
              someController (Some "u2") {| statusCode := OK |} someUser
              someInvestments [Q2Qc (inject_Z 500); Q2Qc (inject_Z 2000)]
              eq_refl eq_refl eq_refl eq_refl eq_refl)
    as (sent & largest & H1 & H2 & H3 & _ & _ & H6 & _).
  exists sent, largest. auto.
Defined.

(** ** The handler of the chart *)

Lemma flag_is_existsb {A : Type} (p : A -> bool) (items : list A)
  (start : bool) :
  fold_left (fun flag item => if p item then true else flag) items start
  = start || existsb p items.
Proof.
  revert start. induction items as [|item rest IH]; intros start; simpl.
  - now rewrite orb_false_r.
  - rewrite IH. destruct (p item), start; reflexivity.
Qed.

Lemma mapM_scaled (largest : Number.t) (items : list HistoricalDataItem.t) :
  mapM (fun historicalDataItem =>
          marketPrice <-
            toFixedNumber
              (Number.div (HistoricalDataItem.value historicalDataItem)
                 largest) 2 ;;
          Ok {| HistoricalDataItem.date :=
                  HistoricalDataItem.date historicalDataItem;
                HistoricalDataItem.marketPrice := Some marketPrice;
                HistoricalDataItem.value :=
                  HistoricalDataItem.value historicalDataItem |})
    items
  = Ok (map (scaledItem largest) items).
Proof.
  induction items as [|item rest IH]; [reflexivity|].
  cbn [mapM map]. rewrite IH, toFixedNumber_cents. reflexivity.
Qed.

Lemma getChart_unfold
  (getChartData :
     option string -> option string -> result HistoricalDataContainer.t)
  (hasNotDefinedValuesInObject : HistoricalDataItem.t -> bool)
  (this : PortfolioController.t) (impersonationId range : option string)
  (res : Response) (container : HistoricalDataContainer.t) :
  getChartData impersonationId range = Ok container ->
  getChart getChartData hasNotDefinedValuesInObject this impersonationId range
    res
  = (Ok {| PortfolioChart.chart :=
             if restricted this impersonationId
             then map (scaledItem (maxValue (HistoricalDataContainer.items
                                               container)))
                    (HistoricalDataContainer.items container)
             else HistoricalDataContainer.items container;
           PortfolioChart.isAllTimeHigh :=
             HistoricalDataContainer.isAllTimeHigh container;
           PortfolioChart.isAllTimeLow :=
             HistoricalDataContainer.isAllTimeLow container |},
     if existsb hasNotDefinedValuesInObject
          (HistoricalDataContainer.items container)
     then {| statusCode := ACCEPTED |} else res).
Proof.
  intros H. unfold getChart, mbind, lift, ret, status. rewrite H.
  unfold hasNullValue. rewrite flag_is_existsb. cbn [orb].
  rewrite mapM_scaled.
  destruct (existsb _ _), (restricted this impersonationId); reflexivity.
Qed.

(** Whenever the portfolio service resolves, [getChart] sends a chart: its
    items keep the dates and the values of the service's items, restricted
    view or not; the status code is ACCEPTED exactly when some item has a
    value that is not defined, and is not touched otherwise; without the
    restricted view the items are sent as they are. *)
Theorem getChart_keeps_dates_and_values
  (getChartData :
     option string -> option string -> result HistoricalDataContainer.t)
  (hasNotDefinedValuesInObject : HistoricalDataItem.t -> bool)
  (this : PortfolioController.t) (impersonationId range : option string)
  (res : Response) (container : HistoricalDataContainer.t) :
  getChartData impersonationId range = Ok container ->
  exists sent,
    fst (getChart getChartData hasNotDefinedValuesInObject this
           impersonationId range res) = Ok sent /\
    map HistoricalDataItem.date (PortfolioChart.chart sent)
    = map HistoricalDataItem.date (HistoricalDataContainer.items container) /\
    map HistoricalDataItem.value (PortfolioChart.chart sent)
    = map HistoricalDataItem.value (HistoricalDataContainer.items container) /\
    (restricted this impersonationId = false ->
     PortfolioChart.chart sent = HistoricalDataContainer.items container) /\
    statusCode (snd (getChart getChartData hasNotDefinedValuesInObject this
                       impersonationId range res))
    = if existsb hasNotDefinedValuesInObject
           (HistoricalDataContainer.items container)
      then ACCEPTED else statusCode res.
Proof.
  intros H. rewrite (getChart_unfold _ _ _ _ _ _ _ H). cbn [fst snd].
  eexists. split; [reflexivity|]. cbn [PortfolioChart.chart].
  split; [|split; [|split]].
  - destruct (restricted this impersonationId); [|reflexivity].
    rewrite map_map. reflexivity.
  - destruct (restricted this impersonationId); [|reflexivity].
    rewrite map_map. reflexivity.
  - intros ->. reflexivity.
  - destruct (existsb _ _); reflexivity.
Qed.

Lemma getChart_keeps_dates_and_values_witness :
  exists sent,
    fst (getChart (fun _ _ => Ok someChart) (fun _ => false) someController
           (Some "u2") None {| statusCode := OK |}) = Ok sent /\
    map HistoricalDataItem.value (PortfolioChart.chart sent)
    = [Number.ofZ 1000; Number.ofZ 3000].
Proof.
  destruct (getChart_keeps_dates_and_values (fun _ _ => Ok someChart)
              (fun _ => false) someController (Some "u2") None
              {| statusCode := OK |} someChart eq_refl)
    as (sent & H1 & _ & H3 & _).
  exists sent. split; [exact H1 | exact H3].
Defined.

(** Rounding to hundredths moves a finite number by less than a hundredth
    and does not cross 0 or 1. *)
Lemma cents_close (q : Qc) :
  exists r,
    cents (Number.Fin q) = Number.Fin r /\
    (q + - r < hundredth)%Qc /\ (r + - q < hundredth)%Qc /\
    ((0 <= q)%Qc -> (0 <= r)%Qc) /\
    ((q <= 1)%Qc -> (r <= 1)%Qc) /\
    ((1 <= q)%Qc -> (1 <= r)%Qc).
Proof.
  destruct (cents_Fin q) as (r & E & B1 & B2 & B3 & B4 & B5).
  exists r. split; [exact E|].
  assert (Hh : (halfCent < hundredth)%Qc) by reflexivity.
  split; [|split; [|auto]].
  - apply Qcle_lt_trans with halfCent; [|exact Hh].
    apply (Qcplus_le_compat _ _ (halfCent + - r)%Qc (halfCent + - r)%Qc) in B1;
      [|apply Qcle_refl].
    replace (q + - halfCent + (halfCent + - r))%Qc with (q + - r)%Qc in B1
      by ring.
    replace (r + (halfCent + - r))%Qc with halfCent in B1 by ring.
    exact B1.
  - apply Qcle_lt_trans with halfCent; [|exact Hh].
    apply (Qcplus_le_compat _ _ (- q)%Qc (- q)%Qc) in B2; [|apply Qcle_refl].
    replace (q + halfCent + - q)%Qc with halfCent in B2 by ring.
    exact B2.
Qed.

Lemma cents_of_quotients (largest : Qc) (values : list Qc) :
  (0 < largest)%Qc ->
  (forall v, In v values -> (0 <= v)%Qc /\ (v <= largest)%Qc) ->
  exists prices,
    map (fun v => Some (cents (Number.Fin (v / largest)))) values
    = map (fun r => Some (Number.Fin r)) prices /\
    Forall2 (fun v r =>
               (0 <= r)%Qc /\ (r <= 1)%Qc /\
               (v / largest + - r < hundredth)%Qc /\
               (r + - (v / largest) < hundredth)%Qc /\
               (v = largest -> r = 1%Qc) /\
               (v = 0%Qc -> r = 0%Qc))
      values prices.
Proof.
  intros Hpos Hall.
  pose proof (positive_nonzero _ Hpos) as Hn.
  induction values as [|v rest IH].
  - exists []. split; [reflexivity | constructor].
  - destruct IH as (prices & E & F).
    { intros x Hx. apply Hall. now right. }
    destruct (Hall v (or_introl eq_refl)) as [H0 H1].
    destruct (cents_close (v / largest)) as (r & Er & B1 & B2 & B3 & B4 & B5).
    destruct (quotient_bounds v largest 0 1 Hpos) as [Q0 Q1].
    { now replace (0 * largest)%Qc with 0%Qc by ring. }
    { now replace (1 * largest)%Qc with largest by ring. }
    exists (r :: prices). split.
    + cbn [map]. rewrite Er, E. reflexivity.
    + constructor; [|exact F].
      split; [now apply B3|]. split; [now apply B4|].
      split; [exact B1|]. split; [exact B2|]. split.
      * intros ->. apply Qcle_antisym; [now apply B4|]. apply B5.
        replace (largest / largest)%Qc with 1%Qc by (field; assumption).
        apply Qcle_refl.
      * intros ->.
        replace (0 / largest)%Qc with 0%Qc in Er by (field; assumption).
        assert (C : cents (Number.Fin 0%Qc) = Number.Fin 0%Qc).
        { vm_compute. f_equal. apply Qc_is_canon. reflexivity. }
        rewrite C in Er. now injection Er as <-.
Qed.

(** Under the restricted view, when the values are finite, none of them is
    negative and one of them is positive, [getChart] divides them by the
    largest value and rounds to hundredths: each market price sent is a
    number between 0 and 1 that differs from the quotient by less than a
    hundredth; it is 1 for the largest value and 0 for the value 0. *)
Theorem getChart_scales_by_largest
  (getChartData :
     option string -> option string -> result HistoricalDataContainer.t)
  (hasNotDefinedValuesInObject : HistoricalDataItem.t -> bool)
  (this : PortfolioController.t) (impersonationId range : option string)
  (res : Response) (container : HistoricalDataContainer.t)
  (values : list Qc) :
  getChartData impersonationId range = Ok container ->
  restricted this impersonationId = true ->
  map HistoricalDataItem.value (HistoricalDataContainer.items container)
  = map Number.Fin values ->
  (forall v, In v values -> (0 <= v)%Qc) ->
  (exists v, In v values /\ (0 < v)%Qc) ->
  exists sent largest prices,
    fst (getChart getChartData hasNotDefinedValuesInObject this
           impersonationId range res) = Ok sent /\
    (0 < largest)%Qc /\ In largest values /\
    (forall v, In v values -> (v <= largest)%Qc) /\
    map HistoricalDataItem.marketPrice (PortfolioChart.chart sent)
    = map (fun r => Some (Number.Fin r)) prices /\
    Forall2 (fun v r =>
               (0 <= r)%Qc /\ (r <= 1)%Qc /\
               (v / largest + - r < hundredth)%Qc /\
               (r + - (v / largest) < hundredth)%Qc /\
               (v = largest -> r = 1%Qc) /\
               (v = 0%Qc -> r = 0%Qc))
      values prices.
Proof.
  intros H Hr Hv Hnn (v0 & Hin0 & Hpos0).
  destruct (fold_largest HistoricalDataItem.value
              (HistoricalDataContainer.items container) values 0%Qc Hv)
    as (largest & HM & H1 & H2 & H3).
  assert (Hpos : (0 < largest)%Qc)
    by (eapply Qclt_le_trans; [exact Hpos0 | now apply H2]).
  pose proof (positive_nonzero _ Hpos) as Hn.
  assert (Hin : In largest values).
  { destruct H3 as [E | H3]; [|assumption].
    exfalso. apply Hn. now symmetry. }
  destruct (cents_of_quotients largest values Hpos) as (prices & E & F).
  { intros v Hvin. split; [now apply Hnn | now apply H2]. }
  rewrite (getChart_unfold _ _ _ _ _ _ _ H), Hr. cbn [fst].
  eexists. exists largest, prices. split; [reflexivity|].
  cbn [PortfolioChart.chart].
  split; [assumption|]. split; [assumption|]. split; [assumption|].
  split; [|exact F].
  unfold maxValue, Number.ofZ. change (Q2Qc (inject_Z 0)) with 0%Qc.
  rewrite HM, map_map. cbn [scaledItem HistoricalDataItem.marketPrice].
  rewrite <- (map_map HistoricalDataItem.value
                (fun x => Some (cents (Number.div x (Number.Fin largest))))).
  rewrite Hv, map_map. rewrite <- E. apply map_ext. intros q.
  now rewrite div_by_nonzero.
Qed.

Lemma getChart_scales_by_largest_witness :
  (exists v, In v [Q2Qc (inject_Z 1000); Q2Qc (inject_Z 3000)] /\ (0 < v)%Qc) /\
  exists sent largest prices,
    fst (getChart (fun _ _ => Ok someChart) (fun _ => false) someController
           (Some "u2") None {| statusCode := OK |}) = Ok sent /\
    (0 < largest)%Qc /\
    map HistoricalDataItem.marketPrice (PortfolioChart.chart sent)
    = map (fun r => Some (Number.Fin r)) prices.
Proof.
  assert (H : exists v, In v [Q2Qc (inject_Z 1000); Q2Qc (inject_Z 3000)]
                        /\ (0 < v)%Qc)
    by (exists (Q2Qc (inject_Z 1000)); split; [now left | reflexivity]).
  split; [exact H|].
  assert (Hnn : forall v, In v [Q2Qc (inject_Z 1000); Q2Qc (inject_Z 3000)] ->
                          (0 <= v)%Qc)
    by (intros v [<-|[<-|[]]]; discriminate).
  destruct (getChart_scales_by_largest (fun _ _ => Ok someChart)
              (fun _ => false) someController (Some "u2") None
              {| statusCode := OK |} someChart
              [Q2Qc (inject_Z 1000); Q2Qc (inject_Z 3000)]
              eq_refl eq_refl eq_refl Hnn H)
    as (sent & largest & prices & H1 & H2 & _ & _ & H5 & _).
  exists sent, largest, prices. auto.
Defined.

(** Under the restricted view, when the values are finite and none of them
    is positive, the largest value kept by the loop is its start 0, and
    [getChart] divides by zero: the market price sent is [NaN] for a value
    of zero and [-Infinity] for a negative one, never a number. *)
Theorem getChart_without_positive_value
  (getChartData :
     option string -> option string -> result HistoricalDataContainer.t)
  (hasNotDefinedValuesInObject : HistoricalDataItem.t -> bool)
  (this : PortfolioController.t) (impersonationId range : option string)
  (res : Response) (container : HistoricalDataContainer.t)
  (values : list Qc) :
  getChartData impersonationId range = Ok container ->
  restricted this impersonationId = true ->
  map HistoricalDataItem.value (HistoricalDataContainer.items container)
  = map Number.Fin values ->
  (forall v, In v values -> (v <= 0)%Qc) ->
  exists sent,
    fst (getChart getChartData hasNotDefinedValuesInObject this
           impersonationId range res) = Ok sent /\
    map HistoricalDataItem.marketPrice (PortfolioChart.chart sent)
    = map (fun v => Some (if Number.isZero v then Number.NaN
                          else Number.Infinity true)) values.
Proof.
  intros H Hr Hv Hneg.
  destruct (fold_largest HistoricalDataItem.value
              (HistoricalDataContainer.items container) values 0%Qc Hv)
    as (largest & HM & H1 & H2 & H3).
  assert (E : largest = 0%Qc).
  { destruct H3 as [<- | H3]; [reflexivity|].
    apply Qcle_antisym; [now apply Hneg | assumption]. }
  subst largest.
  rewrite (getChart_unfold _ _ _ _ _ _ _ H), Hr. cbn [fst].
  eexists. split; [reflexivity|]. cbn [PortfolioChart.chart].
  unfold maxValue, Number.ofZ. change (Q2Qc (inject_Z 0)) with 0%Qc.
  rewrite HM, map_map. cbn [scaledItem HistoricalDataItem.marketPrice].
  rewrite <- (map_map HistoricalDataItem.value
                (fun x => Some (cents (Number.div x (Number.Fin 0%Qc))))).
  rewrite Hv, map_map. apply map_ext_in. intros v Hin.
  cbn [Number.div]. change (Number.isZero 0%Qc) with true. cbv iota.
  destruct (Number.isZero v) eqn:Z; [reflexivity|].
  assert (Hlt : Number.isNegative v = true).
  { pose proof (proj1 (Qcle_alt v 0%Qc) (Hneg v Hin)) as Hle.
    unfold Number.isNegative, Number.isZero in *.
    destruct (v ?= 0)%Qc; [discriminate Z | reflexivity | now elim Hle]. }
  rewrite Hlt. reflexivity.
Qed.

Lemma getChart_without_positive_value_witness :
  (forall v, In v [Q2Qc (inject_Z 0); Q2Qc (inject_Z 0)] -> (v <= 0)%Qc) /\
  exists sent,
    fst (getChart (fun _ _ => Ok flatChart) (fun _ => false) someController
           (Some "u2") None {| statusCode := OK |}) = Ok sent /\
    map HistoricalDataItem.marketPrice (PortfolioChart.chart sent)
    = [Some Number.NaN; Some Number.NaN].
Proof.
  assert (H : forall v, In v [Q2Qc (inject_Z 0); Q2Qc (inject_Z 0)] ->
                (v <= 0)%Qc)
    by (intros v [<- | [<- | []]]; discriminate).
  split; [exact H|].
  exact (getChart_without_positive_value (fun _ _ => Ok flatChart)
           (fun _ => false) someController (Some "u2") None
           {| statusCode := OK |} flatChart
           [Q2Qc (inject_Z 0); Q2Qc (inject_Z 0)]
           eq_refl eq_refl eq_refl H).
Defined.

(** ** More on the handlers of the details *)

Lemma qsum_ofZ (integers : list Z) :
  qsum (map (fun z => Q2Qc (inject_Z z)) integers)
  = Q2Qc (inject_Z (zsum integers)).
Proof.
  induction integers as [|z rest IH].
  - apply Qc_is_canon. reflexivity.
  - cbn [map zsum fold_right qsum]. fold (zsum rest).
    change (fold_right Qcplus 0%Qc (map (fun z => Q2Qc (inject_Z z)) rest))
      with (qsum (map (fun z => Q2Qc (inject_Z z)) rest)).
    rewrite IH. apply Qc_is_canon.
    cbn [this Q2Qc Qcplus]. rewrite !Qred_correct.
    unfold Qeq, Qplus, inject_Z. cbn. lia.
Qed.

Lemma isZero_ofZ (z : Z) :
  Number.isZero (Q2Qc (inject_Z z)) = (z =? 0)%Z.
Proof.
  destruct (Z.eqb_spec z 0) as [->|Hne]; [reflexivity|].
  apply isZero_false. intros E. apply ofZ_zero_iff in E. contradiction.
Qed.

(** Under the restricted view, when the investments of the holdings are
    integers that add up to zero, [getDetails] divides by zero: the
    investment sent is [NaN] for a holding without investment and an
    infinity with the sign of the investment otherwise, never a number.
    The magnitudes of the investments add up to less than [2^53], so that
    binary64 adds the investments without rounding. *)
Theorem getDetails_zero_total
  (hasNotDefinedValuesInObject : list (string * PortfolioPosition.t) -> bool)
  (this : PortfolioController.t) (impersonationId range : option string)
  (res : Response) (user : User.t) (settings : User.SettingsRow)
  (details : Details.t) (investments : list Z) :
  requestUser this = Some user ->
  User.Settings user = Some settings ->
  ConfigurationService.get (configurationService this)
    "ENABLE_FEATURE_SUBSCRIPTION"
  && String.eqb (User.subscriptionType user) "Basic" = false ->
  PortfolioService.getDetails (portfolioService this) impersonationId
    (User.id user) range = Ok details ->
  truthy impersonationId
  || UserService.isRestrictedView (userService this) (requestUser this)
  = true ->
  map (fun entry => PortfolioPosition.investment (snd entry))
    (Details.holdings details) = map Number.ofZ investments ->
  zsum investments = 0%Z ->
  (magnitudes investments < 2 ^ 53)%Z ->
  exists accounts holdings,
    fst (getDetails hasNotDefinedValuesInObject this impersonationId range res)
    = Ok (PortfolioDetails accounts holdings) /\
    map (fun entry => PortfolioPosition.investment (snd entry)) holdings
    = map (fun z => if (z =? 0)%Z then Number.NaN
                    else Number.Infinity (z <? 0)%Z)
        investments.
Proof.
  intros Hu Hs Hf Hd Hr Hi Ht _.
  assert (Hq : map (fun entry => PortfolioPosition.investment (snd entry))
                 (Details.holdings details)
               = map Number.Fin (map (fun z => Q2Qc (inject_Z z)) investments))
    by (rewrite Hi, map_map; reflexivity).
  assert (H0 : qsum (map (fun z => Q2Qc (inject_Z z)) investments) = 0%Qc).
  { rewrite qsum_ofZ, Ht. apply Qc_is_canon. reflexivity. }
  eexists. eexists. split.
  - unfold getDetails, mbind, lift, ret, status.
    pose proof (mapM_with_settings this user settings
                  (Details.holdings details) Hu Hs) as Hm.
    rewrite Hu in Hm, Hr |- *. cbn [property] in Hm |- *.
    destruct (ConfigurationService.get (configurationService this) _).
    + cbn [andb] in Hf. rewrite Hf, Hd.
      destruct (Details.hasErrors details || _);
        rewrite Hr, Hm; cbn [fst]; rewrite Hq, sum_Fin, H0; reflexivity.
    + rewrite Hd.
      destruct (Details.hasErrors details || _);
        rewrite Hr, Hm; cbn [fst]; rewrite Hq, sum_Fin, H0; reflexivity.
  - rewrite map_map. cbn [snd restrictPosition PortfolioPosition.investment].
    rewrite <- (map_map (fun entry => PortfolioPosition.investment (snd entry))
                  (fun x => Number.div x (Number.Fin 0%Qc))).
    rewrite Hq, !map_map. apply map_ext. intros z.
    cbn [Number.div]. change (Number.isZero 0%Qc) with true. cbn iota.
    now rewrite isZero_ofZ, isNegative_ofZ.
Qed.

Lemma getDetails_zero_total_witness :
  zsum [5; -5]%Z = 0%Z /\
  (magnitudes [5; -5] < 2 ^ 53)%Z /\
  exists accounts holdings,
    fst (getDetails (fun _ => false) cancellingController (Some "u2") None
           {| statusCode := OK |})
    = Ok (PortfolioDetails accounts holdings) /\
    map (fun entry => PortfolioPosition.investment (snd entry)) holdings
    = [Number.Infinity false; Number.Infinity true].
Proof.
  split; [reflexivity|]. split; [reflexivity|].
  exact (getDetails_zero_total (fun _ => false) cancellingController
           (Some "u2") None {| statusCode := OK |} someUser
           {| User.currency := "USD" |} cancellingDetails [5; -5]%Z
           eq_refl eq_refl eq_refl eq_refl eq_refl eq_refl eq_refl eq_refl).
Defined.

Lemma mapM_without_settings (this : PortfolioController.t) (user : User.t)
  (first : string * PortfolioPosition.t)
  (rest : list (string * PortfolioPosition.t)) :
  requestUser this = Some user ->
  User.Settings user = None ->
  mapM (fun entry =>
          settings <- property User.Settings (requestUser this) ;;
          currency <- property User.currency settings ;;
          Ok (valueIn this currency (snd entry))) (first :: rest)
  = Throw TypeError.
Proof.
  intros Hu Hs. cbn [mapM]. rewrite Hu. cbn [property bind]. now rewrite Hs.
Qed.

(** Under the restricted view a request user without settings makes
    [getDetails] throw a [TypeError] exactly when there is a holding: the
    currency of the settings is read once per holding, so without holdings
    it is not read and details are sent. *)
Theorem getDetails_without_settings
  (hasNotDefinedValuesInObject : list (string * PortfolioPosition.t) -> bool)
  (this : PortfolioController.t) (impersonationId range : option string)
  (res : Response) (user : User.t) (details : Details.t) :
  requestUser this = Some user ->
  User.Settings user = None ->
  ConfigurationService.get (configurationService this)
    "ENABLE_FEATURE_SUBSCRIPTION"
  && String.eqb (User.subscriptionType user) "Basic" = false ->
  PortfolioService.getDetails (portfolioService this) impersonationId
    (User.id user) range = Ok details ->
  truthy impersonationId
  || UserService.isRestrictedView (userService this) (requestUser this)
  = true ->
  (Details.holdings details <> [] ->
   fst (getDetails hasNotDefinedValuesInObject this impersonationId range res)
   = Throw TypeError) /\
  (Details.holdings details = [] ->
   exists accounts,
     fst (getDetails hasNotDefinedValuesInObject this impersonationId range
            res)
     = Ok (PortfolioDetails accounts [])).
Proof.
  intros Hu Hs Hf Hd Hr.
  split.
  - intros Hne. destruct (Details.holdings details) as [|first rest] eqn:Hh;
      [congruence|].
    pose proof (mapM_without_settings this user first rest Hu Hs) as Hm.
    unfold getDetails, mbind, lift, ret, status.
    rewrite Hu in Hm, Hr |- *. cbn [property] in Hm |- *.
    destruct (ConfigurationService.get (configurationService this) _).
    + cbn [andb] in Hf. rewrite Hf, Hd, Hh.
      destruct (Details.hasErrors details || _);
        rewrite Hr, Hm; reflexivity.
    + rewrite Hd, Hh.
      destruct (Details.hasErrors details || _);
        rewrite Hr, Hm; reflexivity.
  - intros Hh.
    unfold getDetails, mbind, lift, ret, status.
    rewrite Hu in Hr |- *. cbn [property].
    destruct (ConfigurationService.get (configurationService this) _).
    + cbn [andb] in Hf. rewrite Hf, Hd, Hh.
      destruct (Details.hasErrors details || _);
        rewrite Hr; cbn [mapM map fst]; eauto.
    + rewrite Hd, Hh.
      destruct (Details.hasErrors details || _);
        rewrite Hr; cbn [mapM map fst]; eauto.
Qed.

Lemma getDetails_without_settings_witness :
  Details.holdings someDetails <> [] /\
  fst (getDetails (fun _ => false) controllerWithoutSettings None None
         {| statusCode := OK |})
  = Throw TypeError.
Proof.
  assert (H : Details.holdings someDetails <> []) by discriminate.
  split; [exact H|].
  exact (proj1 (getDetails_without_settings (fun _ => false)
                  controllerWithoutSettings None None {| statusCode := OK |}
                  userWithoutSettings someDetails
                  eq_refl eq_refl eq_refl eq_refl eq_refl) H).
Defined.

(** [getPublic] sends public details exactly when the access record is
    found, the user lookup and the portfolio service resolve, and, with the
    subscription feature on, the user of the access record exists. *)
Theorem getPublic_succeeds_exactly_when
  (this : PortfolioController.t) (accessId : string) (res : Response) :
  (exists body, fst (getPublic this accessId res) = Ok body) <->
  exists access user details,
    AccessService.access (accessService this) accessId = Ok (Some access) /\
    UserService.user (userService this) (Access.userId access) = Ok user /\
    (ConfigurationService.get (configurationService this)
       "ENABLE_FEATURE_SUBSCRIPTION" = true -> user <> None) /\
    PortfolioService.getDetails (portfolioService this)
      (Some (Access.userId access)) (Access.userId access) None = Ok details.
Proof.
  unfold getPublic, mbind, lift, ret.
  destruct (AccessService.access (accessService this) accessId)
    as [[access|]|e] eqn:Ea; cbn [property].
  - destruct (UserService.user (userService this) (Access.userId access))
      as [user|e] eqn:Eu.
    + destruct (ConfigurationService.get (configurationService this) _)
        eqn:Ec.
      * destruct user as [user|]; cbn [property].
        -- destruct (PortfolioService.getDetails _ _ _ _) as [details|e]
             eqn:Ed; cbn [fst]; split.
           ++ intros _. exists access, (Some user), details.
              repeat split; intros; congruence.
           ++ eauto.
           ++ intros [body H]. discriminate H.
           ++ intros (a & u & d & Ha & Hu & _ & Hd). congruence.
        -- cbn [fst]. split.
           ++ intros [body H]. discriminate H.
           ++ intros (a & u & d & Ha & Hu & Hc & Hd).
              injection Ha as <-. rewrite Eu in Hu. injection Hu as <-.
              now elim Hc.
      * destruct (PortfolioService.getDetails _ _ _ _) as [details|e]
          eqn:Ed; cbn [fst]; split.
        -- intros _. exists access, user, details.
           repeat split; intros; congruence.
        -- eauto.
        -- intros [body H]. discriminate H.
        -- intros (a & u & d & Ha & Hu & _ & Hd). congruence.
    + cbn [fst]. split.
      * intros [body H]. discriminate H.
      * intros (a & u & d & Ha & Hu & _). congruence.
  - cbn [fst]. split.
    + intros [body H]. discriminate H.
    + intros (a & u & d & Ha & _). discriminate Ha.
  - cbn [fst]. split.
    + intros [body H]. discriminate H.
    + intros (a & u & d & Ha & _). discriminate Ha.
Qed.

(** ** The admin service *)

Lemma countOf_absent (marketData : list AdminService.MarketDataGroup)
  (dataSource symbol : string) :
  (forall marketDataItem, In marketDataItem marketData ->
     groupKey marketDataItem <> (dataSource, symbol)) ->
  AdminService.countOf marketData dataSource symbol = 0%Z.
Proof.
  unfold AdminService.countOf.
  induction marketData as [|g rest IH]; intros Hnone; [reflexivity|].
  cbn [find].
  destruct (String.eqb (AdminService.groupDataSource g) dataSource) eqn:Ed;
    [destruct (String.eqb (AdminService.groupSymbol g) symbol) eqn:Es|];
    cbn [andb].
  - exfalso. apply (Hnone g (or_introl eq_refl)).
    apply String.eqb_eq in Ed, Es. unfold groupKey. congruence.
  - apply IH. intros g' Hin. apply Hnone. right. exact Hin.
  - apply IH. intros g' Hin. apply Hnone. right. exact Hin.
Qed.

Lemma countOf_present (marketData : list AdminService.MarketDataGroup)
  (dataSource symbol : string) (marketDataItem : AdminService.MarketDataGroup) :
  NoDup (map groupKey marketData) ->
  In marketDataItem marketData ->
  groupKey marketDataItem = (dataSource, symbol) ->
  AdminService.countOf marketData dataSource symbol
  = AdminService._count marketDataItem.
Proof.
  unfold AdminService.countOf.
  induction marketData as [|g rest IH]; intros Hnd Hin Hkey; [destruct Hin|].
  cbn [map] in Hnd. inversion Hnd as [|k ks Hfresh Hrest]; subst.
  cbn [find].
  destruct (String.eqb (AdminService.groupDataSource g) dataSource) eqn:Ed;
    [destruct (String.eqb (AdminService.groupSymbol g) symbol) eqn:Es|];
    cbn [andb].
  - destruct Hin as [->|Hin]; [reflexivity|].
    exfalso. apply Hfresh.
    apply String.eqb_eq in Ed, Es.
    replace (groupKey g) with (groupKey marketDataItem)
      by (rewrite Hkey; unfold groupKey; congruence).
    apply in_map. exact Hin.
  - destruct Hin as [->|Hin]; [|apply IH; assumption].
    unfold groupKey in Hkey. injection Hkey as _ Hs.
    apply String.eqb_neq in Es. contradiction.
  - destruct Hin as [->|Hin]; [|apply IH; assumption].
    unfold groupKey in Hkey. injection Hkey as Hd _.
    apply String.eqb_neq in Ed. contradiction.
Qed.

(** When both queries answer, the market data lists one item per currency
    pair followed by one item per symbol profile, in their order.  An item
    whose data source and symbol no group of the [groupBy] query carries has
    the market-data count 0; when the groups have distinct keys, an item has
    the count of the group with its data source and symbol.  Only the items
    of symbol profiles carry an activity count, and they carry a date
    exactly when the profile has an order. *)
Theorem getMarketData_counts
  (getCurrencyPairs : list AdminService.UniqueAsset)
  (marketData : list AdminService.MarketDataGroup)
  (symbolProfiles : list AdminService.SymbolProfile)
  (items : list AdminService.AdminMarketDataItem) :
  AdminService.getMarketData getCurrencyPairs (Ok marketData)
    (Ok symbolProfiles) = Ok items ->
  map itemKey items
  = (map (fun pair => (AdminService.dataSource pair, AdminService.symbol pair))
       getCurrencyPairs
     ++ map (fun symbolProfile =>
               (AdminService.profileDataSource symbolProfile,
                AdminService.profileSymbol symbolProfile))
          symbolProfiles)%list
  /\ map AdminService.activityCount items
     = (map (fun _ => None) getCurrencyPairs
        ++ map (fun symbolProfile =>
                  Some (AdminService.profileOrderCount symbolProfile))
             symbolProfiles)%list
  /\ map (fun item => match AdminService.date item with
                      | Some _ => true
                      | None => false
                      end) items
     = (map (fun _ => false) getCurrencyPairs
        ++ map (fun symbolProfile =>
                  match AdminService.Order symbolProfile with
                  | [] => false
                  | _ :: _ => true
                  end)
             symbolProfiles)%list
  /\ forall item, In item items ->
       ((forall marketDataItem, In marketDataItem marketData ->
           groupKey marketDataItem <> itemKey item) ->
        AdminService.marketDataItemCount item = 0%Z)
       /\ (NoDup (map groupKey marketData) ->
           forall marketDataItem, In marketDataItem marketData ->
             groupKey marketDataItem = itemKey item ->
             AdminService.marketDataItemCount item
             = AdminService._count marketDataItem).
Proof.
  unfold AdminService.getMarketData. cbn [bind].
  intros H. injection H as <-.
  rewrite !map_app, !map_map. unfold itemKey. cbn.
  split; [reflexivity|]. split; [reflexivity|].
  split.
  { f_equal. apply map_ext. intros s.
    destruct (AdminService.Order s); reflexivity. }
  intros item Hin.
  apply in_app_or in Hin.
  destruct Hin as [Hin|Hin]; apply in_map_iff in Hin;
    destruct Hin as [x [<- _]]; cbn; split.
  - apply countOf_absent.
  - intros Hnd g Hg Hk. apply countOf_present; assumption.
  - apply countOf_absent.
  - intros Hnd g Hg Hk. apply countOf_present; assumption.
Qed.

Lemma getMarketData_counts_witness :
  exists items,
    AdminService.getMarketData someCurrencyPairs (Ok someMarketData)
      (Ok someSymbolProfiles) = Ok items
    /\ map itemKey items
       = [("YAHOO", "USDCHF"); ("YAHOO", "USDEUR");
          ("MANUAL", "Gold"); ("YAHOO", "VTI")]
    /\ map AdminService.marketDataItemCount items = [250; 0; 0; 12]%Z.
Proof.
  eexists. split; [reflexivity|].
  split.
  - exact (proj1 (getMarketData_counts someCurrencyPairs someMarketData
                    someSymbolProfiles _ eq_refl)).
  - reflexivity.
Defined.

Lemma ofZ_or_zero (z : Z) :
  Number.or (Number.ofZ z) (Number.ofZ 0) = Number.ofZ z.
Proof.
  unfold Number.or, Number.toBoolean, Number.ofZ.
  destruct (Number.isZero (Q2Qc (inject_Z z))) eqn:E; [|reflexivity].
  cbn [negb]. f_equal.
  unfold Number.isZero in E.
  destruct (Q2Qc (inject_Z z) ?= 0)%Qc eqn:Ec; try discriminate.
  apply Qceq_alt in Ec. rewrite Ec. apply Qc_is_canon. reflexivity.
Qed.

(** When the query answers, there is one user per row, in the order of the
    rows, with the row's id, dates and subscription (only when the
    subscription feature is on); the fallbacks [|| 0] never change a count.
    With [days] the days since the registration plus one: when [days] is
    not zero the engagement is a finite number; when [days] is positive it
    lies between 0 and the activity count for a count that is not negative,
    it is positive for a positive count, and it is the activity count on
    the day of the registration; when [days] is zero, which is when the
    registration is one day ahead of the clock, the engagement is no finite
    number: NaN for the count 0, an infinity otherwise. *)
Theorem getUsersWithAnalytics_engagement (Rows Subscription : Type)
  (enableFeatureSubscription : bool)
  (rows : list (AdminService.UserRow Rows))
  (getSubscription : Rows -> Subscription) (now : string)
  (differenceInDays : string -> string -> Z) :
  exists users,
    AdminService.getUsersWithAnalytics Rows Subscription
      enableFeatureSubscription (Ok rows) getSubscription now
      differenceInDays = Ok users
    /\ Forall2
         (fun row user =>
            let days :=
              (differenceInDays now (AdminService.createdAt row) + 1)%Z in
            let activity := AdminService.analyticsActivityCount row in
            AdminService.userId user = AdminService.id row
            /\ AdminService.userCreatedAt user = AdminService.createdAt row
            /\ AdminService.lastActivity user
               = AdminService.analyticsUpdatedAt row
            /\ AdminService.subscription user
               = (if enableFeatureSubscription
                  then Some (getSubscription
                               (AdminService.subscriptionRows row))
                  else None)
            /\ AdminService.userAccountCount user
               = Number.ofZ (AdminService.accountCount row)
            /\ AdminService.transactionCount user
               = Number.ofZ (AdminService.orderCount row)
            /\ (days <> 0%Z ->
                exists q,
                  AdminService.engagement user = Number.Fin q
                  /\ ((0 < days)%Z -> (0 <= activity)%Z ->
                      (0 <= q)%Qc /\ (q <= Q2Qc (inject_Z activity))%Qc)
                  /\ ((0 < days)%Z -> (0 < activity)%Z -> (0 < q)%Qc)
                  /\ (days = 1%Z -> q = Q2Qc (inject_Z activity)))
            /\ (days = 0%Z ->
                AdminService.engagement user
                = if (activity =? 0)%Z then Number.NaN
                  else Number.Infinity (activity <? 0)%Z))
         rows users.
Proof.
  eexists. split; [reflexivity|].
  induction rows as [|row rest IH]; cbn [map]; constructor; [|exact IH].
  cbn -[Number.div Number.or Number.ofZ].
  split; [reflexivity|]. split; [reflexivity|]. split; [reflexivity|].
  split; [reflexivity|].
  split; [apply ofZ_or_zero|]. split; [apply ofZ_or_zero|].
  set (days := (differenceInDays now (AdminService.createdAt row) + 1)%Z).
  set (activity := AdminService.analyticsActivityCount row).
  unfold Number.ofZ.
  split.
  - intros Hd.
    assert (Hn : Q2Qc (inject_Z days) <> 0%Qc).
    { intros E. apply ofZ_zero_iff in E. contradiction. }
    rewrite (div_by_nonzero _ _ Hn).
    eexists. split; [reflexivity|]. split; [|split].
    + intros Hpos Hact.
      apply quotient_bounds.
      * apply ofZ_positive. exact Hpos.
      * rewrite Qcmult_0_l. apply (ofZ_le 0 activity Hact).
      * rewrite <- (Qcmult_1_l (Q2Qc (inject_Z activity))) at 1.
        rewrite (Qcmult_comm (Q2Qc (inject_Z activity))).
        apply Qcmult_le_compat_r.
        -- apply (ofZ_le 1 days). lia.
        -- apply (ofZ_le 0 activity Hact).
    + intros Hpos Hact.
      apply Qcnot_le_lt. intros Hle.
      apply (Qcmult_le_compat_r _ _ (Q2Qc (inject_Z days))) in Hle;
        [|apply (ofZ_le 0 days); lia].
      replace (Q2Qc (inject_Z activity) / Q2Qc (inject_Z days)
               * Q2Qc (inject_Z days))%Qc
        with (Q2Qc (inject_Z activity)) in Hle by (field; exact Hn).
      rewrite Qcmult_0_l in Hle.
      apply (Qcle_not_lt _ _ Hle). apply ofZ_positive. exact Hact.
    + intros E. rewrite E.
      change (Q2Qc (inject_Z 1)) with 1%Qc. field. discriminate.
  - intros ->. cbn [Number.div].
    replace (Number.isZero (Q2Qc (inject_Z 0))) with true by reflexivity.
    rewrite isNegative_ofZ.
    destruct (Z.eqb_spec activity 0) as [->|Hne]; [reflexivity|].
    rewrite isZero_false; [reflexivity|].
    intros E. apply ofZ_zero_iff in E. contradiction.
Qed.

(** When every query of [get] answers, the exchange rates are those of the
    currencies other than the base currency, in the order of the
    currencies: each goes from the base currency to another currency and is
    what one unit of the base currency converts to, and no rate pairs the
    base currency with itself.  The settings and the counts are what the
    queries answered, and the users those of [getUsersWithAnalytics]. *)
Theorem get_exchange_rates (Settings Rows Subscription : Type)
  (baseCurrency : string) (enableFeatureSubscription : bool)
  (exchangeRateDataService : ExchangeRateDataService)
  (getCurrencies : list string)
  (propertyServiceGet : result Settings)
  (orderCountQuery userCountQuery : result Z)
  (userFindMany : result (list (AdminService.UserRow Rows)))
  (getSubscription : Rows -> Subscription) (now : string)
  (differenceInDays : string -> string -> Z)
  (data : AdminService.AdminData Settings Subscription) :
  AdminService.get Settings Rows Subscription baseCurrency
    enableFeatureSubscription exchangeRateDataService getCurrencies
    propertyServiceGet orderCountQuery userCountQuery userFindMany
    getSubscription now differenceInDays = Ok data ->
  map AdminService.label2 (AdminService.exchangeRates data)
  = filter (fun currency => negb (String.eqb currency baseCurrency))
      getCurrencies
  /\ (forall rate, In rate (AdminService.exchangeRates data) ->
        AdminService.label1 rate = baseCurrency
        /\ AdminService.label2 rate <> baseCurrency
        /\ In (AdminService.label2 rate) getCurrencies
        /\ AdminService.value rate
           = toCurrency exchangeRateDataService (Number.ofZ 1) baseCurrency
               (AdminService.label2 rate))
  /\ propertyServiceGet = Ok (AdminService.settings data)
  /\ orderCountQuery = Ok (AdminService.dataTransactionCount data)
  /\ userCountQuery = Ok (AdminService.userCount data)
  /\ AdminService.getUsersWithAnalytics Rows Subscription
       enableFeatureSubscription userFindMany getSubscription now
       differenceInDays = Ok (AdminService.users data).
Proof.
  unfold AdminService.get.
  destruct propertyServiceGet as [settings|e]; [|discriminate].
  destruct orderCountQuery as [transactionCount|e]; [|discriminate].
  destruct userCountQuery as [userCount|e]; [|discriminate].
  destruct (AdminService.getUsersWithAnalytics Rows Subscription
              enableFeatureSubscription userFindMany getSubscription now
              differenceInDays) as [users|e]; [|discriminate].
  cbn [bind]. intros H. injection H as <-.
  cbn [AdminService.exchangeRates AdminService.settings
       AdminService.dataTransactionCount AdminService.userCount
       AdminService.users].
  split.
  { rewrite map_map. cbn [AdminService.label2]. apply map_id. }
  split; [|repeat split].
  intros rate Hin. apply in_map_iff in Hin.
  destruct Hin as [currency [<- Hin]].
  apply filter_In in Hin. destruct Hin as [Hin Hne].
  cbn [AdminService.label1 AdminService.label2 AdminService.value].
  split; [reflexivity|]. split; [|split; [exact Hin|reflexivity]].
  apply Bool.negb_true_iff, String.eqb_neq in Hne. exact Hne.
Qed.

Lemma get_exchange_rates_witness :
  exists data,
    someAdminData = Ok data
    /\ map AdminService.label2 (AdminService.exchangeRates data)
       = ["EUR"; "USD"].
Proof.
  eexists. split; [reflexivity|].
  exact (proj1 (get_exchange_rates unit unit unit "CHF" false identityRates
                  ["CHF"; "EUR"; "USD"] (Ok tt) (Ok 7%Z) (Ok 2%Z) (Ok [])
                  (fun rows => rows) "2021-12-01" (fun _ _ => 0%Z) _
                  eq_refl)).
Defined.

(** ** Binary64 comparisons *)

Ltac compare_cases :=
  rewrite ?Pos.compare_cont_spec; cbn [fst];
  repeat match goal with
    | |- context [Z.compare ?a ?b] => destruct (Z.compare_spec a b)
    | |- context [Pos.compare ?a ?b] => destruct (Pos.compare_spec a b)
    end;
  cbn; try discriminate; try reflexivity; intros; try congruence; try lia.




Lemma SFeqb_refl (x : spec_float) : x <> S754_nan -> SFeqb x x = true.
Proof.
  unfold SFeqb, SFcompare.
  destruct x as [sx|sx| |sx mx ex]; try destruct sx; try reflexivity;
    try congruence; compare_cases.
Qed.







(** The number a binary64 value stands for, by example; the third is the
    binary64 number nearest to a tenth. *)
Example value_examples :
  map (fun x => match Binary64.value x with
                | Number.Fin q => Some (Qnum q, Qden q)
                | _ => None
                end)
    [0.5; -3; 0x1.999999999999ap-4; -0]%float
  = [Some (1%Z, 2%positive); Some ((-3)%Z, 1%positive);
     Some (3602879701896397%Z, 36028797018963968%positive);
     Some (0%Z, 1%positive)] /\
  Binary64.value PrimFloat.infinity = Number.Infinity false /\
  Binary64.value PrimFloat.neg_infinity = Number.Infinity true /\
  Binary64.value PrimFloat.nan = Number.NaN.
Proof. repeat split; vm_compute; reflexivity. Qed.

(** ** The loop of [evaluate], in binary64 *)

Import InBinary64 Loop.









(** When the sum of the investments overflows, the total is [Infinity],
    the quotient is zero, and the text reads 0.00 whatever the share. *)
Example overflowing_total_reads_zero :
  InBinary64.evaluateGroups (settingsFor "USD")
    [ {| InBinary64.GroupItem.groupKey := "USD";
         InBinary64.GroupItem.investment := 0x1p+1023%float |};
      {| InBinary64.GroupItem.groupKey := "EUR";
         InBinary64.GroupItem.investment := 0x1p+1023%float |} ]
  = Ok {| evaluation :=
            "The major part of your initial investment is in your base currency (0.00% in USD)";
          value := true |}.
Proof. vm_compute. reflexivity. Qed.

(** The examples of the specification and the cancelling investments give
    in binary64 the texts they give with exact numbers. *)
Example examples_in_binary64 :
  map (fun investments =>
         InBinary64.evaluateGroups (settingsFor "USD")
           [ {| InBinary64.GroupItem.groupKey := "USD";
                InBinary64.GroupItem.investment := fst investments |};
             {| InBinary64.GroupItem.groupKey := "EUR";
                InBinary64.GroupItem.investment := snd investments |} ])
    [(6000, 4000); (3000, 7000); (5, -5)]%float
  = [ Ok {| evaluation :=
              "The major part of your initial investment is in your base currency (60.0% in USD)";
            value := true |};
      Ok {| evaluation :=
              "The major part of your initial investment is not in your base currency (30.0% in USD)";
            value := false |};
      Ok {| evaluation :=
              "The major part of your initial investment is in your base currency (Infinity% in USD)";
            value := true |} ].
Proof. vm_compute. reflexivity. Qed.

(** ** What [evaluate] reads *)



(** The statement above depends on the helper: with a helper that consults
    the exchange-rate adapter, two runs on the same position set with the
    same settings differ when the adapters do. *)
Lemma runs_differ_when_the_helper_reads_the_adapter :
  currentPositions (ruleOn identityRates cancellingPositions)
  = currentPositions (ruleOn zeroRates cancellingPositions) /\
  fst (InBinary64.evaluate (adapterReadingHelper tiedGroups)
         (settingsFor "USD") (ruleOn identityRates cancellingPositions))
  <> fst (InBinary64.evaluate (adapterReadingHelper tiedGroups)
            (settingsFor "USD") (ruleOn zeroRates cancellingPositions)).
Proof.
  split; [reflexivity|]. vm_compute. discriminate.
Qed.

(** ** What [evaluate] writes *)



(** The statement above depends on the helper: a helper that empties the
    array it is handed leaves the position set of the rule object, which
    holds that array, without positions, and so does [evaluate]. *)
Lemma evaluate_passes_on_what_the_helper_writes :
  CurrentPositions.positions
    (currentPositions
       (snd (InBinary64.evaluate (emptyingHelper tiedGroups)
               (settingsFor "USD")
               (ruleOn identityRates cancellingPositions))))
  = [] /\
  CurrentPositions.positions
    (currentPositions (ruleOn identityRates cancellingPositions))
  <> [].
Proof. split; [reflexivity|discriminate]. Qed.
